(** * encypher: Unicode variation-selector metadata codec

    A shallow embedding of [encypher/core/unicode_metadata.py] (class
    [UnicodeMetadata]) and the properties of its codec, embedder and
    verifier.

    Conventions of the embedding:
    - a Python [str] is the list of its code points ([pystr], a list of [Z]);
    - a Python [bytes] object is the list of its byte values ([bytes]);
    - a function that may raise returns a [result]: [Ok v] or [Raise e];
    - a function returning [Optional[T]] returns an [option]. *)

From Stdlib Require Import String Ascii ZArith List Lia Bool.
Import ListNotations.
Open Scope Z_scope.
#[local] Set Warnings "-register-all".

(** ** Python values *)

Abbreviation codepoint := Z (only parsing).
Abbreviation pystr := (list Z) (only parsing).
Abbreviation bytes := (list Z) (only parsing).

(** A string literal of the source, as the list of its code points. *)
Definition lit (s : string) : pystr :=
  map (fun a => Z.of_N (N_of_ascii a)) (list_ascii_of_string s).

Definition pystr_eqb (a b : pystr) : bool :=
  if list_eq_dec Z.eq_dec a b then true else false.

(** [bytes(decoded)] is defined when every item is in [range(256)]. *)
Definition is_byte (b : Z) : Prop := 0 <= b < 256.
Definition is_bytes (data : bytes) : Prop := Forall is_byte data.

(** The exceptions the module raises or lets through. [BinasciiError],
    [JSONDecodeError] and [UnicodeError] are subclasses of [ValueError] in
    Python; [catches] is the [except] test. *)
Inductive exn : Type :=
| TypeError
| ValueError
| RuntimeError
| OverflowError
| OSError
| KeyError
| IndexError
| AttributeError
| InvalidSignature
| BinasciiError
| OtherException.

Inductive exn_class : Type :=
| CTypeError | CValueError | COSError | CInvalidSignature | CBinasciiError
| CException.

Definition catches (c : exn_class) (e : exn) : bool :=
  match c, e with
  | CException, _ => true
  | CTypeError, TypeError => true
  | CValueError, ValueError => true
  | CValueError, BinasciiError => true
  | COSError, OSError => true
  | CInvalidSignature, InvalidSignature => true
  | CBinasciiError, BinasciiError => true
  | _, _ => false
  end.

Inductive result (A : Type) : Type :=
| Ok (a : A)
| Raise (e : exn).
Arguments Ok {A} a.
Arguments Raise {A} e.

Definition bind {A B} (r : result A) (k : A -> result B) : result B :=
  match r with
  | Ok a => k a
  | Raise e => Raise e
  end.

(** [try: r except (classes): handler]. *)
Definition try_except {A} (r : result A) (classes : list exn_class)
    (handler : exn -> result A) : result A :=
  match r with
  | Ok a => Ok a
  | Raise e => if existsb (fun c => catches c e) classes then handler e
               else Raise e
  end.

Declare Scope py_scope.
Notation "x <- c1 ;; c2" := (bind c1 (fun x => c2))
  (at level 61, c1 at next level, right associativity) : py_scope.
Open Scope py_scope.

(** ** The variation-selector codec *)

Definition VARIATION_SELECTOR_START : Z := 0xFE00.
Definition VARIATION_SELECTOR_END : Z := 0xFE0F.
Definition VARIATION_SELECTOR_SUPPLEMENT_START : Z := 0xE0100.
Definition VARIATION_SELECTOR_SUPPLEMENT_END : Z := 0xE01EF.

(** [to_variation_selector]: the returned one-character string is given by
    its code point. *)
Definition to_variation_selector (byte : Z) : option codepoint :=
  if (0 <=? byte) && (byte <? 16) then
    Some (VARIATION_SELECTOR_START + byte)
  else if (16 <=? byte) && (byte <? 256) then
    Some (VARIATION_SELECTOR_SUPPLEMENT_START + byte - 16)
  else None.

Definition from_variation_selector (code_point : Z) : option Z :=
  if (VARIATION_SELECTOR_START <=? code_point)
     && (code_point <=? VARIATION_SELECTOR_END) then
    Some (code_point - VARIATION_SELECTOR_START)
  else if (VARIATION_SELECTOR_SUPPLEMENT_START <=? code_point)
          && (code_point <=? VARIATION_SELECTOR_SUPPLEMENT_END) then
    Some ((code_point - VARIATION_SELECTOR_SUPPLEMENT_START) + 16)
  else None.

(** Membership in one of the two variation-selector ranges. *)
Definition in_vs_ranges (cp : Z) : Prop :=
  0xFE00 <= cp <= 0xFE0F \/ 0xE0100 <= cp <= 0xE01EF.

Definition is_vs (cp : Z) : bool :=
  match from_variation_selector cp with
  | Some _ => true
  | None => false
  end.

(** The loop of [extract_bytes]: [decoded] is the list being appended to;
    [break] returns it, [continue] goes on with the rest of the text. *)
Fixpoint extract_loop (text : pystr) (decoded : list Z) : list Z :=
  match text with
  | [] => decoded
  | char :: rest =>
      match from_variation_selector char with
      | None =>
          if (0 <? Z.of_nat (length decoded)) then decoded
          else extract_loop rest decoded
      | Some byte => extract_loop rest (decoded ++ [byte])
      end
  end.

Definition extract_bytes (text : pystr) : bytes :=
  let decoded := extract_loop text [] in
  match decoded with
  | [] => []
  | _ => decoded
  end.

(** [_bytes_to_variation_selectors]: the two comprehensions and the length
    test. *)
Definition collect_some {A} (l : list (option A)) : list A :=
  flat_map (fun o => match o with Some a => [a] | None => [] end) l.

Definition _bytes_to_variation_selectors (data : bytes) : result (list codepoint) :=
  let selectors := map to_variation_selector data in
  let valid_selectors := collect_some selectors in
  if negb (length valid_selectors =? length data)%nat then Raise ValueError
  else Ok valid_selectors.

(** The decoder in the words of the specification: skip the code points
    that are not variation selectors, then read bytes while the code points
    are variation selectors. *)
Fixpoint drop_while {A} (p : A -> bool) (l : list A) : list A :=
  match l with
  | [] => []
  | x :: r => if p x then drop_while p r else l
  end.

Fixpoint take_while {A} (p : A -> bool) (l : list A) : list A :=
  match l with
  | [] => []
  | x :: r => if p x then x :: take_while p r else []
  end.

Definition decode_bytes_spec (text : pystr) : bytes :=
  collect_some
    (map from_variation_selector
       (take_while is_vs (drop_while (fun c => negb (is_vs c)) text))).


(** ** Python objects carried by the payloads

    The JSON-like objects of the payloads. A [dict] keeps insertion order,
    which the serializers see, so it is an association list with unique
    string keys. *)

Inductive pyval : Type :=
| PNone
| PBool (b : bool)
| PInt (n : Z)
| PStr (s : pystr)
| PList (l : list pyval)
| PDict (d : list (pystr * pyval)).

Definition pydict := list (pystr * pyval).

Fixpoint dict_get (d : pydict) (k : pystr) : option pyval :=
  match d with
  | [] => None
  | (k', v) :: r => if pystr_eqb k' k then Some v else dict_get r k
  end.

(** [k in d] *)
Definition dict_contains (d : pydict) (k : pystr) : bool :=
  match dict_get d k with
  | Some _ => true
  | None => false
  end.

(** [d[k]] *)
Definition dict_index (d : pydict) (k : pystr) : result pyval :=
  match dict_get d k with
  | Some v => Ok v
  | None => Raise KeyError
  end.

(** [d[k] = v]: the value is replaced in place, a new key goes last. *)
Fixpoint dict_set (d : pydict) (k : pystr) (v : pyval) : pydict :=
  match d with
  | [] => [(k, v)]
  | (k', v') :: r =>
      if pystr_eqb k' k then (k', v) :: r else (k', v') :: dict_set r k v
  end.

(** Truth value of an optional string, list or dict argument. *)
Definition truthy {A} (o : option (list A)) : bool :=
  match o with
  | Some (_ :: _) => true
  | _ => false
  end.

Definition opt_str (o : option pystr) : pyval :=
  match o with
  | Some s => PStr s
  | None => PNone
  end.

(** ** Keys, dates and the other argument types *)

(** An Ed25519 key is given by its 32 raw bytes; the other key classes of
    [cryptography] are only told apart. [NotAPublicKey] is any other object
    a resolver may return. *)
Inductive private_key_obj : Type :=
| Ed25519PrivateKey (raw : bytes)
| OtherPrivateKey.

Inductive public_key_obj : Type :=
| Ed25519PublicKey (raw : bytes)
| RSAPublicKey
| DSAPublicKey
| DHPublicKey
| EllipticCurvePublicKey
| X25519PublicKey
| X448PublicKey
| Ed448PublicKey
| NotAPublicKey.

(** Modelled from the spec: [crypto_utils.SerializationFormat], whose
    source is not at hand. Sections 4.2 and 4.5: the serialization format
    is one of [json], [cbor] and [jumbf]. *)
Inductive SerializationFormat : Type := JSON | CBOR | JUMBF.

(** Modelled from the spec: [constants.MetadataTarget], whose source is
    not at hand. Section 4.4 names five policies, [whitespace],
    [punctuation], [first_letter], [last_letter] and [all_characters];
    they are the five keys of [REGEX_PATTERNS] in the module. *)
Inductive MetadataTarget : Type :=
| WHITESPACE
| PUNCTUATION
| FIRST_LETTER
| LAST_LETTER
| ALL_CHARACTERS.

(** The [target] argument: [None], an enum member, a string or another
    object. *)
Inductive target_arg : Type :=
| TargetNone
| TargetEnum (t : MetadataTarget)
| TargetStr (s : pystr)
| TargetOther.

(** [datetime.datetime]; [dt_tzinfo] is [None] for a naive value and the
    UTC offset in microseconds for an aware one. *)
Record datetime : Type := {
  dt_year : Z; dt_month : Z; dt_day : Z;
  dt_hour : Z; dt_minute : Z; dt_second : Z; dt_microsecond : Z;
  dt_tzinfo : option Z }.

Record date : Type := { d_year : Z; d_month : Z; d_day : Z }.

(** Epoch seconds: an [int], or a [float] given by its binary64 bits. *)
Inductive epoch : Type :=
| EpochInt (n : Z)
| EpochFloat (bits : Z).

Inductive timestamp_input : Type :=
| TsDatetime (dt : datetime)
| TsDate (d : date)
| TsEpoch (e : epoch)
| TsStr (s : pystr)
| TsOther.

(** ** The libraries the module calls

    The Python standard library and the third-party packages are not part
    of the repository; the module is embedded over their operations.
    - [json_dumps v] is [json.dumps(v, ...).encode("utf-8")] as
      [serialize_payload] calls it, [json_loads b] is
      [json.loads(b.decode("utf-8"))];
    - [cbor2_available] is [cbor2 is not None];
    - [py_dict_of v] is [dict(v)] for a [v] that is not a [dict];
    - [b64_encode] is [base64.urlsafe_b64encode], [a2b_urlsafe] is the
      decoding of an ASCII string ([binascii.a2b_base64] after the URL-safe
      translation), [None] when it raises [binascii.Error];
    - [ed25519_verify pk signature data] tells whether
      [pk.verify(signature, data)] returns rather than raises;
    - [re_space] and [re_word] are the classes [\s] and [\w] of [re] on
      [str] patterns;
    - [strftime_Y] is the platform's rendering of [%Y]. *)
Record PyLib : Type := {
  json_dumps : pyval -> result bytes;
  json_loads : bytes -> result pyval;
  cbor2_available : bool;
  cbor2_dumps : pyval -> result bytes;
  cbor2_loads : bytes -> result pyval;
  py_dict_of : pyval -> result pydict;
  b64_encode : bytes -> bytes;
  a2b_urlsafe : bytes -> option bytes;
  ed25519_sign : bytes -> bytes -> bytes;
  ed25519_verify : bytes -> bytes -> bytes -> bool;
  ed25519_public_key : bytes -> bytes;
  re_space : Z -> bool;
  re_word : Z -> bool;
  datetime_fromisoformat : pystr -> result datetime;
  datetime_fromtimestamp_utc : epoch -> result datetime;
  datetime_astimezone_utc : datetime -> result datetime;
  strftime_Y : Z -> pystr }.

(** ** [crypto_utils] *)

(** Modelled from the spec: [crypto_utils.serialize_payload], whose source
    is not at hand. Section 4.2: JSON is the compact canonical form; CBOR is the
    mapping as one CBOR map; JUMBF is the ASCII prefix [JUMBF] followed by
    the canonical JSON bytes. The default format is JSON. *)
Definition serialize_payload (L : PyLib) (payload : pydict)
    (format : SerializationFormat) : result bytes :=
  match format with
  | JSON => json_dumps L (PDict payload)
  | CBOR => cbor2_dumps L (PDict payload)
  | JUMBF => b <- json_dumps L (PDict payload) ;; Ok (lit "JUMBF" ++ b)
  end.

(** Modelled from the spec: [crypto_utils.sign_payload], whose source is
    not at hand. Section 4.3: [sign(private_key, message_bytes) -> signature_bytes], with
    an Ed25519 private key. *)
Definition sign_payload (L : PyLib) (private_key : private_key_obj)
    (message : bytes) : result bytes :=
  match private_key with
  | Ed25519PrivateKey raw => Ok (ed25519_sign L raw message)
  | OtherPrivateKey => Raise TypeError
  end.

(** Modelled from the spec: [crypto_utils.verify_signature], whose source
    is not at hand. Section 4.3: [verify(public_key, message_bytes, signature_bytes)
    -> bool] returns false on an invalid signature and raises a typed error
    only on a key-type mismatch; verification requires Ed25519. *)
Definition verify_signature (L : PyLib) (public_key : public_key_obj)
    (message signature : bytes) : result bool :=
  match public_key with
  | Ed25519PublicKey raw => Ok (ed25519_verify L raw signature message)
  | _ => Raise TypeError
  end.

(** [dict(x)] *)
Definition py_dict (L : PyLib) (x : pyval) : result pydict :=
  match x with
  | PDict d => Ok d
  | _ => py_dict_of L x
  end.

(** ** [_format_timestamp] *)

(** [datetime.combine(ts, datetime.min.time())] *)
Definition datetime_combine_min (d : date) : datetime :=
  {| dt_year := d_year d; dt_month := d_month d; dt_day := d_day d;
     dt_hour := 0; dt_minute := 0; dt_second := 0; dt_microsecond := 0;
     dt_tzinfo := None |}.

(** [dt.replace(tzinfo=timezone.utc)] *)
Definition replace_tzinfo_utc (dt : datetime) : datetime :=
  {| dt_year := dt_year dt; dt_month := dt_month dt; dt_day := dt_day dt;
     dt_hour := dt_hour dt; dt_minute := dt_minute dt;
     dt_second := dt_second dt; dt_microsecond := dt_microsecond dt;
     dt_tzinfo := Some 0 |}.

(** [ts.replace("Z", "+00:00")] *)
Definition replace_Z (ts : pystr) : pystr :=
  flat_map (fun c => if c =? 90 then lit "+00:00" else [c]) ts.

(** A field of [strftime] padded with zeros to two digits ([%m], [%d],
    [%H], [%M], [%S]). *)
Definition two_digits (n : Z) : pystr :=
  [48 + (n / 10) mod 10; 48 + n mod 10].

(** [dt.strftime("%Y-%m-%dT%H:%M:%SZ")] *)
Definition strftime_iso (L : PyLib) (dt : datetime) : pystr :=
  strftime_Y L (dt_year dt) ++ lit "-" ++ two_digits (dt_month dt)
    ++ lit "-" ++ two_digits (dt_day dt) ++ lit "T"
    ++ two_digits (dt_hour dt) ++ lit ":" ++ two_digits (dt_minute dt)
    ++ lit ":" ++ two_digits (dt_second dt) ++ lit "Z".

Definition _format_timestamp (L : PyLib) (ts : option timestamp_input)
    : result (option pystr) :=
  match ts with
  | None => Ok None
  | Some ts =>
      dt <- match ts with
            | TsDatetime dt => Ok dt
            | TsDate d => Ok (datetime_combine_min d)
            | TsEpoch e =>
                try_except (datetime_fromtimestamp_utc L e)
                  [COSError; CValueError] (fun _ => Raise ValueError)
            | TsStr s =>
                try_except (datetime_fromisoformat L (replace_Z s))
                  [CValueError] (fun _ => Raise ValueError)
            | TsOther => Raise TypeError
            end ;;
      dt <- match dt_tzinfo dt with
            | None => Ok (replace_tzinfo_utc dt)
            | Some _ => datetime_astimezone_utc L dt
            end ;;
      Ok (Some (strftime_iso L dt))
  end.

(** ** [find_targets] *)

(** Modelled from the spec: [MetadataTarget(value)], the lookup of a
    member by its value in [constants.MetadataTarget], whose source is not
    at hand. The values are the policy names of section 4.4, in lower
    case, and any other value raises [ValueError], as every [Enum]
    does. *)
Definition MetadataTarget_of_value (v : pystr) : result MetadataTarget :=
  if pystr_eqb v (lit "whitespace") then Ok WHITESPACE
  else if pystr_eqb v (lit "punctuation") then Ok PUNCTUATION
  else if pystr_eqb v (lit "first_letter") then Ok FIRST_LETTER
  else if pystr_eqb v (lit "last_letter") then Ok LAST_LETTER
  else if pystr_eqb v (lit "all_characters") then Ok ALL_CHARACTERS
  else Raise ValueError.

(** [str.lower()] on the ASCII letters, which is all the member values
    contain. *)
Definition str_lower (s : pystr) : pystr :=
  map (fun c => if (65 <=? c) && (c <=? 90) then c + 32 else c) s.

(** Whether the pattern of [REGEX_PATTERNS] for the target matches at index
    [i] of [text]. Every pattern consumes exactly one character; [\b] looks
    at the neighbour. *)
Definition char_at (text : pystr) (i : nat) : option Z := nth_error text i.

Definition is_word_at (L : PyLib) (text : pystr) (i : nat) : bool :=
  match char_at text i with
  | Some c => re_word L c
  | None => false
  end.

Definition pattern_matches_at (L : PyLib) (t : MetadataTarget)
    (text : pystr) (i : nat) : bool :=
  match char_at text i with
  | None => false
  | Some c =>
      match t with
      | WHITESPACE => re_space L c
      | PUNCTUATION =>
          existsb (fun p => c =? p) (lit ".,!?;:")
      | FIRST_LETTER =>
          re_word L c
          && match i with
             | O => true
             | S j => negb (is_word_at L text j)
             end
      | LAST_LETTER => re_word L c && negb (is_word_at L text (S i))
      | ALL_CHARACTERS => negb (c =? 10)
      end
  end.

(** [[m.start() for m in pattern.finditer(text)]] *)
Definition finditer_starts (L : PyLib) (t : MetadataTarget) (text : pystr)
    : list nat :=
  filter (pattern_matches_at L t text) (seq 0 (length text)).

Definition find_targets (L : PyLib) (text : pystr) (target : target_arg)
    : result (list nat) :=
  target_enum <-
    match target with
    | TargetNone => Ok WHITESPACE
    | TargetEnum t => Ok t
    | TargetStr s =>
        try_except (MetadataTarget_of_value (str_lower s))
          [CValueError] (fun _ => Raise ValueError)
    | TargetOther => Raise TypeError
    end ;;
  Ok (finditer_starts L target_enum text).

(** ** [embed_metadata] *)

Record embed_args : Type := {
  arg_text : pystr;
  arg_private_key : private_key_obj;
  arg_signer_id : pystr;
  arg_metadata_format : pystr;
  arg_serialization_format : SerializationFormat;
  arg_model_id : option pystr;
  arg_timestamp : option timestamp_input;
  arg_generationID : option pystr;
  arg_target : target_arg;
  arg_custom_metadata : option pydict;
  arg_claim_generator : option pystr;
  arg_actions : option (list pyval);
  arg_ai_info : option pydict;
  arg_custom_claims : option pydict;
  arg_distribute_across_targets : bool }.

Definition raise_if (b : bool) (e : exn) : result unit :=
  if b then Raise e else Ok tt.

(** Input validation, for a call whose arguments have the types of the
    signature: the arguments typed here as [str], [bool] and
    [SerializationFormat] pass their [isinstance] tests, and the log
    message at the head of the function, which reads
    [serialization_format.value], returns. The tests on objects of any
    type, and the log message, are in [embed_call_validate]. *)
Definition embed_validate (a : embed_args) : result unit :=
  _ <- match arg_private_key a with
       | Ed25519PrivateKey _ => Ok tt
       | OtherPrivateKey => Raise TypeError
       end ;;
  _ <- raise_if (negb (truthy (Some (arg_signer_id a)))) ValueError ;;
  _ <- match arg_timestamp a with
       | None => Raise ValueError
       | Some _ => Ok tt
       end ;;
  _ <- match arg_target a with
       | TargetNone => Ok tt
       | TargetEnum _ => Ok tt
       | TargetStr s =>
           _ <- try_except (MetadataTarget_of_value (str_lower s))
                  [CValueError] (fun _ => Raise ValueError) ;;
           Ok tt
       | TargetOther => Raise TypeError
       end ;;
  raise_if (negb (pystr_eqb (arg_metadata_format a) (lit "basic")
                  || pystr_eqb (arg_metadata_format a) (lit "manifest")))
    ValueError.

Definition standard_keys : list pystr :=
  [lit "signer_id"; lit "timestamp"; lit "format"; lit "model_id";
   lit "generationID"].

Definition is_standard_key (k : pystr) : bool :=
  existsb (pystr_eqb k) standard_keys.

(** The three entries both payload formats start from. *)
Definition payload_head (a : embed_args) (iso_timestamp : option pystr)
    : pydict :=
  [(lit "signer_id", PStr (arg_signer_id a));
   (lit "timestamp", opt_str iso_timestamp);
   (lit "format", PStr (arg_metadata_format a))].

Definition set_if_truthy (d : pydict) (k : pystr) (o : option pystr)
    : pydict :=
  match o with
  | Some s => if truthy o then dict_set d k (PStr s) else d
  | None => d
  end.

Definition basic_payload (a : embed_args) (iso_timestamp : option pystr)
    : pydict :=
  let payload_data := payload_head a iso_timestamp in
  let payload_data := set_if_truthy payload_data (lit "model_id") (arg_model_id a) in
  let payload_data :=
    set_if_truthy payload_data (lit "generationID") (arg_generationID a) in
  match arg_custom_metadata a with
  | Some custom_metadata =>
      if truthy (arg_custom_metadata a) then
        if existsb (fun kv => is_standard_key (fst kv)) custom_metadata then
          let filtered_custom :=
            filter (fun kv => negb (is_standard_key (fst kv))) custom_metadata in
          dict_set payload_data (lit "custom_metadata") (PDict filtered_custom)
        else
          dict_set payload_data (lit "custom_metadata") (PDict custom_metadata)
      else payload_data
  | None => payload_data
  end.

(** [inner_manifest["ai_info"]["model_id"] = model_id] *)
Definition set_ai_info_model_id (inner_manifest : pydict) (model_id : pystr)
    : pydict :=
  let inner_manifest :=
    if dict_contains inner_manifest (lit "ai_info") then inner_manifest
    else dict_set inner_manifest (lit "ai_info") (PDict []) in
  match dict_get inner_manifest (lit "ai_info") with
  | Some (PDict ai) =>
      dict_set inner_manifest (lit "ai_info")
        (PDict (dict_set ai (lit "model_id") (PStr model_id)))
  | _ => inner_manifest
  end.

Definition manifest_payload (a : embed_args) (iso_timestamp : option pystr)
    : pydict :=
  let payload_data := payload_head a iso_timestamp in
  let inner_manifest : pydict := [] in
  let inner_manifest :=
    set_if_truthy inner_manifest (lit "claim_generator") (arg_claim_generator a) in
  let inner_manifest :=
    match arg_actions a with
    | Some acts => if truthy (arg_actions a)
                   then dict_set inner_manifest (lit "actions") (PList acts)
                   else inner_manifest
    | None => inner_manifest
    end in
  let inner_manifest :=
    match arg_ai_info a with
    | Some ai => if truthy (arg_ai_info a)
                 then dict_set inner_manifest (lit "ai_info") (PDict ai)
                 else inner_manifest
    | None => inner_manifest
    end in
  let inner_manifest :=
    match arg_custom_claims a with
    | Some cc => if truthy (arg_custom_claims a)
                 then dict_set inner_manifest (lit "custom_claims") (PDict cc)
                 else inner_manifest
    | None => inner_manifest
    end in
  let inner_manifest :=
    match arg_model_id a with
    | Some m => if truthy (arg_model_id a)
                then set_ai_info_model_id inner_manifest m
                else inner_manifest
    | None => inner_manifest
    end in
  dict_set payload_data (lit "manifest") (PDict inner_manifest).

(** Validation, timestamp conversion and payload construction: the value of
    [payload_data] when signing starts. *)
Definition embed_payload (L : PyLib) (a : embed_args) : result pydict :=
  _ <- embed_validate a ;;
  iso_timestamp <-
    try_except (_format_timestamp L (arg_timestamp a))
      [CValueError; CTypeError] (fun _ => Raise ValueError) ;;
  if pystr_eqb (arg_metadata_format a) (lit "basic") then
    Ok (basic_payload a iso_timestamp)
  else if pystr_eqb (arg_metadata_format a) (lit "manifest") then
    iso_timestamp <- _format_timestamp L (arg_timestamp a) ;;
    Ok (manifest_payload a iso_timestamp)
  else Raise ValueError.

(** [bytes.rstrip(b"=")] *)
Fixpoint rstrip_eq (b : bytes) : bytes :=
  match b with
  | [] => []
  | c :: r =>
      match rstrip_eq r with
      | [] => if c =? 61 then [] else [c]
      | r' => c :: r'
      end
  end.

(** [bytes.decode("ascii")] *)
Definition decode_ascii (b : bytes) : result pystr :=
  if forallb (fun c => c <? 128) b then Ok b else Raise ValueError.

(** The signing block: the base64 text of the signature of the canonical
    payload bytes. *)
Definition embed_signature (L : PyLib) (a : embed_args)
    (payload_data : pydict) : result pystr :=
  try_except
    (canonical_payload_bytes <- serialize_payload L payload_data JSON ;;
     signature <- sign_payload L (arg_private_key a) canonical_payload_bytes ;;
     decode_ascii (rstrip_eq (b64_encode L signature)))
    [CException] (fun _ => Raise RuntimeError).

Definition outer_payload_of (a : embed_args) (payload_data : pydict)
    (signature_b64 : pystr) : pydict :=
  [(lit "payload", PDict payload_data);
   (lit "signature", PStr signature_b64);
   (lit "signer_id", PStr (arg_signer_id a));
   (lit "format", PStr (arg_metadata_format a))].

(** The value of [outer_payload_to_embed]. *)
Definition embed_outer_payload (L : PyLib) (a : embed_args) : result pydict :=
  payload_data <- embed_payload L a ;;
  signature_b64 <- embed_signature L a payload_data ;;
  Ok (outer_payload_of a payload_data signature_b64).

(** The value of [selector_chars]. *)
Definition embed_selectors (L : PyLib) (a : embed_args)
    : result (list codepoint) :=
  outer_payload_to_embed <- embed_outer_payload L a ;;
  outer_bytes <-
    try_except
      (serialize_payload L outer_payload_to_embed (arg_serialization_format a))
      [CException] (fun _ => Raise RuntimeError) ;;
  try_except (_bytes_to_variation_selectors outer_bytes)
    [CValueError] (fun _ => Raise RuntimeError).

(** [text[a:b]], [text[a:]] and [text[:b]] for indices that are not
    negative. *)
Definition slice (text : pystr) (a b : nat) : pystr :=
  firstn (b - a) (skipn a text).
Definition slice_from (text : pystr) (a : nat) : pystr := skipn a text.
Definition slice_to (text : pystr) (b : nat) : pystr := firstn b text.

(** [list.sort()] on the indices. *)
Fixpoint insert_sorted (x : nat) (l : list nat) : list nat :=
  match l with
  | [] => [x]
  | y :: r => if (x <=? y)%nat then x :: l else y :: insert_sorted x r
  end.

Fixpoint sort_indices (l : list nat) : list nat :=
  match l with
  | [] => []
  | x :: r => insert_sorted x (sort_indices r)
  end.

(** The [for target_idx in target_indices] loop of the distributed mode,
    from the state [(result_parts, last_text_idx, selector_idx)]; it
    returns [result_parts] and [last_text_idx] at its exit. *)
Fixpoint distribute_loop (text : pystr) (selector_chars : list codepoint)
    (target_indices : list nat) (result_parts : list pystr)
    (last_text_idx selector_idx : nat) : result (list pystr * nat) :=
  match target_indices with
  | [] => Ok (result_parts, last_text_idx)
  | target_idx :: rest =>
      if (selector_idx <? length selector_chars)%nat then
        match nth_error text target_idx,
              nth_error selector_chars selector_idx with
        | Some c, Some s =>
            distribute_loop text selector_chars rest
              (result_parts
                 ++ [slice text last_text_idx target_idx; [c]; [s]])
              (target_idx + 1) (selector_idx + 1)
        | _, _ => Raise IndexError
        end
      else Ok (result_parts, last_text_idx)
  end.

(** [target if target is not None else MetadataTarget.WHITESPACE] *)
Definition embedding_target_of (target : target_arg) : target_arg :=
  match target with
  | TargetNone => TargetEnum WHITESPACE
  | t => t
  end.

(** Steps 9 and 10: find the targets and splice the selectors in. *)
Definition embed_splice (L : PyLib) (a : embed_args)
    (selector_chars : list codepoint) : result pystr :=
  let text := arg_text a in
  let embedding_target := embedding_target_of (arg_target a) in
  target_indices <-
    try_except (find_targets L text embedding_target)
      [CValueError] (fun _ => Raise ValueError) ;;
  match target_indices with
  | [] => Raise ValueError
  | first_target :: _ =>
      if arg_distribute_across_targets a then
        if (length target_indices <? length selector_chars)%nat then
          Raise ValueError
        else
          let target_indices := sort_indices target_indices in
          st <- distribute_loop text selector_chars target_indices [] 0 0 ;;
          let '(result_parts, last_text_idx) := st in
          Ok (concat (result_parts ++ [slice_from text last_text_idx]))
      else
        let target_idx := first_target in
        Ok (slice_to text (target_idx + 1) ++ selector_chars
              ++ slice_from text (target_idx + 1))
  end.

Definition embed_metadata (L : PyLib) (a : embed_args) : result pystr :=
  selector_chars <- embed_selectors L a ;;
  match selector_chars with
  | [] => Ok (arg_text a)
  | _ => embed_splice L a selector_chars
  end.

(** The text without its variation-selector code points. *)
Definition strip_vs (text : pystr) : pystr :=
  filter (fun c => negb (is_vs c)) text.

(** ** Extraction and verification *)

(** [data.startswith(prefix)] *)
Fixpoint startswith (data prefix : bytes) {struct prefix} : bool :=
  match prefix, data with
  | [], _ => true
  | p :: ps, d :: ds => (d =? p) && startswith ds ps
  | _ :: _, [] => false
  end.

(** A [try: return f() except Exception: return None] block. *)
Definition or_none (r : result pyval) : pyval :=
  match r with
  | Ok v => v
  | Raise _ => PNone
  end.

Definition _deserialize_outer_bytes (L : PyLib) (data : bytes) : pyval :=
  if startswith data (lit "JUMBF") then or_none (json_loads L (skipn 5 data))
  else
    match json_loads L data with
    | Ok v => v
    | Raise _ =>
        if cbor2_available L then or_none (cbor2_loads L data) else PNone
    end.

Definition required_keys : list pystr :=
  [lit "payload"; lit "signature"; lit "signer_id"; lit "format"].

Definition _extract_outer_payload (L : PyLib) (text : pystr)
    : option pydict :=
  let outer_bytes := extract_bytes text in
  match outer_bytes with
  | [] => None
  | _ =>
      match _deserialize_outer_bytes L outer_bytes with
      | PNone => None
      | PDict outer_data =>
          if forallb (dict_contains outer_data) required_keys
          then Some outer_data else None
      | _ => None
      end
  end.

(** The resolver argument: a callable from the signer id to a key object,
    [None] or an exception; or an object that cannot be called. *)
Inductive provider_arg : Type :=
| Callable (f : pyval -> result (option public_key_obj))
| NotCallable.

Definition call_provider (p : provider_arg) (signer_id : pyval)
    : result (option public_key_obj) :=
  match p with
  | Callable f => f signer_id
  | NotCallable => Raise TypeError
  end.

(** The [isinstance] disjunction on the resolved key. *)
Definition is_asymmetric_public_key (k : public_key_obj) : bool :=
  match k with
  | NotAPublicKey => false
  | _ => true
  end.

(** [base64.urlsafe_b64decode(s)] for a [str]: the string must be ASCII,
    or [ValueError] is raised; then the bytes are decoded. *)
Definition urlsafe_b64decode (L : PyLib) (s : pystr) : result bytes :=
  if forallb (fun c => c <? 128) s then
    match a2b_urlsafe L s with
    | Some b => Ok b
    | None => Raise BinasciiError
    end
  else Raise ValueError.

(** [-n % 4] *)
Definition pad_len (n : nat) : nat := Z.to_nat ((- Z.of_nat n) mod 4).

(** [base64.urlsafe_b64decode(signature_b64 + "=" * (-len(signature_b64) % 4))]
    for whatever object the envelope holds as its signature. *)
Definition decode_signature (L : PyLib) (signature_b64 : pyval)
    : result bytes :=
  match signature_b64 with
  | PStr s => urlsafe_b64decode L (s ++ repeat 61 (pad_len (length s)))
  | _ => Raise TypeError
  end.

(** What a call returns or raises, with the signer ids the resolver was
    called with. *)
Record outcome : Type := {
  provider_calls : list pyval;
  returned : result (pyval * bool * pyval) }.

Definition failure (return_payload_on_failure : bool)
    (inner_payload signer_id : pyval) : result (pyval * bool * pyval) :=
  Ok (if return_payload_on_failure then inner_payload else PNone,
      false, signer_id).

(** Steps 4 to 7, once a key object of an accepted class is in hand. *)
Definition verify_with_key (L : PyLib) (public_key : public_key_obj)
    (inner_payload signature_b64 signer_id : pyval)
    (return_payload_on_failure : bool) : result (pyval * bool * pyval) :=
  let fail := failure return_payload_on_failure inner_payload signer_id in
  match (d <- py_dict L inner_payload ;; serialize_payload L d JSON) with
  | Raise _ => fail
  | Ok canonical_payload_bytes =>
      match decode_signature L signature_b64 with
      | Raise e =>
          if catches CBinasciiError e || catches CTypeError e then fail
          else Raise e
      | Ok signature_bytes =>
          match verify_signature L public_key canonical_payload_bytes
                  signature_bytes with
          | Raise _ => fail
          | Ok is_valid =>
              if is_valid then Ok (inner_payload, true, signer_id)
              else fail
          end
      end
  end.

Definition verify_and_extract_metadata (L : PyLib) (text : pystr)
    (public_key_provider : provider_arg) (return_payload_on_failure : bool)
    : outcome :=
  match _extract_outer_payload L text with
  | None => {| provider_calls := []; returned := Ok (PNone, false, PNone) |}
  | Some outer_payload =>
      match dict_index outer_payload (lit "signer_id"),
            dict_index outer_payload (lit "payload"),
            dict_index outer_payload (lit "signature") with
      | Ok signer_id, Ok inner_payload, Ok signature_b64 =>
          let fail :=
            failure return_payload_on_failure inner_payload signer_id in
          {| provider_calls := [signer_id];
             returned :=
               match call_provider public_key_provider signer_id with
               | Raise _ => fail
               | Ok None => fail
               | Ok (Some public_key) =>
                   if negb (is_asymmetric_public_key public_key) then fail
                   else verify_with_key L public_key inner_payload
                          signature_b64 signer_id return_payload_on_failure
               end |}
      | _, _, _ => {| provider_calls := []; returned := Raise KeyError |}
      end
  end.

Definition verify_metadata (L : PyLib) (text : pystr)
    (public_key_provider : provider_arg) (return_payload_on_failure : bool)
    : outcome :=
  match text with
  | [] => {| provider_calls := []; returned := Ok (PNone, false, PNone) |}
  | _ =>
      match public_key_provider with
      | NotCallable => {| provider_calls := []; returned := Raise TypeError |}
      | Callable _ =>
          verify_and_extract_metadata L text public_key_provider
            return_payload_on_failure
      end
  end.

Definition extract_metadata (L : PyLib) (text : pystr) : pyval :=
  match _extract_outer_payload L text with
  | Some outer_payload =>
      match outer_payload with
      | [] => PNone
      | _ =>
          match dict_get outer_payload (lit "payload") with
          | Some (PDict payload) => PDict payload
          | _ => PNone
          end
      end
  | None => PNone
  end.

(** ** A reference instance of the libraries

    An executable instance of [PyLib], used to run the embedding on concrete
    inputs: a reader and writer for compact ASCII JSON and for a subset of
    CBOR, URL-safe base64 with strict decoding, a keyed checksum with the
    interface of Ed25519, the character classes on Latin-1, and the
    proleptic Gregorian calendar. *)

Module RefJson.

(** *** JSON *)

Definition hex_digit (n : Z) : Z := if n <? 10 then 48 + n else 87 + n.

Definition hex_value (c : Z) : option Z :=
  if (48 <=? c) && (c <=? 57) then Some (c - 48)
  else if (97 <=? c) && (c <=? 102) then Some (c - 87)
  else if (65 <=? c) && (c <=? 70) then Some (c - 55)
  else None.

Definition u_escape (c : Z) : bytes :=
  [92; 117] ++ [hex_digit (c / 4096 mod 16); hex_digit (c / 256 mod 16);
               hex_digit (c / 16 mod 16); hex_digit (c mod 16)].

Definition escape_char (c : Z) : bytes :=
  if c =? 34 then [92; 34]
  else if c =? 92 then [92; 92]
  else if (32 <=? c) && (c <? 127) then [c]
  else if c <=? 0xFFFF then u_escape c
  else u_escape (0xD800 + (c - 0x10000) / 1024)
         ++ u_escape (0xDC00 + (c - 0x10000) mod 1024).

Definition print_string (s : pystr) : bytes :=
  [34] ++ flat_map escape_char s ++ [34].

Fixpoint print_nat_digits (fuel : nat) (n : Z) (acc : bytes) : bytes :=
  match fuel with
  | O => acc
  | S f =>
      if n <? 10 then (48 + n) :: acc
      else print_nat_digits f (n / 10) ((48 + n mod 10) :: acc)
  end.

Definition print_int (n : Z) : bytes :=
  if n <? 0 then 45 :: print_nat_digits (S (Z.to_nat (Z.log2 (- n)))) (- n) []
  else print_nat_digits (S (Z.to_nat (Z.log2 n))) n [].

Fixpoint print_value (v : pyval) : bytes :=
  match v with
  | PNone => lit "null"
  | PBool true => lit "true"
  | PBool false => lit "false"
  | PInt n => print_int n
  | PStr s => print_string s
  | PList l =>
      lit "["
        ++ (fix items (l : list pyval) : bytes :=
              match l with
              | [] => []
              | x :: r =>
                  print_value x
                    ++ match r with [] => [] | _ => lit "," ++ items r end
              end) l
        ++ lit "]"
  | PDict d =>
      lit "{"
        ++ (fix members (d : list (pystr * pyval)) : bytes :=
              match d with
              | [] => []
              | (k, x) :: r =>
                  print_string k ++ lit ":" ++ print_value x
                    ++ match r with [] => [] | _ => lit "," ++ members r end
              end) d
        ++ lit "}"
  end.

Definition json_dumps (v : pyval) : result bytes := Ok (print_value v).

Definition read_hex4 (s : bytes) : option (Z * bytes) :=
  match s with
  | a :: b :: c :: d :: r =>
      match hex_value a, hex_value b, hex_value c, hex_value d with
      | Some a, Some b, Some c, Some d =>
          Some (a * 4096 + b * 256 + c * 16 + d, r)
      | _, _, _, _ => None
      end
  | _ => None
  end.

(** The characters of a string after its opening quote. *)
Fixpoint read_string (fuel : nat) (s : bytes) (acc : pystr)
    : option (pystr * bytes) :=
  match fuel with
  | O => None
  | S f =>
      match s with
      | [] => None
      | c :: r =>
          if c =? 34 then Some (acc, r)
          else if c =? 92 then
            match r with
            | [] => None
            | e :: r' =>
                if e =? 117 then
                  match read_hex4 r' with
                  | None => None
                  | Some (hi, r'') =>
                      if (0xD800 <=? hi) && (hi <=? 0xDBFF) then
                        match r'' with
                        | b :: u :: r3 =>
                            match read_hex4 r3 with
                            | Some (lo, r4) =>
                                if (b =? 92) && (u =? 117)
                                   && (0xDC00 <=? lo) && (lo <=? 0xDFFF)
                                then read_string f r4
                                       (acc ++ [0x10000 + (hi - 0xD800) * 1024
                                                + (lo - 0xDC00)])
                                else read_string f r'' (acc ++ [hi])
                            | None => read_string f r'' (acc ++ [hi])
                            end
                        | _ => read_string f r'' (acc ++ [hi])
                        end
                      else read_string f r'' (acc ++ [hi])
                  end
                else if e =? 110 then read_string f r' (acc ++ [10])
                else if e =? 116 then read_string f r' (acc ++ [9])
                else if e =? 114 then read_string f r' (acc ++ [13])
                else if e =? 98 then read_string f r' (acc ++ [8])
                else if e =? 102 then read_string f r' (acc ++ [12])
                else if (e =? 34) || (e =? 92) || (e =? 47)
                then read_string f r' (acc ++ [e])
                else None
            end
          else if (32 <=? c) && (c <? 128) then read_string f r (acc ++ [c])
          else None
      end
  end.

Fixpoint read_digits (s : bytes) (acc : Z) : Z * bytes :=
  match s with
  | c :: r =>
      if (48 <=? c) && (c <=? 57) then read_digits r (acc * 10 + (c - 48))
      else (acc, s)
  | [] => (acc, [])
  end.

Definition is_digit (c : Z) : bool := (48 <=? c) && (c <=? 57).

Definition read_int (s : bytes) : option (pyval * bytes) :=
  match s with
  | c :: r =>
      if c =? 45 then
        match r with
        | d :: _ =>
            if is_digit d then
              let '(n, rest) := read_digits r 0 in Some (PInt (- n), rest)
            else None
        | [] => None
        end
      else if is_digit c then
        let '(n, rest) := read_digits s 0 in Some (PInt n, rest)
      else None
  | [] => None
  end.

(** A value; the items of an array after its bracket or a comma; the
    members of an object likewise. Every call consumes input, so the length
    of the input is fuel enough. *)
Fixpoint read_value (fuel : nat) (s : bytes) {struct fuel}
    : option (pyval * bytes) :=
  match fuel with
  | O => None
  | S f =>
      match s with
      | [] => None
      | c :: r =>
          if c =? 123 then
            match r with
            | c' :: r' =>
                if c' =? 125 then Some (PDict [], r')
                else match read_members f r [] with
                     | Some (d, rest) => Some (PDict d, rest)
                     | None => None
                     end
            | [] => None
            end
          else if c =? 91 then
            match r with
            | c' :: r' =>
                if c' =? 93 then Some (PList [], r')
                else match read_items f r [] with
                     | Some (l, rest) => Some (PList l, rest)
                     | None => None
                     end
            | [] => None
            end
          else if c =? 34 then
            match read_string (length r) r [] with
            | Some (str, rest) => Some (PStr str, rest)
            | None => None
            end
          else if startswith s (lit "null") then Some (PNone, skipn 4 s)
          else if startswith s (lit "true") then Some (PBool true, skipn 4 s)
          else if startswith s (lit "false") then Some (PBool false, skipn 5 s)
          else read_int s
      end
  end

with read_items (fuel : nat) (s : bytes) (acc : list pyval) {struct fuel}
    : option (list pyval * bytes) :=
  match fuel with
  | O => None
  | S f =>
      match read_value f s with
      | Some (v, c :: rest) =>
          if c =? 93 then Some (acc ++ [v], rest)
          else if c =? 44 then read_items f rest (acc ++ [v])
          else None
      | _ => None
      end
  end

with read_members (fuel : nat) (s : bytes) (acc : pydict) {struct fuel}
    : option (pydict * bytes) :=
  match fuel with
  | O => None
  | S f =>
      match s with
      | q :: r =>
          if q =? 34 then
            match read_string (length r) r [] with
            | Some (k, colon :: r') =>
                if colon =? 58 then
                  match read_value f r' with
                  | Some (v, c :: rest) =>
                      if c =? 125 then Some (dict_set acc k v, rest)
                      else if c =? 44
                      then read_members f rest (dict_set acc k v)
                      else None
                  | _ => None
                  end
                else None
            | _ => None
            end
          else None
      | [] => None
      end
  end.

Definition json_loads (data : bytes) : result pyval :=
  match read_value (S (length data)) data with
  | Some (v, []) => Ok v
  | _ => Raise ValueError
  end.

End RefJson.

Module RefCodecs.

(** *** CBOR (RFC 8949): unsigned and negative integers, text strings of
    ASCII characters, arrays, maps with text keys, false, true and null. *)

Definition be_bytes (width : nat) (n : Z) : bytes :=
  map (fun i => (n / 256 ^ Z.of_nat i) mod 256) (rev (seq 0 width)).

Definition cbor_head (major : Z) (n : Z) : bytes :=
  if n <? 24 then [major * 32 + n]
  else if n <? 256 then (major * 32 + 24) :: be_bytes 1 n
  else if n <? 65536 then (major * 32 + 25) :: be_bytes 2 n
  else if n <? 4294967296 then (major * 32 + 26) :: be_bytes 4 n
  else (major * 32 + 27) :: be_bytes 8 n.

Definition cbor_text (s : pystr) : bytes :=
  cbor_head 3 (Z.of_nat (length s)) ++ s.

Fixpoint cbor_encode (v : pyval) : bytes :=
  match v with
  | PNone => [0xf6]
  | PBool true => [0xf5]
  | PBool false => [0xf4]
  | PInt n => if n <? 0 then cbor_head 1 (- 1 - n) else cbor_head 0 n
  | PStr s => cbor_text s
  | PList l =>
      cbor_head 4 (Z.of_nat (length l))
        ++ (fix items (l : list pyval) : bytes :=
              match l with
              | [] => []
              | x :: r => cbor_encode x ++ items r
              end) l
  | PDict d =>
      cbor_head 5 (Z.of_nat (length d))
        ++ (fix members (d : list (pystr * pyval)) : bytes :=
              match d with
              | [] => []
              | (k, x) :: r => cbor_text k ++ cbor_encode x ++ members r
              end) d
  end.

Fixpoint all_ascii_value (v : pyval) : bool :=
  match v with
  | PStr s => forallb (fun c => (0 <=? c) && (c <? 128)) s
  | PList l =>
      (fix items (l : list pyval) : bool :=
         match l with
         | [] => true
         | x :: r => all_ascii_value x && items r
         end) l
  | PDict d =>
      (fix members (d : list (pystr * pyval)) : bool :=
         match d with
         | [] => true
         | (k, x) :: r =>
             forallb (fun c => (0 <=? c) && (c <? 128)) k
             && all_ascii_value x && members r
         end) d
  | _ => true
  end.

Definition cbor2_dumps (v : pyval) : result bytes :=
  if all_ascii_value v then Ok (cbor_encode v) else Raise ValueError.

Definition from_be (b : bytes) : Z := fold_left (fun acc x => acc * 256 + x) b 0.

(** The argument of an initial byte with additional information [info]. *)
Definition read_arg (info : Z) (s : bytes) : option (Z * bytes) :=
  if info <? 24 then Some (info, s)
  else
    let width :=
      if info =? 24 then Some 1%nat else if info =? 25 then Some 2%nat
      else if info =? 26 then Some 4%nat else if info =? 27 then Some 8%nat
      else None in
    match width with
    | Some w =>
        if (length s <? w)%nat then None
        else Some (from_be (firstn w s), skipn w s)
    | None => None
    end.

Definition read_text (s : bytes) : option (pystr * bytes) :=
  match s with
  | b :: r =>
      if b / 32 =? 3 then
        match read_arg (b mod 32) r with
        | Some (n, r') =>
            if (length r' <? Z.to_nat n)%nat then None
            else if forallb (fun c => c <? 128) (firstn (Z.to_nat n) r')
            then Some (firstn (Z.to_nat n) r', skipn (Z.to_nat n) r')
            else None
        | None => None
        end
      else None
  | [] => None
  end.

Fixpoint cbor_read (fuel : nat) (s : bytes) {struct fuel}
    : option (pyval * bytes) :=
  match fuel with
  | O => None
  | S f =>
      match s with
      | [] => None
      | b :: r =>
          let major := b / 32 in
          if b =? 0xf6 then Some (PNone, r)
          else if b =? 0xf5 then Some (PBool true, r)
          else if b =? 0xf4 then Some (PBool false, r)
          else if major =? 3 then
            match read_text s with
            | Some (str, rest) => Some (PStr str, rest)
            | None => None
            end
          else
            match read_arg (b mod 32) r with
            | None => None
            | Some (n, r') =>
                if major =? 0 then Some (PInt n, r')
                else if major =? 1 then Some (PInt (- 1 - n), r')
                else if major =? 4 then
                  match cbor_items f (Z.to_nat n) r' [] with
                  | Some (l, rest) => Some (PList l, rest)
                  | None => None
                  end
                else if major =? 5 then
                  match cbor_members f (Z.to_nat n) r' [] with
                  | Some (d, rest) => Some (PDict d, rest)
                  | None => None
                  end
                else None
            end
      end
  end

with cbor_items (fuel : nat) (count : nat) (s : bytes) (acc : list pyval)
    {struct fuel} : option (list pyval * bytes) :=
  match fuel with
  | O => None
  | S f =>
      match count with
      | O => Some (acc, s)
      | S count' =>
          match cbor_read f s with
          | Some (v, rest) => cbor_items f count' rest (acc ++ [v])
          | None => None
          end
      end
  end

with cbor_members (fuel : nat) (count : nat) (s : bytes) (acc : pydict)
    {struct fuel} : option (pydict * bytes) :=
  match fuel with
  | O => None
  | S f =>
      match count with
      | O => Some (acc, s)
      | S count' =>
          match read_text s with
          | Some (k, r) =>
              match cbor_read f r with
              | Some (v, rest) => cbor_members f count' rest (dict_set acc k v)
              | None => None
              end
          | None => None
          end
      end
  end.

Definition cbor2_loads (data : bytes) : result pyval :=
  match cbor_read (2 * length data + 2) data with
  | Some (v, []) => Ok v
  | _ => Raise ValueError
  end.

(** [dict(x)] for an [x] that is not a dict: an empty string or list gives
    the empty dict, a list of two-item lists with string keys gives their
    dict, anything else raises. *)
Fixpoint dict_of_pairs (l : list pyval) (acc : pydict) : result pydict :=
  match l with
  | [] => Ok acc
  | PList [PStr k; v] :: r => dict_of_pairs r (dict_set acc k v)
  | PList [_; _] :: _ => Raise TypeError
  | PList _ :: _ => Raise ValueError
  | PStr _ :: _ => Raise ValueError
  | _ :: _ => Raise TypeError
  end.

Definition py_dict_of (x : pyval) : result pydict :=
  match x with
  | PStr [] => Ok []
  | PStr _ => Raise ValueError
  | PList l => dict_of_pairs l []
  | PDict d => Ok d
  | _ => Raise TypeError
  end.

(** *** URL-safe base64 (RFC 4648, section 5) *)

Definition b64_char (n : Z) : Z :=
  if n <? 26 then 65 + n
  else if n <? 52 then 97 + (n - 26)
  else if n <? 62 then 48 + (n - 52)
  else if n =? 62 then 45
  else 95.

Definition b64_value (c : Z) : option Z :=
  if (65 <=? c) && (c <=? 90) then Some (c - 65)
  else if (97 <=? c) && (c <=? 122) then Some (c - 97 + 26)
  else if (48 <=? c) && (c <=? 57) then Some (c - 48 + 52)
  else if c =? 45 then Some 62
  else if c =? 95 then Some 63
  else None.

Fixpoint b64_encode (data : bytes) : bytes :=
  match data with
  | [] => []
  | [a] => [b64_char (a / 4); b64_char (a mod 4 * 16); 61; 61]
  | [a; b] =>
      [b64_char (a / 4); b64_char (a mod 4 * 16 + b / 16);
       b64_char (b mod 16 * 4); 61]
  | a :: b :: c :: r =>
      [b64_char (a / 4); b64_char (a mod 4 * 16 + b / 16);
       b64_char (b mod 16 * 4 + c / 64); b64_char (c mod 64)]
        ++ b64_encode r
  end.

(** Strict decoding: groups of four characters, padding only at the end. *)
Fixpoint a2b_groups (fuel : nat) (s : bytes) : option bytes :=
  match fuel with
  | O => None
  | S f =>
      match s with
      | [] => Some []
      | [c1; c2; c3; c4] =>
          match b64_value c1, b64_value c2 with
          | Some v1, Some v2 =>
              if (c3 =? 61) && (c4 =? 61) then Some [v1 * 4 + v2 / 16]
              else
                match b64_value c3 with
                | Some v3 =>
                    if c4 =? 61 then
                      Some [v1 * 4 + v2 / 16; v2 mod 16 * 16 + v3 / 4]
                    else
                      match b64_value c4 with
                      | Some v4 =>
                          Some [v1 * 4 + v2 / 16; v2 mod 16 * 16 + v3 / 4;
                                v3 mod 4 * 64 + v4]
                      | None => None
                      end
                | None => None
                end
          | _, _ => None
          end
      | c1 :: c2 :: c3 :: c4 :: r =>
          match b64_value c1, b64_value c2, b64_value c3, b64_value c4 with
          | Some v1, Some v2, Some v3, Some v4 =>
              match a2b_groups f r with
              | Some rest =>
                  Some ([v1 * 4 + v2 / 16; v2 mod 16 * 16 + v3 / 4;
                         v3 mod 4 * 64 + v4] ++ rest)
              | None => None
              end
          | _, _, _, _ => None
          end
      | _ => None
      end
  end.

Definition a2b_urlsafe (s : bytes) : option bytes := a2b_groups (S (length s)) s.

(** *** A keyed checksum with the interface of Ed25519

    The public key is the private key with every byte shifted by one; a
    signature is 64 bytes of a checksum of the key and the message. It has
    the shape of the signature scheme, not its security. *)

Definition public_key (private : bytes) : bytes :=
  map (fun b => (b + 1) mod 256) private.

Definition private_of_public (public : bytes) : bytes :=
  map (fun b => (b + 255) mod 256) public.

Definition checksum (key message : bytes) (i : Z) : Z :=
  fold_left (fun acc x => (acc * 31 + x + i) mod 256) (key ++ message) (i + 7)
    mod 256.

Definition sign (private message : bytes) : bytes :=
  map (fun i => checksum private message (Z.of_nat i)) (seq 0 64).

Definition verify (public signature message : bytes) : bool :=
  if list_eq_dec Z.eq_dec signature (sign (private_of_public public) message)
  then true else false.

(** *** The character classes [\s] and [\w], on Latin-1 *)

Definition re_space (c : Z) : bool :=
  ((9 <=? c) && (c <=? 13)) || ((28 <=? c) && (c <=? 32))
  || (c =? 0x85) || (c =? 0xA0).

Definition re_word (c : Z) : bool :=
  ((48 <=? c) && (c <=? 57)) || ((65 <=? c) && (c <=? 90))
  || ((97 <=? c) && (c <=? 122)) || (c =? 95)
  || (c =? 0xAA) || (c =? 0xB5) || (c =? 0xBA)
  || ((0xB2 <=? c) && (c <=? 0xB3)) || (c =? 0xB9)
  || ((0xBC <=? c) && (c <=? 0xBE))
  || ((0xC0 <=? c) && (c <=? 0xFF) && negb (c =? 0xD7) && negb (c =? 0xF7)).

End RefCodecs.

Module RefTime.

(** *** The proleptic Gregorian calendar of [datetime] *)

Definition days_from_civil (y m d : Z) : Z :=
  let y := if m <=? 2 then y - 1 else y in
  let era := y / 400 in
  let yoe := y - era * 400 in
  let doy := (153 * (if 2 <? m then m - 3 else m + 9) + 2) / 5 + d - 1 in
  let doe := yoe * 365 + yoe / 4 - yoe / 100 + doy in
  era * 146097 + doe - 719468.

Definition civil_from_days (z : Z) : Z * Z * Z :=
  let z := z + 719468 in
  let era := z / 146097 in
  let doe := z - era * 146097 in
  let yoe := (doe - doe / 1460 + doe / 36524 - doe / 146096) / 365 in
  let doy := doe - (365 * yoe + yoe / 4 - yoe / 100) in
  let mp := (5 * doy + 2) / 153 in
  let d := doy - (153 * mp + 2) / 5 + 1 in
  let m := if mp <? 10 then mp + 3 else mp - 9 in
  (if m <=? 2 then yoe + era * 400 + 1 else yoe + era * 400, m, d).

Definition is_leap (y : Z) : bool :=
  (y mod 4 =? 0) && (negb (y mod 100 =? 0) || (y mod 400 =? 0)).

Definition days_in_month (y m : Z) : Z :=
  if m =? 2 then (if is_leap y then 29 else 28)
  else if (m =? 4) || (m =? 6) || (m =? 9) || (m =? 11) then 30
  else 31.

(** The datetime at [us] microseconds from the epoch, in UTC. *)
Definition of_epoch_us (us : Z) (out_of_range : exn) : result datetime :=
  let seconds := us / 1000000 in
  let '(y, m, d) := civil_from_days (seconds / 86400) in
  let sod := seconds mod 86400 in
  if (y <? 1) || (9999 <? y) then Raise out_of_range
  else Ok {| dt_year := y; dt_month := m; dt_day := d;
             dt_hour := sod / 3600; dt_minute := sod / 60 mod 60;
             dt_second := sod mod 60; dt_microsecond := us mod 1000000;
             dt_tzinfo := Some 0 |}.

Definition to_epoch_us (dt : datetime) : Z :=
  ((days_from_civil (dt_year dt) (dt_month dt) (dt_day dt) * 86400
    + dt_hour dt * 3600 + dt_minute dt * 60 + dt_second dt) * 1000000
   + dt_microsecond dt).

Definition round_half_even (num den : Z) : Z :=
  let q := num / den in
  let r := num mod den in
  if 2 * r <? den then q
  else if den <? 2 * r then q + 1
  else if Z.even q then q else q + 1.

(** Microseconds of a binary64 number of seconds, rounded half to even;
    [None] for an infinity, which overflows, and an error for a NaN. *)
Definition float_epoch_us (bits : Z) : result Z :=
  let negative := 2 ^ 63 <=? bits in
  let e := bits / 2 ^ 52 mod 2048 in
  let m := bits mod 2 ^ 52 in
  if e =? 2047 then
    if m =? 0 then Raise OverflowError else Raise ValueError
  else
    let mant := if e =? 0 then m else m + 2 ^ 52 in
    let exp := (if e =? 0 then 1 else e) - 1075 in
    let magnitude :=
      if 0 <=? exp then mant * 1000000 * 2 ^ exp
      else round_half_even (mant * 1000000) (2 ^ (- exp)) in
    Ok (if negative then - magnitude else magnitude).

(** [datetime.fromtimestamp(ts, tz=timezone.utc)]: [OverflowError] outside
    the range of a 64-bit [time_t], [ValueError] outside the years 1 to
    9999. *)
Definition fromtimestamp_utc (e : epoch) : result datetime :=
  us <- match e with
        | EpochInt n => Ok (n * 1000000)
        | EpochFloat bits => float_epoch_us bits
        end ;;
  if (us / 1000000 <? - 2 ^ 63) || (2 ^ 63 <=? us / 1000000)
  then Raise OverflowError
  else of_epoch_us us ValueError.

(** [dt.astimezone(timezone.utc)] for an aware [dt]. *)
Definition astimezone_utc (dt : datetime) : result datetime :=
  match dt_tzinfo dt with
  | Some offset => of_epoch_us (to_epoch_us dt - offset) OverflowError
  | None => of_epoch_us (to_epoch_us dt) OverflowError
  end.

Definition read_fixed (width : nat) (s : pystr) : option (Z * pystr) :=
  if (length s <? width)%nat then None
  else if forallb RefJson.is_digit (firstn width s)
  then Some (fst (RefJson.read_digits (firstn width s) 0), skipn width s)
  else None.

Definition expect (c : Z) (s : pystr) : option pystr :=
  match s with
  | x :: r => if x =? c then Some r else None
  | [] => None
  end.

Definition obind {A B} (o : option A) (k : A -> option B) : option B :=
  match o with
  | Some a => k a
  | None => None
  end.

(** The UTC offset [+HH:MM] or [-HH:MM] in microseconds, or no offset. *)
Definition read_offset (s : pystr) : option (option Z) :=
  match s with
  | [] => Some None
  | sign :: r =>
      if (sign =? 43) || (sign =? 45) then
        obind (read_fixed 2 r) (fun '(hh, r) =>
        obind (expect 58 r) (fun r =>
        obind (read_fixed 2 r) (fun '(mm, r) =>
        match r with
        | [] =>
            if (hh <? 24) && (mm <? 60) then
              let off := (hh * 3600 + mm * 60) * 1000000 in
              Some (Some (if sign =? 45 then - off else off))
            else None
        | _ => None
        end)))
      else None
  end.

(** [datetime.fromisoformat] on [YYYY-MM-DD], optionally followed by
    [THH:MM:SS], six digits of fraction and an offset. *)
Definition read_iso (s : pystr) : option datetime :=
  obind (read_fixed 4 s) (fun '(y, r) =>
  obind (expect 45 r) (fun r =>
  obind (read_fixed 2 r) (fun '(m, r) =>
  obind (expect 45 r) (fun r =>
  obind (read_fixed 2 r) (fun '(d, r) =>
  if (1 <=? y) && (1 <=? m) && (m <=? 12) && (1 <=? d)
     && (d <=? days_in_month y m) then
    let mk hh mi ss us tz :=
      {| dt_year := y; dt_month := m; dt_day := d; dt_hour := hh;
         dt_minute := mi; dt_second := ss; dt_microsecond := us;
         dt_tzinfo := tz |} in
    match r with
    | [] => Some (mk 0 0 0 0 None)
    | sep :: r =>
        if (sep =? 84) || (sep =? 32) then
          obind (read_fixed 2 r) (fun '(hh, r) =>
          obind (expect 58 r) (fun r =>
          obind (read_fixed 2 r) (fun '(mi, r) =>
          obind (expect 58 r) (fun r =>
          obind (read_fixed 2 r) (fun '(ss, r) =>
          if (hh <? 24) && (mi <? 60) && (ss <? 60) then
            match r with
            | 46 :: r' =>
                obind (read_fixed 6 r') (fun '(us, r) =>
                obind (read_offset r) (fun tz => Some (mk hh mi ss us tz)))
            | _ => obind (read_offset r) (fun tz => Some (mk hh mi ss 0 tz))
            end
          else None)))))
        else None
    end
  else None))))).

Definition fromisoformat (s : pystr) : result datetime :=
  match read_iso s with
  | Some dt => Ok dt
  | None => Raise ValueError
  end.

(** [%Y] padded with zeros to four digits. *)
Definition strftime_Y (y : Z) : pystr :=
  [48 + (y / 1000) mod 10; 48 + (y / 100) mod 10; 48 + (y / 10) mod 10;
   48 + y mod 10].

End RefTime.

Definition RefLib : PyLib :=
  {| json_dumps := RefJson.json_dumps;
     json_loads := RefJson.json_loads;
     cbor2_available := true;
     cbor2_dumps := RefCodecs.cbor2_dumps;
     cbor2_loads := RefCodecs.cbor2_loads;
     py_dict_of := RefCodecs.py_dict_of;
     b64_encode := RefCodecs.b64_encode;
     a2b_urlsafe := RefCodecs.a2b_urlsafe;
     ed25519_sign := RefCodecs.sign;
     ed25519_verify := RefCodecs.verify;
     ed25519_public_key := RefCodecs.public_key;
     re_space := RefCodecs.re_space;
     re_word := RefCodecs.re_word;
     datetime_fromisoformat := RefTime.fromisoformat;
     datetime_fromtimestamp_utc := RefTime.fromtimestamp_utc;
     datetime_astimezone_utc := RefTime.astimezone_utc;
     strftime_Y := RefTime.strftime_Y |}.

(** ** Notions the statements use *)

(** [orig] is a subsequence of [res]: its items appear in [res] in their
    order. *)
Inductive subseq {A : Type} : list A -> list A -> Prop :=
| subseq_nil : subseq [] []
| subseq_keep (x : A) (orig res : list A) :
    subseq orig res -> subseq (x :: orig) (x :: res)
| subseq_skip (x : A) (orig res : list A) :
    subseq orig res -> subseq orig (x :: res).

(** [res] is [orig] with variation selectors inserted. *)
Inductive vs_inserted : pystr -> pystr -> Prop :=
| vs_inserted_nil : vs_inserted [] []
| vs_inserted_keep (c : Z) (orig res : pystr) :
    vs_inserted orig res -> vs_inserted (c :: orig) (c :: res)
| vs_inserted_selector (s : Z) (orig res : pystr) :
    is_vs s = true -> vs_inserted orig res -> vs_inserted orig (s :: res).

(** The indices increase strictly and start at [lo] or later. *)
Fixpoint increasing_from (lo : nat) (l : list nat) : Prop :=
  match l with
  | [] => True
  | x :: r => (lo <= x)%nat /\ increasing_from (S x) r
  end.

Definition no_vs (text : pystr) : Prop :=
  Forall (fun c => is_vs c = false) text.

(** The transport format gives the envelope back: what
    [_deserialize_outer_bytes] needs of the readers on the bytes the writer
    produced for [outer]. *)
Definition transport_lossless (L : PyLib) (format : SerializationFormat)
    (outer : pydict) : Prop :=
  match format with
  | JSON =>
      forall b, json_dumps L (PDict outer) = Ok b ->
        b <> [] /\ startswith b (lit "JUMBF") = false
        /\ json_loads L b = Ok (PDict outer)
  | JUMBF =>
      forall b, json_dumps L (PDict outer) = Ok b ->
        json_loads L b = Ok (PDict outer)
  | CBOR =>
      forall b, cbor2_dumps L (PDict outer) = Ok b ->
        b <> [] /\ startswith b (lit "JUMBF") = false
        /\ (exists e, json_loads L b = Raise e)
        /\ cbor2_available L = true
        /\ cbor2_loads L b = Ok (PDict outer)
  end.

(** URL-safe base64 as RFC 4648 defines it, on the bytes [data]: the
    encoding is a run of characters of the alphabet, none of them [=],
    followed by fewer than four [=] signs that bring it to a multiple of
    four characters, and decoding the encoding gives [data] back. This
    speaks of the library alone. *)
Definition base64_standard (L : PyLib) (data : bytes) : Prop :=
  exists (body : bytes) (padding : nat),
    b64_encode L data = body ++ repeat 61 padding
    /\ forallb (fun c => negb (c =? 61)) body = true
    /\ (padding < 4)%nat
    /\ ((length body + padding) mod 4 = 0)%nat
    /\ a2b_urlsafe L (b64_encode L data) = Some data.

(** What the round trip needs of the libraries behind the signature: on
    the signature of the canonical bytes of [payload], base64 is standard
    and Ed25519 accepts the signature under the public key of the signing
    key. *)
Definition signing_libraries (L : PyLib) (raw : bytes) (payload : pydict)
    : Prop :=
  forall message, serialize_payload L payload JSON = Ok message ->
    base64_standard L (ed25519_sign L raw message)
    /\ ed25519_verify L (ed25519_public_key L raw)
         (ed25519_sign L raw message) message = true.

(** The enum member a valid [target] argument stands for. *)
Definition target_member (target : target_arg) : result MetadataTarget :=
  match target with
  | TargetNone => Ok WHITESPACE
  | TargetEnum t => Ok t
  | TargetStr s =>
      try_except (MetadataTarget_of_value (str_lower s))
        [CValueError] (fun _ => Raise ValueError)
  | TargetOther => Raise TypeError
  end.


(** ** Concrete calls *)

(** The first scenario of the specification: [Hello World], signed by
    [demo] at 2024-01-01T00:00:00Z, model [m1]. *)
Definition demo_key : bytes := [1; 2; 3; 4; 5; 6; 7; 8].

Definition hello_args : embed_args :=
  {| arg_text := lit "Hello World";
     arg_private_key := Ed25519PrivateKey demo_key;
     arg_signer_id := lit "demo";
     arg_metadata_format := lit "basic";
     arg_serialization_format := JSON;
     arg_model_id := Some (lit "m1");
     arg_timestamp := Some (TsStr (lit "2024-01-01T00:00:00Z"));
     arg_generationID := None;
     arg_target := TargetNone;
     arg_custom_metadata := None;
     arg_claim_generator := None;
     arg_actions := None;
     arg_ai_info := None;
     arg_custom_claims := None;
     arg_distribute_across_targets := false |}.

(** The same call on another text, target and mode. *)
Definition with_text (a : embed_args) (text : pystr) (target : target_arg)
    (distribute : bool) : embed_args :=
  {| arg_text := text;
     arg_private_key := arg_private_key a;
     arg_signer_id := arg_signer_id a;
     arg_metadata_format := arg_metadata_format a;
     arg_serialization_format := arg_serialization_format a;
     arg_model_id := arg_model_id a;
     arg_timestamp := arg_timestamp a;
     arg_generationID := arg_generationID a;
     arg_target := target;
     arg_custom_metadata := arg_custom_metadata a;
     arg_claim_generator := arg_claim_generator a;
     arg_actions := arg_actions a;
     arg_ai_info := arg_ai_info a;
     arg_custom_claims := arg_custom_claims a;
     arg_distribute_across_targets := distribute |}.

(** A heart with its emoji variation selector (U+2764 U+FE0F), a space
    and a letter. *)
Definition heart_text : pystr := [0x2764; 0xFE0F; 0x20; 0x78].
Definition heart_args : embed_args :=
  with_text hello_args heart_text TargetNone false.

(** Three hundred spaces, embedded into one selector per space. *)
Definition spaces_args : embed_args :=
  with_text hello_args (repeat 0x20 300) TargetNone true.

(** Three spaces only, in the distributed mode, and no space at all. *)
Definition few_spaces_args : embed_args :=
  with_text hello_args (lit "a b c d") TargetNone true.
Definition no_space_args : embed_args :=
  with_text hello_args (lit "HelloWorld") TargetNone false.
Definition empty_text_args : embed_args :=
  with_text hello_args [] (TargetEnum ALL_CHARACTERS) false.

(** The resolver that knows the public key of [demo]. *)
Definition demo_resolver : provider_arg :=
  Callable (fun signer_id =>
    match signer_id with
    | PStr s =>
        if pystr_eqb s (lit "demo")
        then Ok (Some (Ed25519PublicKey (RefCodecs.public_key demo_key)))
        else Ok None
    | _ => Ok None
    end).

(** An envelope whose signature text is not ASCII, and the text that
    carries its JSON form after a space. *)
Definition tampered_outer : pydict :=
  [(lit "payload", PDict [(lit "signer_id", PStr (lit "demo"))]);
   (lit "signature", PStr [0xE9]);
   (lit "signer_id", PStr (lit "demo"));
   (lit "format", PStr (lit "basic"))].

Definition carrier (data : bytes) : pystr :=
  0x20 :: collect_some (map to_variation_selector data).

Definition tampered_text : pystr :=
  carrier (RefJson.print_value (PDict tampered_outer)).

(** A resolver that returns an RSA public key for every signer. *)
Definition rsa_resolver : provider_arg :=
  Callable (fun _ => Ok (Some RSAPublicKey)).

(** Whether step 4 of the verification, the canonical serialization of the
    extracted payload, succeeds. *)
Definition reserializes (L : PyLib) (inner_payload : pyval) : bool :=
  match (d <- py_dict L inner_payload ;; serialize_payload L d JSON) with
  | Ok _ => true
  | Raise _ => false
  end.

(** A [str] with a character outside ASCII. *)
Definition non_ascii_str (v : pyval) : bool :=
  match v with
  | PStr s => negb (forallb (fun c => c <? 128) s)
  | _ => false
  end.

(** A manifest call, carried as CBOR after a punctuation mark. *)
Definition manifest_cbor_args : embed_args :=
  {| arg_text := lit "Hi, World";
     arg_private_key := Ed25519PrivateKey demo_key;
     arg_signer_id := lit "demo";
     arg_metadata_format := lit "manifest";
     arg_serialization_format := CBOR;
     arg_model_id := Some (lit "m1");
     arg_timestamp := Some (TsEpoch (EpochInt 1704067200));
     arg_generationID := None;
     arg_target := TargetStr (lit "Punctuation");
     arg_custom_metadata := None;
     arg_claim_generator := Some (lit "gen");
     arg_actions := Some [PDict [(lit "action", PStr (lit "created"))]];
     arg_ai_info := None;
     arg_custom_claims := None;
     arg_distribute_across_targets := false |}.


(** The values of the call of [tests/pdf/test_pdf_engine.py], each given
    to [embed_metadata] under its own name, and the resolver of the test. *)
Definition pdf_test_args : embed_args :=
  {| arg_text := lit "Testing PDF metadata";
     arg_private_key := Ed25519PrivateKey demo_key;
     arg_signer_id := lit "test-signer";
     arg_metadata_format := lit "basic";
     arg_serialization_format := JSON;
     arg_model_id := Some (lit "unit-test-model");
     arg_timestamp := Some (TsStr (lit "2024-01-01T00:00:00Z"));
     arg_generationID := None;
     arg_target := TargetEnum WHITESPACE;
     arg_custom_metadata := None;
     arg_claim_generator := None;
     arg_actions := None;
     arg_ai_info := None;
     arg_custom_claims := None;
     arg_distribute_across_targets := false |}.

Definition pdf_test_resolver : provider_arg :=
  Callable (fun sid =>
    match sid with
    | PStr s =>
        if pystr_eqb s (lit "test-signer")
        then Ok (Some (Ed25519PublicKey (RefCodecs.public_key demo_key)))
        else Ok None
    | _ => Ok None
    end).

(** Resolvers for the failure scenarios: another key, no key, an
    exception. *)
Definition wrong_key_resolver : provider_arg :=
  Callable (fun _ =>
    Ok (Some (Ed25519PublicKey (RefCodecs.public_key [9; 9; 9; 9])))).
Definition unknown_signer_resolver : provider_arg :=
  Callable (fun _ => Ok None).
Definition raising_resolver : provider_arg :=
  Callable (fun _ => Raise KeyError).

(** The text with the code point at index [i] replaced. *)
Definition replace_at (text : pystr) (i : nat) (c : Z) : pystr :=
  firstn i text ++ c :: skipn (S i) text.

(** The stages a successful call went through. *)
Record embed_stages (L : PyLib) (a : embed_args) : Type := {
  st_raw : bytes;
  st_payload : pydict;
  st_message : bytes;
  st_signature_b64 : pystr;
  st_outer_bytes : bytes;
  st_selectors : list Z;
  st_key : arg_private_key a = Ed25519PrivateKey st_raw;
  st_payload_eq : embed_payload L a = Ok st_payload;
  st_message_eq : serialize_payload L st_payload JSON = Ok st_message;
  st_signature_eq :
    decode_ascii (rstrip_eq (b64_encode L (ed25519_sign L st_raw st_message)))
    = Ok st_signature_b64;
  st_outer_eq :
    embed_outer_payload L a
    = Ok (outer_payload_of a st_payload st_signature_b64);
  st_outer_bytes_eq :
    serialize_payload L (outer_payload_of a st_payload st_signature_b64)
      (arg_serialization_format a) = Ok st_outer_bytes;
  st_selectors_eq : _bytes_to_variation_selectors st_outer_bytes = Ok st_selectors;
  st_embed_selectors : embed_selectors L a = Ok st_selectors }.



(** * The rest of the module *)

(** ** [encode] and [decode] *)

(** The UTF-8 codec of Python: [utf8_encode text] is
    [text.encode("utf-8")], which raises on a lone surrogate;
    [utf8_decode data] is [data.decode("utf-8")], which raises on bytes
    that are not well-formed UTF-8. *)
Record Utf8 : Type := {
  utf8_encode : pystr -> result bytes;
  utf8_decode : bytes -> result pystr }.

(** [encode]: the loop appends the selector of each byte; [if vs] holds for
    every one-character string. *)
Definition encode (U : Utf8) (emoji text : pystr) : result pystr :=
  bytes_data <- utf8_encode U text ;;
  Ok (fold_left
        (fun encoded byte =>
           match to_variation_selector byte with
           | Some vs => encoded ++ [vs]
           | None => encoded
           end)
        bytes_data emoji).

(** [decode]: its loop is, statement for statement, the loop of
    [extract_bytes]. *)
Definition decode (U : Utf8) (text : pystr) : result pystr :=
  let decoded := extract_loop text [] in
  match decoded with
  | [] => Ok []
  | _ => utf8_decode U decoded
  end.

(** UTF-8 as RFC 3629 defines it, for the reference instance. *)
Module RefUtf8.

Definition encode_char (c : Z) : result bytes :=
  if c <? 0 then Raise ValueError
  else if c <? 0x80 then Ok [c]
  else if c <? 0x800 then Ok [0xC0 + c / 64; 0x80 + c mod 64]
  else if c <? 0x10000 then
    if (0xD800 <=? c) && (c <=? 0xDFFF) then Raise ValueError
    else Ok [0xE0 + c / 4096; 0x80 + c / 64 mod 64; 0x80 + c mod 64]
  else if c <? 0x110000 then
    Ok [0xF0 + c / 262144; 0x80 + c / 4096 mod 64; 0x80 + c / 64 mod 64;
        0x80 + c mod 64]
  else Raise ValueError.

Fixpoint encode_str (s : pystr) : result bytes :=
  match s with
  | [] => Ok []
  | c :: r =>
      b <- encode_char c ;;
      rest <- encode_str r ;;
      Ok (b ++ rest)
  end.

Definition continuation (b : Z) : bool := (0x80 <=? b) && (b <=? 0xBF).

Fixpoint decode_str (data : bytes) : result pystr :=
  match data with
  | [] => Ok []
  | b0 :: r0 =>
      if (0 <=? b0) && (b0 <? 0x80) then
        rest <- decode_str r0 ;; Ok (b0 :: rest)
      else if (0xC2 <=? b0) && (b0 <=? 0xDF) then
        match r0 with
        | b1 :: r1 =>
            if continuation b1 then
              rest <- decode_str r1 ;;
              Ok ((b0 - 0xC0) * 64 + (b1 - 0x80) :: rest)
            else Raise ValueError
        | _ => Raise ValueError
        end
      else if (0xE0 <=? b0) && (b0 <=? 0xEF) then
        match r0 with
        | b1 :: b2 :: r2 =>
            let c := (b0 - 0xE0) * 4096 + (b1 - 0x80) * 64 + (b2 - 0x80) in
            if continuation b1 && continuation b2 && (0x800 <=? c)
               && negb ((0xD800 <=? c) && (c <=? 0xDFFF)) then
              rest <- decode_str r2 ;; Ok (c :: rest)
            else Raise ValueError
        | _ => Raise ValueError
        end
      else if (0xF0 <=? b0) && (b0 <=? 0xF4) then
        match r0 with
        | b1 :: b2 :: b3 :: r3 =>
            let c := (b0 - 0xF0) * 262144 + (b1 - 0x80) * 4096
                     + (b2 - 0x80) * 64 + (b3 - 0x80) in
            if continuation b1 && continuation b2 && continuation b3
               && (0x10000 <=? c) && (c <? 0x110000) then
              rest <- decode_str r3 ;; Ok (c :: rest)
            else Raise ValueError
        | _ => Raise ValueError
        end
      else Raise ValueError
  end.

End RefUtf8.

Definition RefUtf8Codec : Utf8 :=
  {| utf8_encode := RefUtf8.encode_str; utf8_decode := RefUtf8.decode_str |}.

(** A library whose [json.dumps] raises [TypeError], as it does on an
    object it cannot serialize. *)
Definition BrokenJsonLib : PyLib :=
  {| json_dumps := fun _ => Raise TypeError;
     json_loads := json_loads RefLib;
     cbor2_available := cbor2_available RefLib;
     cbor2_dumps := cbor2_dumps RefLib;
     cbor2_loads := cbor2_loads RefLib;
     py_dict_of := py_dict_of RefLib;
     b64_encode := b64_encode RefLib;
     a2b_urlsafe := a2b_urlsafe RefLib;
     ed25519_sign := ed25519_sign RefLib;
     ed25519_verify := ed25519_verify RefLib;
     ed25519_public_key := ed25519_public_key RefLib;
     re_space := re_space RefLib;
     re_word := re_word RefLib;
     datetime_fromisoformat := datetime_fromisoformat RefLib;
     datetime_fromtimestamp_utc := datetime_fromtimestamp_utc RefLib;
     datetime_astimezone_utc := datetime_astimezone_utc RefLib;
     strftime_Y := strftime_Y RefLib |}.

(** The scenario call with some arguments replaced. *)
Definition with_key (a : embed_args) (key : private_key_obj) : embed_args :=
  {| arg_text := arg_text a;
     arg_private_key := key;
     arg_signer_id := arg_signer_id a;
     arg_metadata_format := arg_metadata_format a;
     arg_serialization_format := arg_serialization_format a;
     arg_model_id := arg_model_id a;
     arg_timestamp := arg_timestamp a;
     arg_generationID := arg_generationID a;
     arg_target := arg_target a;
     arg_custom_metadata := arg_custom_metadata a;
     arg_claim_generator := arg_claim_generator a;
     arg_actions := arg_actions a;
     arg_ai_info := arg_ai_info a;
     arg_custom_claims := arg_custom_claims a;
     arg_distribute_across_targets := arg_distribute_across_targets a |}.

Definition with_signer (a : embed_args) (signer_id : pystr) : embed_args :=
  {| arg_text := arg_text a;
     arg_private_key := arg_private_key a;
     arg_signer_id := signer_id;
     arg_metadata_format := arg_metadata_format a;
     arg_serialization_format := arg_serialization_format a;
     arg_model_id := arg_model_id a;
     arg_timestamp := arg_timestamp a;
     arg_generationID := arg_generationID a;
     arg_target := arg_target a;
     arg_custom_metadata := arg_custom_metadata a;
     arg_claim_generator := arg_claim_generator a;
     arg_actions := arg_actions a;
     arg_ai_info := arg_ai_info a;
     arg_custom_claims := arg_custom_claims a;
     arg_distribute_across_targets := arg_distribute_across_targets a |}.

Definition with_timestamp (a : embed_args) (ts : option timestamp_input)
    : embed_args :=
  {| arg_text := arg_text a;
     arg_private_key := arg_private_key a;
     arg_signer_id := arg_signer_id a;
     arg_metadata_format := arg_metadata_format a;
     arg_serialization_format := arg_serialization_format a;
     arg_model_id := arg_model_id a;
     arg_timestamp := ts;
     arg_generationID := arg_generationID a;
     arg_target := arg_target a;
     arg_custom_metadata := arg_custom_metadata a;
     arg_claim_generator := arg_claim_generator a;
     arg_actions := arg_actions a;
     arg_ai_info := arg_ai_info a;
     arg_custom_claims := arg_custom_claims a;
     arg_distribute_across_targets := arg_distribute_across_targets a |}.

Definition with_format (a : embed_args) (metadata_format : pystr)
    (serialization_format : SerializationFormat) : embed_args :=
  {| arg_text := arg_text a;
     arg_private_key := arg_private_key a;
     arg_signer_id := arg_signer_id a;
     arg_metadata_format := metadata_format;
     arg_serialization_format := serialization_format;
     arg_model_id := arg_model_id a;
     arg_timestamp := arg_timestamp a;
     arg_generationID := arg_generationID a;
     arg_target := arg_target a;
     arg_custom_metadata := arg_custom_metadata a;
     arg_claim_generator := arg_claim_generator a;
     arg_actions := arg_actions a;
     arg_ai_info := arg_ai_info a;
     arg_custom_claims := arg_custom_claims a;
     arg_distribute_across_targets := arg_distribute_across_targets a |}.

(** The optional fields of the two payload formats. *)
Definition with_fields (a : embed_args) (model_id generationID : option pystr)
    (custom_metadata ai_info : option pydict) : embed_args :=
  {| arg_text := arg_text a;
     arg_private_key := arg_private_key a;
     arg_signer_id := arg_signer_id a;
     arg_metadata_format := arg_metadata_format a;
     arg_serialization_format := arg_serialization_format a;
     arg_model_id := model_id;
     arg_timestamp := arg_timestamp a;
     arg_generationID := generationID;
     arg_target := arg_target a;
     arg_custom_metadata := custom_metadata;
     arg_claim_generator := arg_claim_generator a;
     arg_actions := arg_actions a;
     arg_ai_info := ai_info;
     arg_custom_claims := arg_custom_claims a;
     arg_distribute_across_targets := arg_distribute_across_targets a |}.

(** ** The call of [embed_metadata], with arguments of any type

    [embed_args] describes the calls whose arguments have the types of
    the signature. The function itself tests five of them with
    [isinstance], after a log message that reads
    [serialization_format.value]. Here those five arguments are objects
    of any type; the arguments that the function does not test keep their
    declared types. *)

(** An argument declared [str]. *)
Inductive str_arg : Type :=
| IsStr (s : pystr)
| NotStr.

(** An argument declared [SerializationFormat]: a member of the
    enumeration, or another object, which has an attribute [value] or has
    none (as a [str] has none). *)
Inductive serialization_arg : Type :=
| Member (f : SerializationFormat)
| WithValue
| WithoutValue.

(** An argument declared [Optional[str]]. *)
Inductive optional_str_arg : Type :=
| IsNone
| IsSomeStr (s : pystr)
| NeitherStrNorNone.

(** An argument declared [bool]. *)
Inductive bool_arg : Type :=
| IsBool (b : bool)
| NotBool.

Record embed_call : Type := {
  call_text : str_arg;
  call_private_key : private_key_obj;
  call_signer_id : str_arg;
  call_metadata_format : str_arg;
  call_serialization_format : serialization_arg;
  call_model_id : optional_str_arg;
  call_timestamp : option timestamp_input;
  call_generationID : option pystr;
  call_target : target_arg;
  call_custom_metadata : option pydict;
  call_claim_generator : option pystr;
  call_actions : option (list pyval);
  call_ai_info : option pydict;
  call_custom_claims : option pydict;
  call_distribute_across_targets : bool_arg }.

(** [serialization_format.value] can be read. *)
Definition has_value (x : serialization_arg) : bool :=
  match x with
  | WithoutValue => false
  | _ => true
  end.

(** [isinstance(x, str)] *)
Definition is_str (x : str_arg) : bool :=
  match x with
  | IsStr _ => true
  | NotStr => false
  end.

(** [isinstance(private_key, Ed25519PrivateKey)] *)
Definition is_ed25519_private_key (k : private_key_obj) : bool :=
  match k with
  | Ed25519PrivateKey _ => true
  | OtherPrivateKey => false
  end.

(** [not signer_id or not isinstance(signer_id, str)] *)
Definition signer_id_missing (x : str_arg) : bool :=
  match x with
  | IsStr (_ :: _) => false
  | _ => true
  end.

(** [metadata_format not in ("basic", "manifest")] *)
Definition metadata_format_unknown (x : str_arg) : bool :=
  match x with
  | IsStr s => negb (pystr_eqb s (lit "basic") || pystr_eqb s (lit "manifest"))
  | NotStr => true
  end.

(** [isinstance(serialization_format, SerializationFormat)] *)
Definition is_member (x : serialization_arg) : bool :=
  match x with
  | Member _ => true
  | _ => false
  end.

(** [model_id is not None and not isinstance(model_id, str)] *)
Definition model_id_mistyped (x : optional_str_arg) : bool :=
  match x with
  | NeitherStrNorNone => true
  | _ => false
  end.

(** [isinstance(distribute_across_targets, bool)] *)
Definition is_bool (x : bool_arg) : bool :=
  match x with
  | IsBool _ => true
  | NotBool => false
  end.

(** The log message and the input validation, statement by statement. *)
Definition embed_call_validate (c : embed_call) : result unit :=
  _ <- raise_if (negb (has_value (call_serialization_format c)))
         AttributeError ;;
  _ <- raise_if (negb (is_str (call_text c))) TypeError ;;
  _ <- raise_if (negb (is_ed25519_private_key (call_private_key c)))
         TypeError ;;
  _ <- raise_if (signer_id_missing (call_signer_id c)) ValueError ;;
  _ <- match call_timestamp c with
       | None => Raise ValueError
       | Some _ => Ok tt
       end ;;
  _ <- match call_target c with
       | TargetNone => Ok tt
       | TargetEnum _ => Ok tt
       | TargetStr s =>
           _ <- try_except (MetadataTarget_of_value (str_lower s))
                  [CValueError] (fun _ => Raise ValueError) ;;
           Ok tt
       | TargetOther => Raise TypeError
       end ;;
  _ <- raise_if (metadata_format_unknown (call_metadata_format c))
         ValueError ;;
  _ <- raise_if (negb (is_member (call_serialization_format c)))
         ValueError ;;
  _ <- raise_if (model_id_mistyped (call_model_id c)) TypeError ;;
  raise_if (negb (is_bool (call_distribute_across_targets c))) TypeError.

(** The arguments of a call that passed the validation, with their
    types. *)
Definition typed_args (c : embed_call) : embed_args :=
  {| arg_text := match call_text c with IsStr s => s | NotStr => [] end;
     arg_private_key := call_private_key c;
     arg_signer_id :=
       match call_signer_id c with IsStr s => s | NotStr => [] end;
     arg_metadata_format :=
       match call_metadata_format c with IsStr s => s | NotStr => [] end;
     arg_serialization_format :=
       match call_serialization_format c with Member f => f | _ => JSON end;
     arg_model_id :=
       match call_model_id c with IsSomeStr s => Some s | _ => None end;
     arg_timestamp := call_timestamp c;
     arg_generationID := call_generationID c;
     arg_target := call_target c;
     arg_custom_metadata := call_custom_metadata c;
     arg_claim_generator := call_claim_generator c;
     arg_actions := call_actions c;
     arg_ai_info := call_ai_info c;
     arg_custom_claims := call_custom_claims c;
     arg_distribute_across_targets :=
       match call_distribute_across_targets c with
       | IsBool b => b
       | NotBool => false
       end |}.

(** [embed_metadata] on the objects of a call: the log message and the
    validation, then the rest of the function on the arguments, which
    have their types by then. The tests that [embed_metadata] makes on
    typed arguments pass on them ([embed_call_validate_typed]), so the
    validation acts once, as in the source. *)
Definition embed_metadata_call (L : PyLib) (c : embed_call) : result pystr :=
  _ <- embed_call_validate c ;;
  embed_metadata L (typed_args c).

(** The call that passes the arguments [a] with their types. *)
Definition call_of (a : embed_args) : embed_call :=
  {| call_text := IsStr (arg_text a);
     call_private_key := arg_private_key a;
     call_signer_id := IsStr (arg_signer_id a);
     call_metadata_format := IsStr (arg_metadata_format a);
     call_serialization_format := Member (arg_serialization_format a);
     call_model_id :=
       match arg_model_id a with Some s => IsSomeStr s | None => IsNone end;
     call_timestamp := arg_timestamp a;
     call_generationID := arg_generationID a;
     call_target := arg_target a;
     call_custom_metadata := arg_custom_metadata a;
     call_claim_generator := arg_claim_generator a;
     call_actions := arg_actions a;
     call_ai_info := arg_ai_info a;
     call_custom_claims := arg_custom_claims a;
     call_distribute_across_targets :=
       IsBool (arg_distribute_across_targets a) |}.

(** The call with another object as [serialization_format]. *)
Definition with_serialization (c : embed_call) (x : serialization_arg)
    : embed_call :=
  {| call_text := call_text c;
     call_private_key := call_private_key c;
     call_signer_id := call_signer_id c;
     call_metadata_format := call_metadata_format c;
     call_serialization_format := x;
     call_model_id := call_model_id c;
     call_timestamp := call_timestamp c;
     call_generationID := call_generationID c;
     call_target := call_target c;
     call_custom_metadata := call_custom_metadata c;
     call_claim_generator := call_claim_generator c;
     call_actions := call_actions c;
     call_ai_info := call_ai_info c;
     call_custom_claims := call_custom_claims c;
     call_distribute_across_targets := call_distribute_across_targets c |}.

(** ** The distributed splice, as a walk along the text

    In the words of the comments of the source: each target character is
    followed by one selector, in the order of the text, until all the
    selectors are placed; the rest of the text is left as it is. [pos] is
    the index of the head of [text] in the whole text. *)
Fixpoint insert_after (text : pystr) (pos : nat) (targets : list nat)
    (selectors : list Z) : pystr :=
  match text with
  | [] => []
  | c :: rest =>
      match targets, selectors with
      | t :: targets', s :: selectors' =>
          if (pos =? t)%nat
          then c :: s :: insert_after rest (S pos) targets' selectors'
          else c :: insert_after rest (S pos) targets selectors
      | _, _ => c :: rest
      end
  end.

(** ** The manifest block on the caller's objects

    [inner_manifest["ai_info"] = ai_info] stores the dictionary of the
    caller itself, not a copy of it, and
    [inner_manifest["ai_info"]["model_id"] = model_id] then writes into
    that object. Here the block that builds [inner_manifest] is embedded
    over a store of dictionary objects: a dictionary holds references to
    other dictionaries of the store, or values that the block only
    passes on. *)
Definition address := nat.

Inductive stored : Type :=
| Ref (l : address)
| Val (v : pyval).

Definition object := list (pystr * stored).
Definition store := list object.

Fixpoint object_get (o : object) (k : pystr) : option stored :=
  match o with
  | [] => None
  | (k', v) :: r => if pystr_eqb k' k then Some v else object_get r k
  end.

(** [o[k] = v], as [dict_set]. *)
Fixpoint object_set (o : object) (k : pystr) (v : stored) : object :=
  match o with
  | [] => [(k, v)]
  | (k', v') :: r =>
      if pystr_eqb k' k then (k', v) :: r else (k', v') :: object_set r k v
  end.

Definition store_get (s : store) (l : address) : object := nth l s [].

Fixpoint store_update (s : store) (l : address) (f : object -> object)
    : store :=
  match s, l with
  | [], _ => []
  | o :: r, O => f o :: r
  | o :: r, S l' => o :: store_update r l' f
  end.

(** [{}]: a new empty dictionary. *)
Definition alloc (s : store) : store * address := (s ++ [[]], length s).

(** [d[k] = v] for the dictionary at [l]. *)
Definition set_item (s : store) (l : address) (k : pystr) (v : stored)
    : store :=
  store_update s l (fun o => object_set o k v).

Definition nonempty (o : object) : bool :=
  match o with
  | [] => false
  | _ :: _ => true
  end.

(** [if x:] for an argument that is [None] or a dictionary. *)
Definition truthy_at (s : store) (x : option address) : bool :=
  match x with
  | Some l => nonempty (store_get s l)
  | None => false
  end.

(** Step 2 of the manifest branch, up to the last optional entry:
    [inner_manifest = {}] and the four entries, each set when its
    argument is truthy. The result is the store and the address of
    [inner_manifest]. *)
Definition manifest_entries (s : store) (claim_generator : option pystr)
    (actions : option (list pyval)) (ai_info custom_claims : option address)
    : store * address :=
  let '(s, inner_manifest) := alloc s in
  let s :=
    match claim_generator with
    | Some c => if truthy claim_generator
                then set_item s inner_manifest (lit "claim_generator")
                       (Val (PStr c))
                else s
    | None => s
    end in
  let s :=
    match actions with
    | Some acts => if truthy actions
                   then set_item s inner_manifest (lit "actions")
                          (Val (PList acts))
                   else s
    | None => s
    end in
  let s :=
    match ai_info with
    | Some l => if truthy_at s ai_info
                then set_item s inner_manifest (lit "ai_info") (Ref l)
                else s
    | None => s
    end in
  let s :=
    match custom_claims with
    | Some l => if truthy_at s custom_claims
                then set_item s inner_manifest (lit "custom_claims") (Ref l)
                else s
    | None => s
    end in
  (s, inner_manifest).

(** The end of step 2, [if model_id:] with its two statements, on the
    store [s] that holds [inner_manifest]. *)
Definition manifest_model_id (s : store) (inner_manifest : address)
    (model_id : option pystr) : result store :=
  match model_id with
  | Some m =>
      if truthy model_id then
        let s :=
          match object_get (store_get s inner_manifest) (lit "ai_info") with
          | Some _ => s
          | None =>
              let '(s, fresh) := alloc s in
              set_item s inner_manifest (lit "ai_info") (Ref fresh)
          end in
        match object_get (store_get s inner_manifest) (lit "ai_info") with
        | Some (Ref l) => Ok (set_item s l (lit "model_id") (Val (PStr m)))
        | Some (Val _) => Raise TypeError
        | None => Raise KeyError
        end
      else Ok s
  | None => Ok s
  end.

(** Step 2 of the manifest branch: the store after it and the address of
    [inner_manifest]. The arguments [ai_info] and [custom_claims] are
    [None] or the address of a dictionary of the caller; they may be the
    same address, when the caller passes one dictionary for both. *)
Definition manifest_block (s : store) (claim_generator : option pystr)
    (actions : option (list pyval)) (ai_info custom_claims : option address)
    (model_id : option pystr) : result (store * address) :=
  let '(s, inner_manifest) :=
    manifest_entries s claim_generator actions ai_info custom_claims in
  s <- manifest_model_id s inner_manifest model_id ;;
  Ok (s, inner_manifest).

(** The dictionary at [l] as a value, references followed to the depth
    given. *)
Fixpoint read (depth : nat) (s : store) (l : address) : pydict :=
  match depth with
  | O => []
  | S d =>
      map (fun kv =>
             (fst kv,
              match snd kv with
              | Val v => v
              | Ref l' => PDict (read d s l')
              end))
        (store_get s l)
  end.

(** The caller's dictionary for the value [d]. *)
Definition object_of (d : pydict) : object :=
  map (fun kv => (fst kv, Val (snd kv))) d.

(** What [read] gives for an entry at depth one: the value, a reference
    being out of reach. *)
Definition value_of (x : stored) : pyval :=
  match x with
  | Val v => v
  | Ref _ => PDict []
  end.

(** The case of two separate dictionaries: the store that holds the
    value of [ai_info] and the value of [custom_claims] as two objects,
    and the two arguments, which refer to them. The case of one
    dictionary passed for both is a store with one object and the same
    address twice. *)
Definition separate_store (a : embed_args) : store :=
  [object_of (match arg_ai_info a with Some d => d | None => [] end);
   object_of (match arg_custom_claims a with Some d => d | None => [] end)].

Definition separate_ai_info (a : embed_args) : option address :=
  option_map (fun _ => 0%nat) (arg_ai_info a).

Definition separate_custom_claims (a : embed_args) : option address :=
  option_map (fun _ => 1%nat) (arg_custom_claims a).

(** ** Calls by position and by keyword

    The binding of the arguments of a call to the parameters of a function
    that takes neither [*args] nor [**kwargs], as [embed_metadata] with its
    [cls] already bound: the positional arguments fill the parameters in
    order, each keyword argument must name a parameter that has no value
    yet, and the parameters without a default must have a value in the
    end. Every failure is a [TypeError], raised before the body runs. *)
Section Calls.

Variable V : Type.

Fixpoint bind_positional (params : list pystr) (args : list V)
    : result (list (pystr * V)) :=
  match args, params with
  | [], _ => Ok []
  | v :: args', p :: params' =>
      bound <- bind_positional params' args' ;;
      Ok ((p, v) :: bound)
  | _ :: _, [] => Raise TypeError
  end.

Definition is_bound (bound : list (pystr * V)) (name : pystr) : bool :=
  existsb (fun kv => pystr_eqb (fst kv) name) bound.

Fixpoint bind_keywords (params : list pystr) (bound : list (pystr * V))
    (keywords : list (pystr * V)) : result (list (pystr * V)) :=
  match keywords with
  | [] => Ok bound
  | (k, v) :: keywords' =>
      if negb (existsb (pystr_eqb k) params) then Raise TypeError
      else if is_bound bound k then Raise TypeError
      else bind_keywords params (bound ++ [(k, v)]) keywords'
  end.

Definition bind_arguments (params required : list pystr) (args : list V)
    (keywords : list (pystr * V)) : result (list (pystr * V)) :=
  bound <- bind_positional params args ;;
  bound <- bind_keywords params bound keywords ;;
  if forallb (is_bound bound) required then Ok bound else Raise TypeError.

End Calls.

Arguments bind_positional {V}.
Arguments is_bound {V}.
Arguments bind_keywords {V}.
Arguments bind_arguments {V}.

(** The parameters of [embed_metadata] after [cls], in the order of its
    signature, and those without a default. *)
Definition embed_metadata_parameters : list pystr :=
  [lit "text"; lit "private_key"; lit "signer_id"; lit "metadata_format";
   lit "serialization_format"; lit "model_id"; lit "timestamp";
   lit "generationID"; lit "target"; lit "custom_metadata";
   lit "claim_generator"; lit "actions"; lit "ai_info"; lit "custom_claims";
   lit "distribute_across_targets"].

Definition embed_metadata_required : list pystr :=
  [lit "text"; lit "private_key"; lit "signer_id"].

(** ** [EncypherPDF.from_text]

    The call of [embed_metadata] with four positional arguments and the
    keywords [metadata_format], [target] and [**metadata_kwargs], then
    [generate_pdf] on the text it returned. [embed_metadata_body] is the
    body of [embed_metadata] on its bound arguments, and [generate_pdf]
    the writer of the file, whatever they do. *)
Definition from_text {V Document : Type}
    (embed_metadata_body : list (pystr * V) -> result pystr)
    (generate_pdf : pystr -> V -> result Document)
    (text output_path private_key signer_id timestamp : V)
    (metadata_format target : V) (metadata_kwargs : list (pystr * V))
    : result Document :=
  bound <- bind_arguments embed_metadata_parameters embed_metadata_required
             [text; private_key; signer_id; timestamp]
             ((lit "metadata_format", metadata_format)
                :: (lit "target", target) :: metadata_kwargs) ;;
  embedded_text <- embed_metadata_body bound ;;
  generate_pdf embedded_text output_path.
(** ** Tactics *)

(** Settle the integer comparisons of a goal from the linear facts at hand. *)
Ltac settle_cmp :=
  repeat match goal with
    | |- context [Z.leb ?a ?b] =>
        first [ replace (Z.leb a b) with true by (symmetry; apply Z.leb_le; lia)
              | replace (Z.leb a b) with false by (symmetry; apply Z.leb_gt; lia) ]
    | |- context [Z.ltb ?a ?b] =>
        first [ replace (Z.ltb a b) with true by (symmetry; apply Z.ltb_lt; lia)
              | replace (Z.ltb a b) with false by (symmetry; apply Z.ltb_ge; lia) ]
    end;
  cbv beta iota delta [andb negb orb].

Ltac unfold_vs :=
  unfold to_variation_selector, from_variation_selector, in_vs_ranges,
    is_byte, VARIATION_SELECTOR_START, VARIATION_SELECTOR_END,
    VARIATION_SELECTOR_SUPPLEMENT_START, VARIATION_SELECTOR_SUPPLEMENT_END
    in *.

(** Two literals of the source differ. *)
Ltac lit_neq := let H := fresh in intro H; vm_compute in H; discriminate H.

(** ** Codec lemmas *)

Lemma from_variation_selector_none (cp : Z) :
  ~ in_vs_ranges cp -> from_variation_selector cp = None.
Proof.
  unfold_vs. intros H.
  destruct (Z.le_gt_cases 0xFE00 cp), (Z.le_gt_cases cp 0xFE0F),
    (Z.le_gt_cases 0xE0100 cp), (Z.le_gt_cases cp 0xE01EF);
    try lia; settle_cmp; reflexivity.
Qed.

Lemma from_variation_selector_primary (cp : Z) :
  0xFE00 <= cp <= 0xFE0F -> from_variation_selector cp = Some (cp - 0xFE00).
Proof. unfold_vs. intros H. settle_cmp. reflexivity. Qed.

Lemma from_variation_selector_supplement (cp : Z) :
  0xE0100 <= cp <= 0xE01EF ->
  from_variation_selector cp = Some ((cp - 0xE0100) + 16).
Proof. unfold_vs. intros H. settle_cmp. reflexivity. Qed.

Lemma from_variation_selector_some (cp : Z) :
  in_vs_ranges cp -> exists b, from_variation_selector cp = Some b /\ is_byte b.
Proof.
  intros [H | H].
  - exists (cp - 0xFE00). split;
      [apply from_variation_selector_primary; exact H | unfold is_byte; lia].
  - exists ((cp - 0xE0100) + 16). split;
      [apply from_variation_selector_supplement; exact H | unfold is_byte; lia].
Qed.

Lemma in_vs_ranges_dec (cp : Z) : {in_vs_ranges cp} + {~ in_vs_ranges cp}.
Proof.
  unfold in_vs_ranges.
  destruct (Z_le_dec 0xFE00 cp), (Z_le_dec cp 0xFE0F),
    (Z_le_dec 0xE0100 cp), (Z_le_dec cp 0xE01EF);
    first [ left; lia | right; lia ].
Qed.

Lemma is_vs_iff (cp : Z) : is_vs cp = true <-> in_vs_ranges cp.
Proof.
  unfold is_vs. split.
  - destruct (in_vs_ranges_dec cp) as [Hin | Hout]; [intros _; exact Hin |].
    rewrite (from_variation_selector_none cp Hout). discriminate.
  - intros H. destruct (from_variation_selector_some cp H) as [b [-> _]].
    reflexivity.
Qed.

Lemma to_variation_selector_low (b : Z) :
  0 <= b < 16 -> to_variation_selector b = Some (0xFE00 + b).
Proof. unfold_vs. intros H. settle_cmp. reflexivity. Qed.

Lemma to_variation_selector_high (b : Z) :
  16 <= b < 256 -> to_variation_selector b = Some (0xE0100 + (b - 16)).
Proof. unfold_vs. intros H. settle_cmp. f_equal. lia. Qed.

Lemma to_variation_selector_byte (b : Z) :
  is_byte b ->
  exists cp, to_variation_selector b = Some cp
             /\ from_variation_selector cp = Some b.
Proof.
  unfold is_byte. intros H.
  destruct (Z.lt_ge_cases b 16) as [Hlo | Hhi].
  - exists (0xFE00 + b). split; [apply to_variation_selector_low; lia |].
    rewrite from_variation_selector_primary by lia. f_equal. lia.
  - exists (0xE0100 + (b - 16)).
    split; [apply to_variation_selector_high; lia |].
    rewrite from_variation_selector_supplement by lia. f_equal. lia.
Qed.

(** C2. [to_variation_selector] sends a byte below 16 to the code point
    [0xFE00 + b] and a byte from 16 to 255 to [0xE0100 + (b - 16)];
    [from_variation_selector] inverts it on every byte, and returns [None]
    on every code point outside the two variation-selector ranges. *)
Theorem variation_selector_codec (b cp : Z) :
  (0 <= b < 16 -> to_variation_selector b = Some (0xFE00 + b))
  /\ (16 <= b < 256 -> to_variation_selector b = Some (0xE0100 + (b - 16)))
  /\ (0 <= b <= 255 ->
      exists c, to_variation_selector b = Some c
                /\ from_variation_selector c = Some b)
  /\ (~ in_vs_ranges cp -> from_variation_selector cp = None).
Proof.
  split; [apply to_variation_selector_low |].
  split; [apply to_variation_selector_high |].
  split; [| apply from_variation_selector_none].
  intros H. apply to_variation_selector_byte. unfold is_byte. lia.
Qed.

Lemma variation_selector_codec_witness :
  to_variation_selector 7 = Some (0xFE00 + 7)
  /\ to_variation_selector 200 = Some (0xE0100 + (200 - 16))
  /\ (exists c, to_variation_selector 255 = Some c
                /\ from_variation_selector c = Some 255)
  /\ from_variation_selector 0x41 = None.
Proof.
  split; [apply (proj1 (variation_selector_codec 7 0)); lia |].
  split; [apply (proj1 (proj2 (variation_selector_codec 200 0))); lia |].
  split; [apply (proj1 (proj2 (proj2 (variation_selector_codec 255 0)))); lia |].
  apply (proj2 (proj2 (proj2 (variation_selector_codec 0 0x41)))).
  unfold in_vs_ranges. lia.
Defined.

(** ** The decoding loop *)

Lemma is_vs_some (c b : Z) :
  from_variation_selector c = Some b -> is_vs c = true.
Proof. unfold is_vs. now intros ->. Qed.

Lemma is_vs_none (c : Z) :
  from_variation_selector c = None -> is_vs c = false.
Proof. unfold is_vs. now intros ->. Qed.

Lemma extract_loop_collecting (text : pystr) (decoded : list Z) :
  decoded <> [] ->
  extract_loop text decoded
  = decoded ++ collect_some (map from_variation_selector (take_while is_vs text)).
Proof.
  revert decoded. induction text as [| char rest IH]; intros decoded Hne.
  - simpl. now rewrite app_nil_r.
  - simpl.
    destruct (from_variation_selector char) as [byte |] eqn:E.
    + rewrite IH by (destruct decoded; discriminate).
      rewrite (is_vs_some _ _ E). simpl. rewrite E. simpl.
      now rewrite <- app_assoc.
    + rewrite (is_vs_none _ E).
      destruct decoded as [| d ds]; [contradiction |].
      simpl length. rewrite Nat2Z.inj_succ.
      replace (0 <? Z.succ (Z.of_nat (length ds))) with true
        by (symmetry; apply Z.ltb_lt; lia).
      simpl. now rewrite app_nil_r.
Qed.

Lemma extract_loop_spec (text : pystr) :
  extract_loop text [] = decode_bytes_spec text.
Proof.
  unfold decode_bytes_spec. induction text as [| char rest IH].
  - reflexivity.
  - simpl.
    destruct (from_variation_selector char) as [byte |] eqn:E.
    + rewrite extract_loop_collecting by discriminate.
      rewrite (is_vs_some _ _ E). simpl.
      rewrite (is_vs_some _ _ E). simpl. rewrite E. reflexivity.
    + rewrite (is_vs_none _ E). simpl. exact IH.
Qed.

Lemma extract_bytes_loop (text : pystr) :
  extract_bytes text = extract_loop text [].
Proof. unfold extract_bytes. now destruct (extract_loop text []). Qed.

Lemma extract_bytes_spec (text : pystr) :
  extract_bytes text = decode_bytes_spec text.
Proof. rewrite extract_bytes_loop. apply extract_loop_spec. Qed.

(** The selectors of a byte string: one per byte, each decoding to it. *)
Lemma selectors_of_bytes (B : bytes) :
  is_bytes B ->
  exists sel,
    _bytes_to_variation_selectors B = Ok sel
    /\ Forall2 (fun c b => from_variation_selector c = Some b) sel B.
Proof.
  intros HB.
  assert (Hsel : exists sel,
             collect_some (map to_variation_selector B) = sel
             /\ Forall2 (fun c b => from_variation_selector c = Some b) sel B).
  { induction HB as [| b B Hb _ IH].
    - exists []. split; [reflexivity | constructor].
    - destruct IH as [sel [Hsel HF]].
      destruct (to_variation_selector_byte b Hb) as [c [Hc Hback]].
      exists (c :: sel). split; [| constructor; assumption].
      simpl. rewrite Hc. simpl. now rewrite Hsel. }
  destruct Hsel as [sel [Hsel HF]]. exists sel. split; [| exact HF].
  unfold _bytes_to_variation_selectors. cbv zeta. rewrite Hsel.
  rewrite (Forall2_length HF), Nat.eqb_refl. reflexivity.
Qed.

Lemma decode_selectors (sel : list codepoint) (B : bytes) (rest : pystr) :
  Forall2 (fun c b => from_variation_selector c = Some b) sel B ->
  (match rest with [] => True | c :: _ => is_vs c = false end) ->
  collect_some (map from_variation_selector (take_while is_vs (sel ++ rest)))
  = B.
Proof.
  intros HF Hrest. induction HF as [| c b sel B Hcb _ IH].
  - simpl. destruct rest as [| c r]; [reflexivity |].
    simpl. now rewrite Hrest.
  - simpl. rewrite (is_vs_some _ _ Hcb). simpl. rewrite Hcb. simpl.
    now rewrite IH.
Qed.

Lemma drop_while_selectors (sel : list codepoint) (B : bytes) (rest : pystr) :
  Forall2 (fun c b => from_variation_selector c = Some b) sel B ->
  sel <> [] ->
  drop_while (fun c => negb (is_vs c)) (sel ++ rest) = sel ++ rest.
Proof.
  intros HF Hne. destruct HF as [| c b sel B Hcb _]; [contradiction |].
  simpl. now rewrite (is_vs_some _ _ Hcb).
Qed.

(** C3. [extract_bytes] skips the code points that are not variation
    selectors until the first selector, then collects one byte per selector
    and stops at the first other code point; so after any anchor [X] that is
    not a variation selector, the selectors of a byte string [B] decode to
    [B]. *)
Theorem extract_bytes_decodes (text : pystr) (B : bytes) (X : Z) :
  extract_bytes text = decode_bytes_spec text
  /\ (is_bytes B -> from_variation_selector X = None ->
      exists sel, _bytes_to_variation_selectors B = Ok sel
                  /\ length sel = length B
                  /\ extract_bytes (X :: sel) = B).
Proof.
  split; [apply extract_bytes_spec |].
  intros HB HX. destruct (selectors_of_bytes B HB) as [sel [Hsel HF]].
  exists sel. split; [exact Hsel |]. split; [exact (Forall2_length HF) |].
  rewrite extract_bytes_spec. unfold decode_bytes_spec.
  simpl. rewrite (is_vs_none _ HX). simpl.
  destruct sel as [| c sel'].
  - inversion HF. reflexivity.
  - rewrite <- (app_nil_r (c :: sel')).
    rewrite (drop_while_selectors _ B) by (assumption || discriminate).
    apply decode_selectors; [assumption | exact I].
Qed.

Lemma extract_bytes_decodes_witness :
  extract_bytes [0x41; 0xFE01; 0xE0100; 0x42; 0xFE02]
  = decode_bytes_spec [0x41; 0xFE01; 0xE0100; 0x42; 0xFE02]
  /\ exists sel, _bytes_to_variation_selectors [0; 15; 16; 255] = Ok sel
                 /\ length sel = 4%nat
                 /\ extract_bytes (0x58 :: sel) = [0; 15; 16; 255].
Proof.
  split.
  - apply (proj1 (extract_bytes_decodes _ [] 0)).
  - apply (proj2 (extract_bytes_decodes [] [0; 15; 16; 255] 0x58)).
    + repeat constructor; unfold is_byte; lia.
    + reflexivity.
Defined.

(** ** Results, dictionaries and the stages of [embed_metadata] *)

Lemma ok_inj {A} (x y : A) : Ok x = Ok y -> x = y.
Proof. congruence. Qed.

Lemma bind_ok {A B} (r : result A) (k : A -> result B) (v : B) :
  bind r k = Ok v -> exists x, r = Ok x /\ k x = Ok v.
Proof. destruct r as [x | e]; simpl; [eauto | discriminate]. Qed.

Lemma try_except_raising_ok {A} (r : result A) (classes : list exn_class)
    (e' : exn) (v : A) :
  try_except r classes (fun _ => Raise e') = Ok v -> r = Ok v.
Proof.
  destruct r as [x | e]; simpl; [trivial |].
  destruct (existsb (fun c => catches c e) classes); discriminate.
Qed.

Lemma raise_if_ok (b : bool) (e : exn) (u : unit) :
  raise_if b e = Ok u -> b = false.
Proof. destruct b; simpl; [discriminate | reflexivity]. Qed.

Lemma pystr_eqb_eq (a b : pystr) : pystr_eqb a b = true <-> a = b.
Proof.
  unfold pystr_eqb. destruct (list_eq_dec Z.eq_dec a b); split;
    congruence.
Qed.

Lemma pystr_eqb_refl (a : pystr) : pystr_eqb a a = true.
Proof. now apply pystr_eqb_eq. Qed.

Lemma pystr_eqb_neq (a b : pystr) : a <> b -> pystr_eqb a b = false.
Proof.
  intros H. destruct (pystr_eqb a b) eqn:E; [| reflexivity].
  apply pystr_eqb_eq in E. contradiction.
Qed.

Lemma dict_get_set_same (d : pydict) (k : pystr) (v : pyval) :
  dict_get (dict_set d k v) k = Some v.
Proof.
  induction d as [| [k' v'] r IH]; simpl.
  - now rewrite pystr_eqb_refl.
  - destruct (pystr_eqb k' k) eqn:E; simpl; rewrite E; [reflexivity | exact IH].
Qed.

Lemma dict_get_set_other (d : pydict) (k k0 : pystr) (v : pyval) :
  k <> k0 -> dict_get (dict_set d k v) k0 = dict_get d k0.
Proof.
  intros Hne. induction d as [| [k' v'] r IH]; simpl.
  - now rewrite (pystr_eqb_neq _ _ Hne).
  - destruct (pystr_eqb k' k) eqn:E; simpl.
    + apply pystr_eqb_eq in E. subst k'.
      now rewrite (pystr_eqb_neq _ _ Hne).
    + destruct (pystr_eqb k' k0); [reflexivity | exact IH].
Qed.

Lemma set_if_truthy_other (d : pydict) (k k0 : pystr) (o : option pystr) :
  k <> k0 -> dict_get (set_if_truthy d k o) k0 = dict_get d k0.
Proof.
  intros Hne. unfold set_if_truthy. destruct o as [s |]; [| reflexivity].
  destruct (truthy (Some s)); [now apply dict_get_set_other | reflexivity].
Qed.

Lemma embed_signature_ok (L : PyLib) (a : embed_args) (payload : pydict)
    (signature_b64 : pystr) :
  embed_signature L a payload = Ok signature_b64 ->
  exists raw message,
    arg_private_key a = Ed25519PrivateKey raw
    /\ serialize_payload L payload JSON = Ok message
    /\ decode_ascii (rstrip_eq (b64_encode L (ed25519_sign L raw message)))
       = Ok signature_b64.
Proof.
  unfold embed_signature. intros H. apply try_except_raising_ok in H.
  apply bind_ok in H. destruct H as [message [Hmsg H]].
  apply bind_ok in H. destruct H as [signature [Hsig H]].
  unfold sign_payload in Hsig.
  destruct (arg_private_key a) as [raw |]; [| discriminate].
  injection Hsig as <-. exists raw, message. auto.
Qed.

Lemma embed_selectors_stages (L : PyLib) (a : embed_args) (sel : list Z) :
  embed_selectors L a = Ok sel ->
  exists st : embed_stages L a, st_selectors L a st = sel.
Proof.
  intros Hsel. pose proof Hsel as H. unfold embed_selectors in H.
  apply bind_ok in H. destruct H as [outer [Houter H]].
  apply bind_ok in H. destruct H as [outer_bytes [Hbytes H]].
  apply try_except_raising_ok in Hbytes. apply try_except_raising_ok in H.
  pose proof Houter as Houter'. unfold embed_outer_payload in Houter'.
  apply bind_ok in Houter'. destruct Houter' as [payload [Hpayload Houter']].
  apply bind_ok in Houter'. destruct Houter' as [sig [Hsig Houter']].
  injection Houter' as <-.
  destruct (embed_signature_ok L a payload sig Hsig)
    as [raw [message [Hkey [Hmsg Hdec]]]].
  unshelve eexists.
  - exact {| st_raw := raw; st_payload := payload; st_message := message;
             st_signature_b64 := sig; st_outer_bytes := outer_bytes;
             st_selectors := sel; st_key := Hkey; st_payload_eq := Hpayload;
             st_message_eq := Hmsg; st_signature_eq := Hdec;
             st_outer_eq := Houter; st_outer_bytes_eq := Hbytes;
             st_selectors_eq := H; st_embed_selectors := Hsel |}.
  - reflexivity.
Qed.

Lemma embed_metadata_ok (L : PyLib) (a : embed_args) (text' : pystr) :
  embed_metadata L a = Ok text' ->
  exists sel,
    embed_selectors L a = Ok sel
    /\ ((sel = [] /\ text' = arg_text a)
        \/ (sel <> [] /\ embed_splice L a sel = Ok text')).
Proof.
  unfold embed_metadata. intros H. apply bind_ok in H.
  destruct H as [sel [Hsel H]]. exists sel. split; [exact Hsel |].
  destruct sel as [| s sel'].
  - left. split; [reflexivity | congruence].
  - right. split; [discriminate | exact H].
Qed.

(** ** Slices, selectors and targets *)

Lemma firstn_add {A} (n m : nat) (l : list A) :
  firstn (n + m) l = firstn n l ++ firstn m (skipn n l).
Proof.
  revert l. induction n as [| n IH]; intros l; [reflexivity |].
  destruct l as [| x l]; simpl.
  - now rewrite firstn_nil.
  - now rewrite IH.
Qed.

Lemma slice_split (text : pystr) (a b c : nat) :
  (a <= b)%nat -> (b <= c)%nat ->
  slice text a c = slice text a b ++ slice text b c.
Proof.
  intros Hab Hbc. unfold slice.
  replace (c - a)%nat with ((b - a) + (c - b))%nat by lia.
  rewrite firstn_add, skipn_skipn.
  now replace (b - a + a)%nat with b by lia.
Qed.

Lemma slice_one (text : pystr) (t : nat) (c : Z) :
  nth_error text t = Some c -> slice text t (t + 1) = [c].
Proof.
  unfold slice. replace (t + 1 - t)%nat with 1%nat by lia.
  revert text. induction t as [| t IH]; intros [| x text] H;
    try discriminate; simpl in *.
  - now injection H as ->.
  - now apply IH.
Qed.

Lemma slice_length (text : pystr) (a b : nat) :
  (b <= length text)%nat -> length (slice text a b) = (b - a)%nat.
Proof.
  intros H. unfold slice. rewrite length_firstn, length_skipn. lia.
Qed.

Lemma slice_from_zero (text : pystr) (b : nat) :
  slice text 0 b = firstn b text.
Proof. unfold slice. simpl. now rewrite Nat.sub_0_r. Qed.

Lemma to_variation_selector_none (b : Z) :
  ~ is_byte b -> to_variation_selector b = None.
Proof.
  unfold is_byte. intros H.
  destruct (Z_lt_dec b 0); [| assert (256 <= b) by lia];
    unfold_vs; settle_cmp; reflexivity.
Qed.

Lemma some_inj {A} (x y : A) : Some x = Some y -> x = y.
Proof. congruence. Qed.

Lemma to_variation_selector_inv (b c : Z) :
  to_variation_selector b = Some c -> from_variation_selector c = Some b.
Proof.
  intros H.
  destruct (Z_lt_dec b 0) as [Hneg |];
    [rewrite to_variation_selector_none in H
       by (unfold is_byte; lia); discriminate |].
  destruct (Z_lt_dec b 16) as [Hlow |].
  - rewrite to_variation_selector_low in H by lia.
    apply some_inj in H. subst c.
    rewrite from_variation_selector_primary by lia. f_equal. lia.
  - destruct (Z_lt_dec b 256) as [Hhigh |].
    + rewrite to_variation_selector_high in H by lia.
      apply some_inj in H. subst c.
      rewrite from_variation_selector_supplement by lia. f_equal. lia.
    + rewrite to_variation_selector_none in H
        by (unfold is_byte; lia). discriminate.
Qed.

Lemma collect_some_length {A} (l : list (option A)) :
  (length (collect_some l) <= length l)%nat.
Proof.
  induction l as [| [a |] l IH]; simpl; lia.
Qed.

Lemma selectors_decode (data : bytes) (sel : list Z) :
  _bytes_to_variation_selectors data = Ok sel ->
  Forall2 (fun c b => from_variation_selector c = Some b) sel data.
Proof.
  unfold _bytes_to_variation_selectors. cbv zeta.
  destruct (length (collect_some (map to_variation_selector data))
            =? length data)%nat eqn:E; simpl; [| discriminate].
  intros H. injection H as <-. apply Nat.eqb_eq in E.
  induction data as [| b data IH]; simpl in *; [constructor |].
  destruct (to_variation_selector b) as [c |] eqn:Hb; simpl in *.
  - constructor; [now apply to_variation_selector_inv |].
    apply IH. lia.
  - pose proof (collect_some_length (map to_variation_selector data)) as Hle.
    rewrite length_map in Hle. lia.
Qed.

Lemma selectors_are_vs (data : bytes) (sel : list Z) :
  _bytes_to_variation_selectors data = Ok sel ->
  Forall (fun s => is_vs s = true) sel.
Proof.
  intros H. apply selectors_decode in H.
  induction H as [| c b sel data Hcb _ IH]; constructor;
    [exact (is_vs_some _ _ Hcb) | exact IH].
Qed.

Lemma selectors_length (data : bytes) (sel : list Z) :
  _bytes_to_variation_selectors data = Ok sel -> length sel = length data.
Proof. intros H. exact (Forall2_length (selectors_decode _ _ H)). Qed.

Lemma increasing_from_weaken (lo lo' : nat) (l : list nat) :
  (lo' <= lo)%nat -> increasing_from lo l -> increasing_from lo' l.
Proof. destruct l as [| x r]; simpl; [trivial | intros ? [? ?]; split; [lia | assumption]]. Qed.

Lemma filter_seq_increasing (p : nat -> bool) (n lo : nat) :
  increasing_from lo (filter p (seq lo n)).
Proof.
  revert lo. induction n as [| n IH]; intros lo; simpl; [exact I |].
  destruct (p lo); simpl.
  - split; [lia | apply IH].
  - apply (increasing_from_weaken (S lo)); [lia | apply IH].
Qed.

Lemma filter_seq_bounded (p : nat -> bool) (n lo : nat) :
  Forall (fun i => (i < lo + n)%nat) (filter p (seq lo n)).
Proof.
  apply Forall_forall. intros i Hi. apply filter_In in Hi.
  destruct Hi as [Hi _]. apply in_seq in Hi. lia.
Qed.

Lemma sort_indices_increasing (lo : nat) (l : list nat) :
  increasing_from lo l -> sort_indices l = l.
Proof.
  revert lo. induction l as [| x r IH]; intros lo H; [reflexivity |].
  destruct H as [_ Hr]. simpl. rewrite (IH _ Hr).
  destruct r as [| y r']; [reflexivity |].
  destruct Hr as [Hxy _]. simpl.
  replace (x <=? y)%nat with true by (symmetry; apply Nat.leb_le; lia).
  reflexivity.
Qed.

Lemma find_targets_member (L : PyLib) (text : pystr) (target : target_arg) :
  find_targets L text target
  = (t <- target_member target ;; Ok (finditer_starts L t text)).
Proof. reflexivity. Qed.

Lemma find_targets_increasing (L : PyLib) (text : pystr)
    (target : target_arg) (targets : list nat) :
  find_targets L text target = Ok targets -> increasing_from 0 targets.
Proof.
  rewrite find_targets_member. intros H. apply bind_ok in H.
  destruct H as [t [_ H]]. injection H as <-. apply filter_seq_increasing.
Qed.

Lemma find_targets_empty_text (L : PyLib) (target : target_arg)
    (targets : list nat) :
  find_targets L [] target = Ok targets -> targets = [].
Proof.
  rewrite find_targets_member. intros H. apply bind_ok in H.
  destruct H as [t [_ H]]. now injection H as <-.
Qed.

(** The target [embed_metadata] passes on finds what the argument finds. *)
Lemma find_targets_default (L : PyLib) (text : pystr) (target : target_arg) :
  find_targets L text (embedding_target_of target)
  = find_targets L text target.
Proof. now destruct target. Qed.

(** ** Inserting selectors *)

Lemma vs_inserted_refl (text : pystr) : vs_inserted text text.
Proof. induction text; constructor; assumption. Qed.

Lemma vs_inserted_selectors (sel : list Z) :
  Forall (fun s => is_vs s = true) sel -> vs_inserted [] sel.
Proof. induction 1; constructor; assumption. Qed.

Lemma vs_inserted_app (o1 r1 o2 r2 : pystr) :
  vs_inserted o1 r1 -> vs_inserted o2 r2 -> vs_inserted (o1 ++ o2) (r1 ++ r2).
Proof.
  intros H1 H2. induction H1; simpl; [assumption | |];
    constructor; assumption.
Qed.

Lemma vs_inserted_subseq (orig res : pystr) :
  vs_inserted orig res -> subseq orig res.
Proof. induction 1; constructor; assumption. Qed.

Lemma vs_inserted_strip (orig res : pystr) :
  vs_inserted orig res -> strip_vs res = strip_vs orig.
Proof.
  induction 1 as [| c orig res _ IH | s orig res Hs _ IH]; simpl.
  - reflexivity.
  - now rewrite IH.
  - now rewrite Hs.
Qed.

Lemma strip_vs_no_vs (text : pystr) : no_vs text -> strip_vs text = text.
Proof.
  induction 1 as [| c text Hc _ IH]; simpl; [reflexivity |].
  now rewrite Hc, IH.
Qed.

(** ** The splice *)

Lemma distribute_loop_inserts (text : pystr) (sel : list Z) :
  Forall (fun s => is_vs s = true) sel ->
  forall (targets : list nat) (parts : list pystr) (last idx : nat)
         (parts' : list pystr) (last' : nat),
    increasing_from last targets ->
    (last <= length text)%nat ->
    distribute_loop text sel targets parts last idx = Ok (parts', last') ->
    exists X,
      concat parts' = concat parts ++ X
      /\ vs_inserted (slice text last last') X
      /\ (last <= last' <= length text)%nat
      /\ length X
         = (last' - last + Nat.min (length targets) (length sel - idx))%nat.
Proof.
  intros Hsel. induction targets as [| t rest IH];
    intros parts last idx parts' last' Hinc Hlast H; simpl in H.
  - injection H as <- <-. exists []. rewrite app_nil_r.
    unfold slice. rewrite Nat.sub_diag. simpl.
    split; [reflexivity |]. split; [constructor |]. lia.
  - destruct (idx <? length sel)%nat eqn:Hidx.
    + apply Nat.ltb_lt in Hidx.
      destruct (nth_error text t) as [c |] eqn:Hc; [| discriminate].
      destruct (nth_error sel idx) as [s |] eqn:Hs; [| discriminate].
      destruct Hinc as [Hlt Hinc]. rewrite Nat.add_1_r in H.
      assert (Ht : (t < length text)%nat)
        by (apply nth_error_Some; congruence).
      destruct (IH _ _ _ _ _ Hinc Ht H) as [X [Hcat [Hins [Hle Hlen]]]].
      exists (slice text last t ++ [c] ++ [s] ++ X).
      split; [| split; [| split]].
      * rewrite Hcat, concat_app. simpl.
        now rewrite <- !app_assoc.
      * rewrite (slice_split text last t last') by lia.
        rewrite (slice_split text t (S t) last') by lia.
        rewrite <- Nat.add_1_r, (slice_one text t c Hc), Nat.add_1_r.
        apply vs_inserted_app; [apply vs_inserted_refl |].
        simpl. apply vs_inserted_keep. apply vs_inserted_selector; [| exact Hins].
        apply nth_error_In in Hs.
        exact (proj1 (Forall_forall _ _) Hsel s Hs).
      * lia.
      * rewrite !length_app, slice_length by lia. simpl length.
        rewrite Hlen. lia.
    + apply Nat.ltb_ge in Hidx. injection H as <- <-. exists [].
      rewrite app_nil_r. unfold slice. rewrite Nat.sub_diag.
      split; [reflexivity |]. split; [constructor |].
      simpl length. lia.
Qed.

(** What a successful splice returns: the text with the selectors
    inserted, all of them. *)
Lemma embed_splice_inserts (L : PyLib) (a : embed_args) (sel : list Z)
    (text' : pystr) :
  Forall (fun s => is_vs s = true) sel ->
  embed_splice L a sel = Ok text' ->
  vs_inserted (arg_text a) text'
  /\ length text' = (length (arg_text a) + length sel)%nat.
Proof.
  intros Hsel H. unfold embed_splice in H. cbv zeta in H.
  apply bind_ok in H. destruct H as [targets [Htargets H]].
  apply try_except_raising_ok in Htargets.
  pose proof (find_targets_increasing _ _ _ _ Htargets) as Hinc.
  destruct targets as [| t rest]; [discriminate |].
  destruct (arg_distribute_across_targets a).
  - destruct (length (t :: rest) <? length sel)%nat eqn:Hcap; [discriminate |].
    apply Nat.ltb_ge in Hcap.
    rewrite (sort_indices_increasing _ _ Hinc) in H.
    apply bind_ok in H. destruct H as [[parts' last'] [Hloop H]].
    injection H as <-.
    destruct (distribute_loop_inserts _ _ Hsel _ _ _ _ _ _ Hinc
                (Nat.le_0_l _) Hloop) as [X [Hcat [Hins [Hle Hlen]]]].
    simpl in Hcat. rewrite concat_app, Hcat. simpl. rewrite app_nil_r.
    unfold slice_from. split.
    + rewrite <- (firstn_skipn last' (arg_text a)) at 1.
      apply vs_inserted_app; [| apply vs_inserted_refl].
      now rewrite <- slice_from_zero.
    + rewrite length_app, Hlen, length_skipn. lia.
  - injection H as <-. unfold slice_to, slice_from. split.
    + rewrite <- (firstn_skipn (t + 1) (arg_text a)) at 1.
      apply vs_inserted_app; [apply vs_inserted_refl |].
      rewrite <- (app_nil_l (skipn (t + 1) (arg_text a))) at 1.
      apply vs_inserted_app;
        [now apply vs_inserted_selectors | apply vs_inserted_refl].
    + rewrite !length_app, length_firstn, length_skipn. lia.
Qed.

Lemma embed_metadata_inserts (L : PyLib) (a : embed_args) (text' : pystr) :
  embed_metadata L a = Ok text' -> vs_inserted (arg_text a) text'.
Proof.
  intros H. destruct (embed_metadata_ok L a text' H) as [sel [Hsel Hcases]].
  destruct Hcases as [[_ ->] | [_ Hsplice]]; [apply vs_inserted_refl |].
  destruct (embed_selectors_stages L a sel Hsel) as [st Hst].
  pose proof (selectors_are_vs _ _ (st_selectors_eq L a st)) as Hvs.
  rewrite Hst in Hvs.
  exact (proj1 (embed_splice_inserts L a sel text' Hvs Hsplice)).
Qed.

(** C4 (as amended). Whenever [embed_metadata] succeeds, in either mode,
    the code points of the original text appear in the returned text in
    their order, and removing the variation selectors from the returned
    text gives the original text without its own variation selectors: the
    original text exactly when it contains none. *)
Theorem embed_preserves_text (L : PyLib) (a : embed_args) (text' : pystr) :
  embed_metadata L a = Ok text' ->
  subseq (arg_text a) text'
  /\ strip_vs text' = strip_vs (arg_text a)
  /\ (no_vs (arg_text a) -> strip_vs text' = arg_text a).
Proof.
  intros H. apply embed_metadata_inserts in H.
  split; [now apply vs_inserted_subseq |].
  split; [now apply vs_inserted_strip |].
  intros Hno. rewrite (vs_inserted_strip _ _ H). now apply strip_vs_no_vs.
Qed.

Lemma embed_preserves_text_witness :
  exists text',
    embed_metadata RefLib hello_args = Ok text'
    /\ subseq (arg_text hello_args) text'
    /\ strip_vs text' = strip_vs (arg_text hello_args)
    /\ (no_vs (arg_text hello_args) -> strip_vs text' = arg_text hello_args).
Proof.
  eexists. split; [vm_compute; reflexivity |].
  apply (embed_preserves_text RefLib hello_args). vm_compute. reflexivity.
Defined.

(** C4 as stated fails on a text that has a variation selector of its
    own: stripping the selectors from the result removes it too. *)
Lemma embed_strip_counterexample :
  exists text',
    embed_metadata RefLib heart_args = Ok text'
    /\ strip_vs text' <> arg_text heart_args.
Proof.
  eexists. split; [vm_compute; reflexivity |].
  vm_compute. discriminate.
Qed.

(** ** Capacity errors *)

Lemma embed_validate_target (a : embed_args) (u : unit) :
  embed_validate a = Ok u -> exists t, target_member (arg_target a) = Ok t.
Proof.
  unfold embed_validate. intros H.
  apply bind_ok in H. destruct H as [? [_ H]].
  apply bind_ok in H. destruct H as [? [_ H]].
  apply bind_ok in H. destruct H as [? [_ H]].
  apply bind_ok in H. destruct H as [? [H _]].
  destruct (arg_target a) as [| t | s |]; simpl in *;
    try discriminate; eauto.
  apply bind_ok in H. destruct H as [t [H _]]. eauto.
Qed.

Lemma embed_selectors_targets (L : PyLib) (a : embed_args) (sel : list Z) :
  embed_selectors L a = Ok sel ->
  exists targets, find_targets L (arg_text a) (arg_target a) = Ok targets.
Proof.
  intros H. destruct (embed_selectors_stages L a sel H) as [st _].
  pose proof (st_payload_eq L a st) as Hp. unfold embed_payload in Hp.
  apply bind_ok in Hp. destruct Hp as [u [Hv _]].
  destruct (embed_validate_target a u Hv) as [t Ht].
  exists (finditer_starts L t (arg_text a)).
  rewrite find_targets_member, Ht. reflexivity.
Qed.

(** C5. Once the selectors to embed are built and there is at least one,
    [embed_metadata] raises [ValueError] when the target policy matches no
    position of the host text (so for the empty text) and, in the
    distributed mode, when there are fewer targets than selectors; a call
    either raises, returning no text, or returns the host text with all the
    selectors inserted. *)
Theorem embed_capacity_errors (L : PyLib) (a : embed_args) (sel : list Z) :
  embed_selectors L a = Ok sel -> sel <> [] ->
  exists targets,
    find_targets L (arg_text a) (arg_target a) = Ok targets
    /\ (arg_text a = [] -> targets = [])
    /\ (targets = [] -> embed_metadata L a = Raise ValueError)
    /\ (arg_distribute_across_targets a = true ->
        (length targets < length sel)%nat ->
        embed_metadata L a = Raise ValueError)
    /\ (forall text', embed_metadata L a = Ok text' ->
        vs_inserted (arg_text a) text'
        /\ length text' = (length (arg_text a) + length sel)%nat).
Proof.
  intros Hsel Hne.
  destruct (embed_selectors_targets L a sel Hsel) as [targets Htargets].
  exists targets. split; [exact Htargets |].
  assert (Hsplice : embed_metadata L a = embed_splice L a sel).
  { unfold embed_metadata. rewrite Hsel. simpl.
    destruct sel; [contradiction | reflexivity]. }
  assert (Hbody : embed_splice L a sel
          = match targets with
            | [] => Raise ValueError
            | first_target :: _ =>
                if arg_distribute_across_targets a then
                  if (length targets <? length sel)%nat then Raise ValueError
                  else
                    st <- distribute_loop (arg_text a) sel
                            (sort_indices targets) [] 0 0 ;;
                    let '(result_parts, last_text_idx) := st in
                    Ok (concat (result_parts
                                  ++ [slice_from (arg_text a) last_text_idx]))
                else
                  Ok (slice_to (arg_text a) (first_target + 1) ++ sel
                        ++ slice_from (arg_text a) (first_target + 1))
            end).
  { unfold embed_splice. cbv zeta.
    rewrite find_targets_default, Htargets. reflexivity. }
  split; [| split; [| split]].
  - intros Htext. rewrite Htext in Htargets.
    exact (find_targets_empty_text _ _ _ Htargets).
  - intros ->. now rewrite Hsplice, Hbody.
  - intros Hdist Hcap. rewrite Hsplice, Hbody.
    destruct targets as [| t rest]; [reflexivity |].
    rewrite Hdist. apply Nat.ltb_lt in Hcap. now rewrite Hcap.
  - intros text' H. rewrite Hsplice in H.
    destruct (embed_selectors_stages L a sel Hsel) as [st Hst].
    pose proof (selectors_are_vs _ _ (st_selectors_eq L a st)) as Hvs.
    rewrite Hst in Hvs. exact (embed_splice_inserts L a sel text' Hvs H).
Qed.

Lemma embed_capacity_errors_witness :
  exists sel,
    embed_selectors RefLib few_spaces_args = Ok sel /\ sel <> []
    /\ exists targets,
      find_targets RefLib (arg_text few_spaces_args)
        (arg_target few_spaces_args) = Ok targets
      /\ (arg_text few_spaces_args = [] -> targets = [])
      /\ (targets = [] -> embed_metadata RefLib few_spaces_args = Raise ValueError)
      /\ (arg_distribute_across_targets few_spaces_args = true ->
          (length targets < length sel)%nat ->
          embed_metadata RefLib few_spaces_args = Raise ValueError)
      /\ (forall text', embed_metadata RefLib few_spaces_args = Ok text' ->
          vs_inserted (arg_text few_spaces_args) text'
          /\ length text'
             = (length (arg_text few_spaces_args) + length sel)%nat).
Proof.
  eexists. split; [vm_compute; reflexivity |].
  split; [discriminate |].
  apply (embed_capacity_errors RefLib few_spaces_args);
    [vm_compute; reflexivity | discriminate].
Defined.

(** The three failing calls of the claim, run on the reference instance. *)
Example embed_no_target :
  embed_metadata RefLib no_space_args = Raise ValueError.
Proof. vm_compute. reflexivity. Qed.

Example embed_empty_text :
  embed_metadata RefLib empty_text_args = Raise ValueError.
Proof. vm_compute. reflexivity. Qed.

Example embed_too_few_targets :
  embed_metadata RefLib few_spaces_args = Raise ValueError.
Proof. vm_compute. reflexivity. Qed.

(** ** The envelope *)

Lemma payload_head_signer_id (a : embed_args) (iso : option pystr) :
  dict_get (payload_head a iso) (lit "signer_id")
  = Some (PStr (arg_signer_id a)).
Proof. reflexivity. Qed.

Lemma payload_head_format (a : embed_args) (iso : option pystr) :
  dict_get (payload_head a iso) (lit "format")
  = Some (PStr (arg_metadata_format a)).
Proof. reflexivity. Qed.

(** The optional entries of the basic payload leave the other keys as
    they are. *)
Lemma basic_payload_head (a : embed_args) (iso : option pystr) (k : pystr) :
  lit "model_id" <> k -> lit "generationID" <> k ->
  lit "custom_metadata" <> k ->
  dict_get (basic_payload a iso) k = dict_get (payload_head a iso) k.
Proof.
  intros Hm Hg Hc. unfold basic_payload. cbv zeta.
  assert (Hopt : dict_get
            (set_if_truthy
               (set_if_truthy (payload_head a iso) (lit "model_id")
                  (arg_model_id a))
               (lit "generationID") (arg_generationID a)) k
          = dict_get (payload_head a iso) k)
    by (now rewrite !set_if_truthy_other).
  destruct (arg_custom_metadata a) as [custom |]; [| exact Hopt].
  destruct (truthy (Some custom)); [| exact Hopt].
  destruct (existsb _ custom); now rewrite dict_get_set_other.
Qed.

Lemma manifest_payload_head (a : embed_args) (iso : option pystr)
    (k : pystr) :
  lit "manifest" <> k ->
  dict_get (manifest_payload a iso) k = dict_get (payload_head a iso) k.
Proof.
  intros Hk. unfold manifest_payload. cbv zeta.
  now rewrite dict_get_set_other.
Qed.

Lemma embed_payload_format (L : PyLib) (a : embed_args) (payload : pydict) :
  embed_payload L a = Ok payload ->
  exists iso,
    (arg_metadata_format a = lit "basic" /\ payload = basic_payload a iso)
    \/ (arg_metadata_format a = lit "manifest"
        /\ payload = manifest_payload a iso).
Proof.
  unfold embed_payload. intros H.
  apply bind_ok in H. destruct H as [u [_ H]].
  apply bind_ok in H. destruct H as [iso [_ H]].
  destruct (pystr_eqb (arg_metadata_format a) (lit "basic")) eqn:Eb.
  - apply pystr_eqb_eq in Eb. injection H as <-. exists iso. now left.
  - destruct (pystr_eqb (arg_metadata_format a) (lit "manifest")) eqn:Em;
      [| discriminate].
    apply pystr_eqb_eq in Em. apply bind_ok in H.
    destruct H as [iso' [_ H]]. injection H as <-. exists iso'. now right.
Qed.

(** C9. For every successful call, the envelope that is built and embedded
    has at its top level the [signer_id] and the [format] that its payload
    has, for the basic and the manifest formats alike. *)
Theorem outer_envelope_duplicates (L : PyLib) (a : embed_args)
    (text' : pystr) :
  embed_metadata L a = Ok text' ->
  exists outer payload,
    embed_outer_payload L a = Ok outer
    /\ dict_get outer (lit "payload") = Some (PDict payload)
    /\ dict_get outer (lit "signer_id") = dict_get payload (lit "signer_id")
    /\ dict_get outer (lit "format") = dict_get payload (lit "format")
    /\ dict_get payload (lit "signer_id") = Some (PStr (arg_signer_id a))
    /\ dict_get payload (lit "format") = Some (PStr (arg_metadata_format a))
    /\ (arg_metadata_format a = lit "basic"
        \/ arg_metadata_format a = lit "manifest").
Proof.
  intros H. destruct (embed_metadata_ok L a text' H) as [sel [Hsel _]].
  destruct (embed_selectors_stages L a sel Hsel) as [st _].
  exists (outer_payload_of a (st_payload L a st) (st_signature_b64 L a st)),
    (st_payload L a st).
  split; [exact (st_outer_eq L a st) |].
  split; [reflexivity |].
  destruct (embed_payload_format L a _ (st_payload_eq L a st))
    as [iso [[Hfmt Hp] | [Hfmt Hp]]]; rewrite Hp.
  - rewrite !basic_payload_head by lit_neq.
    rewrite payload_head_signer_id, payload_head_format. auto 7.
  - rewrite !manifest_payload_head by lit_neq.
    rewrite payload_head_signer_id, payload_head_format. auto 7.
Qed.

Lemma outer_envelope_duplicates_witness :
  exists text' outer payload,
    embed_metadata RefLib hello_args = Ok text'
    /\ embed_outer_payload RefLib hello_args = Ok outer
    /\ dict_get outer (lit "payload") = Some (PDict payload)
    /\ dict_get outer (lit "signer_id") = dict_get payload (lit "signer_id")
    /\ dict_get outer (lit "format") = dict_get payload (lit "format")
    /\ dict_get payload (lit "signer_id")
       = Some (PStr (arg_signer_id hello_args))
    /\ dict_get payload (lit "format")
       = Some (PStr (arg_metadata_format hello_args))
    /\ (arg_metadata_format hello_args = lit "basic"
        \/ arg_metadata_format hello_args = lit "manifest").
Proof.
  assert (H : exists text', embed_metadata RefLib hello_args = Ok text')
    by (eexists; vm_compute; reflexivity).
  destruct H as [text' H]. exists text'.
  destruct (outer_envelope_duplicates RefLib hello_args text' H)
    as [outer [payload Hrest]].
  exists outer, payload. split; [exact H | exact Hrest].
Defined.

(** ** Verification *)

(** C10. On the empty string [verify_metadata] returns
    [(None, False, None)] at once: the resolver is not called, whatever it
    is, and nothing is raised. *)
Theorem verify_empty_text (L : PyLib) (public_key_provider : provider_arg)
    (return_payload_on_failure : bool) :
  verify_metadata L [] public_key_provider return_payload_on_failure
  = {| provider_calls := []; returned := Ok (PNone, false, PNone) |}.
Proof. reflexivity. Qed.

Lemma dict_contains_get (d : pydict) (k : pystr) :
  dict_contains d k = true -> exists v, dict_get d k = Some v.
Proof.
  unfold dict_contains. destruct (dict_get d k) as [v |];
    [eauto | discriminate].
Qed.

(** An extracted envelope has the four required keys. *)
Lemma extracted_keys (L : PyLib) (text : pystr) (outer : pydict) :
  _extract_outer_payload L text = Some outer ->
  exists inner_payload signature_b64 signer_id,
    dict_get outer (lit "payload") = Some inner_payload
    /\ dict_get outer (lit "signature") = Some signature_b64
    /\ dict_get outer (lit "signer_id") = Some signer_id.
Proof.
  unfold _extract_outer_payload. cbv zeta.
  destruct (extract_bytes text) as [| b0 bs]; [discriminate |].
  destruct (_deserialize_outer_bytes L (b0 :: bs)) as [| | | | | d];
    try discriminate.
  destruct (forallb (dict_contains d) required_keys) eqn:Hkeys;
    [| discriminate].
  intros H. injection H as <-.
  unfold required_keys in Hkeys. simpl in Hkeys.
  repeat (apply andb_prop in Hkeys; destruct Hkeys as [?Hk Hkeys]).
  destruct (dict_contains_get _ _ Hk) as [p Hp].
  destruct (dict_contains_get _ _ Hk0) as [s Hs].
  destruct (dict_contains_get _ _ Hk1) as [i Hi].
  exists p, s, i. auto.
Qed.

(** The call after extraction: one call of the resolver, then the checks
    on the key. *)
Lemma verify_after_extraction (L : PyLib) (text : pystr) (outer : pydict)
    (provider : provider_arg) (flag : bool)
    (inner_payload signature_b64 signer_id : pyval) :
  _extract_outer_payload L text = Some outer ->
  dict_get outer (lit "payload") = Some inner_payload ->
  dict_get outer (lit "signature") = Some signature_b64 ->
  dict_get outer (lit "signer_id") = Some signer_id ->
  verify_and_extract_metadata L text provider flag
  = {| provider_calls := [signer_id];
       returned :=
         match call_provider provider signer_id with
         | Ok (Some public_key) =>
             if negb (is_asymmetric_public_key public_key)
             then failure flag inner_payload signer_id
             else verify_with_key L public_key inner_payload signature_b64
                    signer_id flag
         | _ => failure flag inner_payload signer_id
         end |}.
Proof.
  intros Hx Hp Hs Hi. unfold verify_and_extract_metadata, dict_index.
  rewrite Hx, Hp, Hs, Hi.
  destruct (call_provider provider signer_id) as [[k |] | e]; reflexivity.
Qed.

Lemma decode_signature_non_ascii (L : PyLib) (signature_b64 : pyval) :
  non_ascii_str signature_b64 = true ->
  decode_signature L signature_b64 = Raise ValueError.
Proof.
  destruct signature_b64 as [| | | s | |]; try discriminate.
  simpl. intros H. apply negb_true_iff in H.
  unfold urlsafe_b64decode. rewrite forallb_app, H. reflexivity.
Qed.

Lemma padding_ascii (n : nat) :
  forallb (fun c => c <? 128) (repeat 61 n) = true.
Proof. induction n; simpl; auto. Qed.

Lemma decode_signature_caught (L : PyLib) (signature_b64 : pyval) :
  non_ascii_str signature_b64 = false ->
  (exists b, decode_signature L signature_b64 = Ok b)
  \/ decode_signature L signature_b64 = Raise BinasciiError
  \/ decode_signature L signature_b64 = Raise TypeError.
Proof.
  destruct signature_b64 as [| | | s | |]; simpl; auto.
  intros H. apply negb_false_iff in H. unfold urlsafe_b64decode.
  rewrite forallb_app, H, padding_ascii. simpl.
  destruct (a2b_urlsafe L _); eauto.
Qed.

(** The steps after the key check, case by case. *)
Lemma verify_with_key_cases (L : PyLib) (key : public_key_obj)
    (inner_payload signature_b64 signer_id : pyval) (flag : bool) :
  verify_with_key L key inner_payload signature_b64 signer_id flag
  = if reserializes L inner_payload && non_ascii_str signature_b64
    then Raise ValueError
    else
      match (d <- py_dict L inner_payload ;; serialize_payload L d JSON),
            decode_signature L signature_b64 with
      | Ok message, Ok signature =>
          match verify_signature L key message signature with
          | Ok true => Ok (inner_payload, true, signer_id)
          | _ => failure flag inner_payload signer_id
          end
      | _, _ => failure flag inner_payload signer_id
      end.
Proof.
  unfold verify_with_key, reserializes. cbv zeta.
  destruct (d <- py_dict L inner_payload ;; serialize_payload L d JSON)
    as [message | e]; [| reflexivity].
  simpl andb.
  destruct (non_ascii_str signature_b64) eqn:Hs.
  - now rewrite (decode_signature_non_ascii L _ Hs).
  - destruct (decode_signature_caught L _ Hs) as [[b Hb] | [Hb | Hb]];
      rewrite Hb; [| reflexivity | reflexivity].
    destruct (verify_signature L key message b) as [[|] | e]; reflexivity.
Qed.

(** Apart from that case the call returns: with a signature that is not a
    string with a character outside ASCII, every path after extraction ends
    in a triple. *)
Lemma verify_returns_when_signature_ascii (L : PyLib) (text : pystr)
    (outer : pydict) (provider : provider_arg) (flag : bool)
    (signature_b64 : pyval) :
  _extract_outer_payload L text = Some outer ->
  dict_get outer (lit "signature") = Some signature_b64 ->
  non_ascii_str signature_b64 = false ->
  exists payload valid signer_id,
    returned (verify_and_extract_metadata L text provider flag)
    = Ok (payload, valid, signer_id).
Proof.
  intros Hx Hs Hascii.
  destruct (extracted_keys L text outer Hx) as [p [s [i [Hp [Hs' Hi]]]]].
  rewrite Hs in Hs'. apply some_inj in Hs'. subst s.
  rewrite (verify_after_extraction L text outer provider flag _ _ _ Hx Hp Hs Hi).
  simpl. unfold failure.
  destruct (call_provider provider i) as [[key |] | e]; eauto.
  destruct (negb (is_asymmetric_public_key key)); eauto.
  rewrite verify_with_key_cases, Hascii, andb_false_r. unfold failure.
  destruct (d <- py_dict L p ;; serialize_payload L d JSON)
    as [message | e]; eauto.
  destruct (decode_signature L signature_b64) as [signature | e]; eauto.
  destruct (verify_signature L key message signature) as [[|] | e]; eauto.
Qed.

(** C6, at the failing input. When the envelope holds as its signature a
    string with a character outside ASCII, the resolver returns a key of an
    accepted class and the payload serializes again,
    [verify_and_extract_metadata] raises [ValueError]: the decoding error is
    not among the exceptions that are caught. *)
Theorem verify_raises_on_non_ascii_signature (L : PyLib) (text : pystr)
    (outer : pydict) (provider : provider_arg) (flag : bool)
    (inner_payload signature_b64 signer_id : pyval) (key : public_key_obj) :
  _extract_outer_payload L text = Some outer ->
  dict_get outer (lit "payload") = Some inner_payload ->
  dict_get outer (lit "signature") = Some signature_b64 ->
  dict_get outer (lit "signer_id") = Some signer_id ->
  call_provider provider signer_id = Ok (Some key) ->
  is_asymmetric_public_key key = true ->
  reserializes L inner_payload = true ->
  non_ascii_str signature_b64 = true ->
  returned (verify_and_extract_metadata L text provider flag)
  = Raise ValueError.
Proof.
  intros Hx Hp Hs Hi Hcall Hkey Hser Hsig.
  rewrite (verify_after_extraction L text outer provider flag _ _ _ Hx Hp Hs Hi).
  simpl. rewrite Hcall, Hkey. simpl.
  now rewrite verify_with_key_cases, Hser, Hsig.
Qed.

Lemma verify_raises_on_non_ascii_signature_witness :
  _extract_outer_payload RefLib tampered_text = Some tampered_outer
  /\ returned (verify_and_extract_metadata RefLib tampered_text
                 demo_resolver false)
     = Raise ValueError.
Proof.
  assert (Hx : _extract_outer_payload RefLib tampered_text
               = Some tampered_outer) by (vm_compute; reflexivity).
  split; [exact Hx |].
  apply (verify_raises_on_non_ascii_signature RefLib tampered_text
           tampered_outer demo_resolver false
           (PDict [(lit "signer_id", PStr (lit "demo"))]) (PStr [0xE9])
           (PStr (lit "demo"))
           (Ed25519PublicKey (RefCodecs.public_key demo_key)));
    try exact Hx; vm_compute; reflexivity.
Defined.

(** C7, with its failing input. Modelled from the spec as far as
    [verify_signature] goes. With a resolved key of an asymmetric class
    other than Ed25519 the verdict is never true: the call returns the
    failure triple, except that it raises [ValueError] when the payload
    serializes again and the signature is a string with a character outside
    ASCII. And a call that returns the verdict true had an Ed25519 key. *)
Theorem verify_other_key_class (L : PyLib) (text : pystr) (outer : pydict)
    (provider : provider_arg) (flag : bool)
    (inner_payload signature_b64 signer_id : pyval) :
  _extract_outer_payload L text = Some outer ->
  dict_get outer (lit "payload") = Some inner_payload ->
  dict_get outer (lit "signature") = Some signature_b64 ->
  dict_get outer (lit "signer_id") = Some signer_id ->
  (forall key,
     call_provider provider signer_id = Ok (Some key) ->
     is_asymmetric_public_key key = true ->
     (forall raw, key <> Ed25519PublicKey raw) ->
     returned (verify_and_extract_metadata L text provider flag)
     = if reserializes L inner_payload && non_ascii_str signature_b64
       then Raise ValueError
       else failure flag inner_payload signer_id)
  /\ (forall payload signer,
        returned (verify_and_extract_metadata L text provider flag)
        = Ok (payload, true, signer) ->
        exists raw,
          call_provider provider signer_id = Ok (Some (Ed25519PublicKey raw))).
Proof.
  intros Hx Hp Hs Hi.
  rewrite (verify_after_extraction L text outer provider flag _ _ _ Hx Hp Hs Hi).
  simpl. split.
  - intros key Hcall Hkey Hother. rewrite Hcall, Hkey. simpl.
    rewrite verify_with_key_cases.
    destruct (reserializes L inner_payload && non_ascii_str signature_b64);
      [reflexivity |].
    destruct (d <- py_dict L inner_payload ;; serialize_payload L d JSON);
      [| reflexivity].
    destruct (decode_signature L signature_b64); [| reflexivity].
    destruct key; try reflexivity. now destruct (Hother raw).
  - intros payload signer H.
    destruct (call_provider provider signer_id) as [[key |] | e];
      try (unfold failure in H; discriminate).
    destruct (is_asymmetric_public_key key) eqn:Hkey; simpl in H;
      [| unfold failure in H; discriminate].
    destruct key; try (exists raw; reflexivity); exfalso;
      rewrite verify_with_key_cases in H;
      destruct (reserializes L inner_payload && non_ascii_str signature_b64);
      try discriminate;
      destruct (d <- py_dict L inner_payload ;; serialize_payload L d JSON);
      try (unfold failure in H; discriminate);
      destruct (decode_signature L signature_b64);
      unfold failure in H; simpl in H; discriminate.
Qed.

Lemma verify_other_key_class_witness :
  _extract_outer_payload RefLib tampered_text = Some tampered_outer
  /\ returned (verify_and_extract_metadata RefLib tampered_text
                 rsa_resolver false)
     = Raise ValueError.
Proof.
  assert (Hx : _extract_outer_payload RefLib tampered_text
               = Some tampered_outer) by (vm_compute; reflexivity).
  split; [exact Hx |].
  apply (proj1 (verify_other_key_class RefLib tampered_text tampered_outer
                  rsa_resolver false
                  (PDict [(lit "signer_id", PStr (lit "demo"))])
                  (PStr [0xE9]) (PStr (lit "demo")) Hx
                  eq_refl eq_refl eq_refl) RSAPublicKey);
    [reflexivity | reflexivity | discriminate].
Defined.

(** ** Embedding, then verifying *)

Lemma format_timestamp_some (L : PyLib) (ts : timestamp_input)
    (o : option pystr) :
  _format_timestamp L (Some ts) = Ok o -> exists iso, o = Some iso.
Proof.
  unfold _format_timestamp. intros H.
  apply bind_ok in H. destruct H as [dt [_ H]].
  apply bind_ok in H. destruct H as [dt' [_ H]].
  injection H as <-. eauto.
Qed.

(** The payload of a successful call: the arguments, with the timestamp
    in its canonical form. *)
Lemma embed_payload_built (L : PyLib) (a : embed_args) (payload : pydict) :
  embed_payload L a = Ok payload ->
  exists iso,
    _format_timestamp L (arg_timestamp a) = Ok (Some iso)
    /\ ((arg_metadata_format a = lit "basic"
         /\ payload = basic_payload a (Some iso))
        \/ (arg_metadata_format a = lit "manifest"
            /\ payload = manifest_payload a (Some iso))).
Proof.
  unfold embed_payload. intros H.
  apply bind_ok in H. destruct H as [u [Hv H]].
  apply bind_ok in H. destruct H as [o [Hts H]].
  apply try_except_raising_ok in Hts.
  assert (Hsome : exists iso, o = Some iso).
  { unfold embed_validate in Hv.
    apply bind_ok in Hv. destruct Hv as [? [_ Hv]].
    apply bind_ok in Hv. destruct Hv as [? [_ Hv]].
    apply bind_ok in Hv. destruct Hv as [? [Hv _]].
    destruct (arg_timestamp a) as [ts |]; [| discriminate].
    exact (format_timestamp_some L ts o Hts). }
  destruct Hsome as [iso ->]. exists iso. split; [exact Hts |].
  destruct (pystr_eqb (arg_metadata_format a) (lit "basic")) eqn:Eb.
  - apply pystr_eqb_eq in Eb. injection H as <-. now left.
  - destruct (pystr_eqb (arg_metadata_format a) (lit "manifest")) eqn:Em;
      [| discriminate].
    apply pystr_eqb_eq in Em. rewrite Hts in H. simpl in H.
    injection H as <-. now right.
Qed.

Lemma decode_ascii_ok (b : bytes) (s : pystr) :
  decode_ascii b = Ok s -> s = b /\ forallb (fun c => c <? 128) b = true.
Proof.
  unfold decode_ascii. destruct (forallb _ b); [| discriminate].
  intros H. injection H as <-. auto.
Qed.

Lemma drop_while_no_vs (prefix rest : pystr) :
  no_vs prefix ->
  drop_while (fun c => negb (is_vs c)) (prefix ++ rest)
  = drop_while (fun c => negb (is_vs c)) rest.
Proof.
  induction 1 as [| c prefix Hc _ IH]; simpl; [reflexivity |].
  now rewrite Hc.
Qed.

(** The selectors are read back from a text that has no variation
    selector before them and none right after them. *)
Lemma extract_bytes_spliced (prefix rest : pystr) (sel : list Z)
    (data : bytes) :
  _bytes_to_variation_selectors data = Ok sel ->
  data <> [] ->
  no_vs prefix ->
  no_vs (firstn 1 rest) ->
  extract_bytes (prefix ++ sel ++ rest) = data.
Proof.
  intros Hsel Hne Hprefix Hrest. pose proof (selectors_decode _ _ Hsel) as HF.
  rewrite extract_bytes_spec. unfold decode_bytes_spec.
  rewrite (drop_while_no_vs _ _ Hprefix).
  rewrite (drop_while_selectors sel data).
  - apply decode_selectors; [exact HF |].
    destruct rest as [| c r]; [exact I |].
    simpl in Hrest. now inversion Hrest.
  - exact HF.
  - intros ->. inversion HF. congruence.
Qed.

Lemma serialized_outer_deserializes (L : PyLib) (format : SerializationFormat)
    (outer : pydict) (outer_bytes : bytes) :
  transport_lossless L format outer ->
  serialize_payload L outer format = Ok outer_bytes ->
  outer_bytes <> []
  /\ _deserialize_outer_bytes L outer_bytes = PDict outer.
Proof.
  unfold transport_lossless, serialize_payload, _deserialize_outer_bytes.
  destruct format; intros Ht Hs.
  - destruct (Ht _ Hs) as [Hne [Hj Hl]]. now rewrite Hj, Hl.
  - destruct (Ht _ Hs) as [Hne [Hj [[e He] [Hc Hl]]]].
    now rewrite Hj, He, Hc, Hl.
  - apply bind_ok in Hs. destruct Hs as [b [Hb Hs]].
    apply ok_inj in Hs. subst outer_bytes. split; [discriminate |].
    change (startswith (lit "JUMBF" ++ b) (lit "JUMBF")) with true.
    cbv iota. change (skipn 5 (lit "JUMBF" ++ b)) with b.
    now rewrite (Ht _ Hb).
Qed.

Lemma verify_with_key_valid (L : PyLib) (raw : bytes) (payload : pydict)
    (signature_b64 : pystr) (signer_id : pyval) (flag : bool)
    (message signature : bytes) :
  serialize_payload L payload JSON = Ok message ->
  decode_signature L (PStr signature_b64) = Ok signature ->
  ed25519_verify L raw signature message = true ->
  verify_with_key L (Ed25519PublicKey raw) (PDict payload)
    (PStr signature_b64) signer_id flag
  = Ok (PDict payload, true, signer_id).
Proof.
  intros Hmessage Hdecode Hverify. unfold verify_with_key. cbv zeta.
  change (d <- py_dict L (PDict payload) ;; serialize_payload L d JSON)
    with (serialize_payload L payload JSON).
  rewrite Hmessage, Hdecode. unfold verify_signature. now rewrite Hverify.
Qed.

(** The padding that [rstrip(b"=")] removes is the padding that
    [-len(signature_b64) % 4] puts back. *)
Lemma rstrip_eq_padding (body : bytes) (padding : nat) :
  forallb (fun c => negb (c =? 61)) body = true ->
  rstrip_eq (body ++ repeat 61 padding) = body.
Proof.
  intros Hbody. induction body as [| c body IH].
  - induction padding as [| k IHk]; [reflexivity |].
    cbn [app repeat rstrip_eq] in *. now rewrite IHk.
  - cbn [forallb] in Hbody. apply andb_prop in Hbody.
    destruct Hbody as [Hc Hbody]. cbn [app rstrip_eq].
    rewrite (IH Hbody). apply negb_true_iff in Hc. rewrite Hc.
    now destruct body.
Qed.

Lemma pad_len_restores (n padding : nat) :
  (padding < 4)%nat -> ((n + padding) mod 4 = 0)%nat ->
  pad_len n = padding.
Proof.
  intros Hlt Hmod. unfold pad_len.
  apply Nat.Div0.mod_divides in Hmod. destruct Hmod as [q Hq].
  replace (- Z.of_nat n) with (Z.of_nat padding + (- Z.of_nat q) * 4) by lia.
  rewrite Z.mod_add by lia. rewrite Z.mod_small by lia. lia.
Qed.

Lemma padding_restored (L : PyLib) (data : bytes) :
  base64_standard L data ->
  a2b_urlsafe L
    (rstrip_eq (b64_encode L data)
       ++ repeat 61 (pad_len (length (rstrip_eq (b64_encode L data)))))
  = Some data.
Proof.
  intros [body [padding [Hform [Hbody [Hlt [Hmod Hdecode]]]]]].
  rewrite Hform in Hdecode |- *.
  rewrite (rstrip_eq_padding body padding Hbody).
  now rewrite (pad_len_restores (length body) padding Hlt Hmod).
Qed.

(** C1 (as amended). Take a call of [embed_metadata] that succeeds in the
    single-point mode, for either metadata format and any of the three
    serialization formats, on a host text in which the first anchor, the
    characters before it and the character after it are not variation
    selectors. The libraries are to do their part: the transport format
    parses back to the envelope, base64 is standard on the signature, and
    Ed25519 accepts the signature under the public key of the signing key.
    If the resolver returns that key for the signer, then
    [verify_metadata] on the returned text calls the resolver once and
    returns the payload of the call, with the timestamp in canonical form,
    the verdict true and the signer id. That the padding the embedder
    strips is the padding the verifier puts back is proved
    ([padding_restored]), not assumed. Nothing is said of the distributed
    mode. *)
Theorem embed_verify_roundtrip (L : PyLib) (a : embed_args) (text' : pystr)
    (raw : bytes) (payload outer : pydict) (t : nat) (others : list nat)
    (provider : provider_arg) (flag : bool) :
  embed_metadata L a = Ok text' ->
  arg_distribute_across_targets a = false ->
  find_targets L (arg_text a) (arg_target a) = Ok (t :: others) ->
  no_vs (firstn (t + 2) (arg_text a)) ->
  arg_private_key a = Ed25519PrivateKey raw ->
  embed_payload L a = Ok payload ->
  embed_outer_payload L a = Ok outer ->
  transport_lossless L (arg_serialization_format a) outer ->
  signing_libraries L raw payload ->
  call_provider provider (PStr (arg_signer_id a))
  = Ok (Some (Ed25519PublicKey (ed25519_public_key L raw))) ->
  verify_metadata L text' provider flag
  = {| provider_calls := [PStr (arg_signer_id a)];
       returned := Ok (PDict payload, true, PStr (arg_signer_id a)) |}
  /\ exists iso,
       _format_timestamp L (arg_timestamp a) = Ok (Some iso)
       /\ ((arg_metadata_format a = lit "basic"
            /\ payload = basic_payload a (Some iso))
           \/ (arg_metadata_format a = lit "manifest"
               /\ payload = manifest_payload a (Some iso))).
Proof.
  intros Hembed Hmode Htargets Hclear Hkey Hpayload Houter Htransport
    Hsig Hcall.
  split; [| exact (embed_payload_built L a payload Hpayload)].
  destruct (embed_metadata_ok L a text' Hembed) as [sel [Hsel Hcases]].
  destruct (embed_selectors_stages L a sel Hsel) as [st Hst].
  pose proof (st_key L a st) as Hkey'. rewrite Hkey in Hkey'.
  injection Hkey' as Hraw.
  pose proof (st_payload_eq L a st) as Hpayload'.
  rewrite Hpayload in Hpayload'. injection Hpayload' as Hp.
  pose proof (st_outer_eq L a st) as Houter'.
  rewrite Houter, <- Hp in Houter'. injection Houter' as Ho.
  pose proof (st_message_eq L a st) as Hmessage. rewrite <- Hp in Hmessage.
  pose proof (st_signature_eq L a st) as Hb64. rewrite <- Hraw in Hb64.
  pose proof (st_outer_bytes_eq L a st) as Hbytes.
  rewrite <- Hp, <- Ho in Hbytes.
  pose proof (st_selectors_eq L a st) as Hselectors. rewrite Hst in Hselectors.
  set (message := st_message L a st) in *.
  set (signature_b64 := st_signature_b64 L a st) in *.
  set (outer_bytes := st_outer_bytes L a st) in *.
  clearbody message signature_b64 outer_bytes. clear Hst Hp Hraw st.
  destruct (serialized_outer_deserializes L _ _ _ Htransport Hbytes)
    as [Hne Hdeser].
  assert (Hselne : sel <> []).
  { intros ->. apply selectors_length in Hselectors.
    destruct outer_bytes; [congruence | discriminate]. }
  destruct Hcases as [[Hnil _] | [_ Hsplice]]; [contradiction |].
  (* the returned text *)
  unfold embed_splice in Hsplice. cbv zeta in Hsplice.
  rewrite find_targets_default, Htargets, Hmode in Hsplice.
  simpl in Hsplice. injection Hsplice as Htext'.
  unfold slice_to, slice_from in Htext'.
  assert (Hsplit : firstn (t + 2) (arg_text a)
                   = firstn (t + 1) (arg_text a)
                       ++ firstn 1 (skipn (t + 1) (arg_text a))).
  { replace (t + 2)%nat with ((t + 1) + 1)%nat by lia. apply firstn_add. }
  rewrite Hsplit in Hclear. apply Forall_app in Hclear.
  destruct Hclear as [Hbefore Hafter].
  assert (Hextract : extract_bytes text' = outer_bytes).
  { rewrite <- Htext'.
    now apply (extract_bytes_spliced _ _ sel outer_bytes). }
  (* the extracted envelope *)
  assert (Hx : _extract_outer_payload L text' = Some outer).
  { unfold _extract_outer_payload. cbv zeta. rewrite Hextract.
    destruct outer_bytes as [| b0 bs]; [congruence |].
    rewrite Hdeser, Ho. reflexivity. }
  assert (Htext_ne : text' <> []).
  { rewrite <- Htext'. destruct sel; [congruence |].
    intros H. apply app_eq_nil in H. destruct H as [_ H]. discriminate. }
  unfold verify_metadata.
  destruct text' as [| c0 cs]; [congruence |].
  destruct provider as [f |]; [| discriminate].
  rewrite (verify_after_extraction L (c0 :: cs) outer (Callable f) flag
             (PDict payload) (PStr signature_b64) (PStr (arg_signer_id a)) Hx)
    by (rewrite Ho; reflexivity).
  rewrite Hcall. f_equal. simpl.
  (* the checks on the key *)
  destruct (decode_ascii_ok _ _ Hb64) as [Hs Hascii].
  destruct (Hsig message Hmessage) as [Hstandard Hverify].
  pose proof (padding_restored L _ Hstandard) as Hdecode.
  rewrite <- Hs in Hdecode.
  apply (verify_with_key_valid L (ed25519_public_key L raw) payload
           signature_b64 _ flag message
           (ed25519_sign L raw message)); [exact Hmessage | | exact Hverify].
  unfold decode_signature, urlsafe_b64decode.
  rewrite forallb_app, Hs, Hascii, padding_ascii. simpl.
  rewrite <- Hs, Hdecode. reflexivity.
Qed.

Lemma embed_verify_roundtrip_witness :
  exists text' payload,
    embed_metadata RefLib hello_args = Ok text'
    /\ arg_distribute_across_targets hello_args = false
    /\ no_vs (firstn (5 + 2) (arg_text hello_args))
    /\ embed_payload RefLib hello_args = Ok payload
    /\ signing_libraries RefLib demo_key payload
    /\ verify_metadata RefLib text' demo_resolver false
       = {| provider_calls := [PStr (lit "demo")];
            returned := Ok (PDict payload, true, PStr (lit "demo")) |}.
Proof.
  assert (He : exists text', embed_metadata RefLib hello_args = Ok text')
    by (eexists; vm_compute; reflexivity).
  destruct He as [text' He].
  assert (Hp : exists payload,
             embed_payload RefLib hello_args = Ok payload
             /\ signing_libraries RefLib demo_key payload).
  { eexists. split; [vm_compute; reflexivity |].
    intros message Hm. vm_compute in Hm. apply ok_inj in Hm. subst message.
    split; [| vm_compute; reflexivity].
    match goal with
    | |- base64_standard RefLib ?signature =>
        exists (filter (fun c => negb (c =? 61))
                  (b64_encode RefLib signature)),
          (length (filter (fun c => c =? 61) (b64_encode RefLib signature)))
    end.
    split; [vm_compute; reflexivity |]. split; [vm_compute; reflexivity |].
    split; [apply Nat.ltb_lt; vm_compute; reflexivity |].
    split; vm_compute; reflexivity. }
  destruct Hp as [payload [Hp Hsig]].
  assert (Ho : exists outer,
             embed_outer_payload RefLib hello_args = Ok outer
             /\ transport_lossless RefLib JSON outer).
  { eexists. split; [vm_compute; reflexivity |].
    intros b Hb. vm_compute in Hb. apply ok_inj in Hb. subst b.
    split; [discriminate |]. split; vm_compute; reflexivity. }
  destruct Ho as [outer [Ho Htransport]].
  assert (Hclear : no_vs (firstn (5 + 2) (arg_text hello_args)))
    by (repeat constructor).
  exists text', payload.
  split; [exact He |]. split; [reflexivity |]. split; [exact Hclear |].
  split; [exact Hp |]. split; [exact Hsig |].
  apply (embed_verify_roundtrip RefLib hello_args text' demo_key payload
           outer 5 [] demo_resolver false He eq_refl);
    try assumption; vm_compute; reflexivity.
Defined.

(** C1 as stated fails in the distributed mode, where [extract_bytes]
    reads back only the selector after the first target, and on a host
    text with a variation selector of its own before the anchor, which is
    read in place of the envelope: both calls embed, and verifying the
    result gives [(None, False, None)]. *)
Lemma roundtrip_counterexample :
  (exists text',
     embed_metadata RefLib spaces_args = Ok text'
     /\ returned (verify_metadata RefLib text' demo_resolver false)
        = Ok (PNone, false, PNone))
  /\ (exists text',
        embed_metadata RefLib heart_args = Ok text'
        /\ returned (verify_metadata RefLib text' demo_resolver false)
           = Ok (PNone, false, PNone)).
Proof.
  split; eexists; (split; [vm_compute; reflexivity |]);
    vm_compute; reflexivity.
Qed.

(** The manifest format carried as CBOR after a punctuation mark, run on
    the reference instance. *)
Example roundtrip_manifest_cbor :
  exists text' payload,
    embed_metadata RefLib manifest_cbor_args = Ok text'
    /\ embed_payload RefLib manifest_cbor_args = Ok payload
    /\ returned (verify_metadata RefLib text' demo_resolver false)
       = Ok (PDict payload, true, PStr (lit "demo")).
Proof.
  do 2 eexists. split; [vm_compute; reflexivity |].
  split; vm_compute; reflexivity.
Qed.

(** ** Timestamps *)

(** C8, at the failing input. An [OverflowError] of the library is not
    among the exceptions [_format_timestamp] turns into [ValueError]: it
    escapes when [datetime.fromtimestamp] raises it for epoch seconds
    outside the range of the platform, and when [astimezone] raises it for
    an aware value at the edge of the calendar. *)
Theorem format_timestamp_overflow (L : PyLib) (e : epoch) (dt : datetime)
    (offset : Z) :
  (datetime_fromtimestamp_utc L e = Raise OverflowError ->
   _format_timestamp L (Some (TsEpoch e)) = Raise OverflowError)
  /\ (dt_tzinfo dt = Some offset ->
      datetime_astimezone_utc L dt = Raise OverflowError ->
      _format_timestamp L (Some (TsDatetime dt)) = Raise OverflowError).
Proof.
  split.
  - intros H. unfold _format_timestamp. now rewrite H.
  - intros Htz H. unfold _format_timestamp. simpl. now rewrite Htz, H.
Qed.

Lemma format_timestamp_overflow_witness :
  datetime_fromtimestamp_utc RefLib (EpochInt (10 ^ 20)) = Raise OverflowError
  /\ _format_timestamp RefLib (Some (TsEpoch (EpochInt (10 ^ 20))))
     = Raise OverflowError.
Proof.
  assert (H : datetime_fromtimestamp_utc RefLib (EpochInt (10 ^ 20))
              = Raise OverflowError) by (vm_compute; reflexivity).
  split; [exact H |].
  exact (proj1 (format_timestamp_overflow RefLib (EpochInt (10 ^ 20))
                  (datetime_combine_min {| d_year := 1; d_month := 1;
                                           d_day := 1 |}) 0) H).
Defined.

(** The exception reaches the caller of [embed_metadata] too, whose
    handler for the conversion catches [ValueError] and [TypeError]. *)
Example embed_overflow_escapes :
  embed_metadata RefLib
    {| arg_text := lit "Hello World";
       arg_private_key := Ed25519PrivateKey demo_key;
       arg_signer_id := lit "demo";
       arg_metadata_format := lit "basic";
       arg_serialization_format := JSON;
       arg_model_id := None;
       arg_timestamp := Some (TsEpoch (EpochInt (10 ^ 20)));
       arg_generationID := None;
       arg_target := TargetNone;
       arg_custom_metadata := None;
       arg_claim_generator := None;
       arg_actions := None;
       arg_ai_info := None;
       arg_custom_claims := None;
       arg_distribute_across_targets := false |}
  = Raise OverflowError.
Proof. vm_compute. reflexivity. Qed.

(** What the function returns when it returns: the [strftime] rendering of
    a datetime, whose month, day, hour, minute and second fields are two
    digits each between the separators of the pattern. *)
Lemma format_timestamp_returns (L : PyLib) (ts : timestamp_input)
    (o : option pystr) :
  _format_timestamp L (Some ts) = Ok o ->
  exists dt, o = Some (strftime_iso L dt).
Proof.
  unfold _format_timestamp. intros H.
  apply bind_ok in H. destruct H as [dt [_ H]].
  apply bind_ok in H. destruct H as [dt' [_ H]].
  injection H as <-. eauto.
Qed.

Lemma two_digits_are_digits (n : Z) :
  Forall (fun c => 48 <= c <= 57) (two_digits n).
Proof.
  unfold two_digits.
  pose proof (Z.mod_pos_bound (n / 10) 10 ltac:(lia)).
  pose proof (Z.mod_pos_bound n 10 ltac:(lia)).
  repeat constructor; lia.
Qed.

Lemma strftime_iso_shape (L : PyLib) (dt : datetime) :
  exists mo d h mi s,
    strftime_iso L dt
    = strftime_Y L (dt_year dt) ++ [45] ++ mo ++ [45] ++ d ++ [84] ++ h
        ++ [58] ++ mi ++ [58] ++ s ++ [90]
    /\ Forall (fun f => length f = 2%nat /\ Forall (fun c => 48 <= c <= 57) f)
         [mo; d; h; mi; s].
Proof.
  exists (two_digits (dt_month dt)), (two_digits (dt_day dt)),
    (two_digits (dt_hour dt)), (two_digits (dt_minute dt)),
    (two_digits (dt_second dt)).
  split; [reflexivity |].
  repeat (apply Forall_cons;
          [split; [reflexivity | apply two_digits_are_digits] |]).
  apply Forall_nil.
Qed.

(** ** The scenarios of the specification, on the reference instance *)

(** The assertions of [test_pdf_round_trip], for an embedding called with
    the values of the test under their own names and a PDF that carries
    the text unchanged. *)
Example pdf_round_trip :
  exists text' payload signer_id,
    embed_metadata RefLib pdf_test_args = Ok text'
    /\ returned (verify_metadata RefLib text' pdf_test_resolver false)
       = Ok (PDict payload, true, signer_id)
    /\ signer_id = PStr (lit "test-signer")
    /\ dict_get payload (lit "model_id") = Some (PStr (lit "unit-test-model")).
Proof.
  do 3 eexists. split; [vm_compute; reflexivity |].
  split; [vm_compute; reflexivity |]. split; reflexivity.
Qed.

(** Wrong key, unknown signer and a raising resolver: the failure triple,
    with the payload when the flag asks for it. *)
Example failure_scenarios :
  exists text' payload,
    embed_metadata RefLib hello_args = Ok text'
    /\ embed_payload RefLib hello_args = Ok payload
    /\ returned (verify_metadata RefLib text' wrong_key_resolver false)
       = Ok (PNone, false, PStr (lit "demo"))
    /\ returned (verify_metadata RefLib text' wrong_key_resolver true)
       = Ok (PDict payload, false, PStr (lit "demo"))
    /\ returned (verify_metadata RefLib text' unknown_signer_resolver false)
       = Ok (PNone, false, PStr (lit "demo"))
    /\ returned (verify_metadata RefLib text' raising_resolver false)
       = Ok (PNone, false, PStr (lit "demo"))
    /\ returned (verify_metadata RefLib text' NotCallable false)
       = Raise TypeError.
Proof.
  do 2 eexists. split; [vm_compute; reflexivity |].
  split; [vm_compute; reflexivity |].
  repeat split; vm_compute; reflexivity.
Qed.

(** Tampering: the selector of the [1] of the model id [m1] replaced by
    the selector of [2]. The envelope still parses; the verdict is false. *)
Example tampering :
  exists text',
    embed_metadata RefLib hello_args = Ok text'
    /\ nth_error text' 102 = to_variation_selector 49
    /\ returned (verify_metadata RefLib (replace_at text' 102 0xE0122)
                   demo_resolver false)
       = Ok (PNone, false, PStr (lit "demo")).
Proof.
  eexists. split; [vm_compute; reflexivity |].
  split; vm_compute; reflexivity.
Qed.

(** Distributed embedding: each selector follows one target, and the
    spaces not needed are left alone. *)
Example distributed_embedding :
  exists text' sel,
    embed_metadata RefLib spaces_args = Ok text'
    /\ embed_selectors RefLib spaces_args = Ok sel
    /\ text' = flat_map (fun s => [0x20; s]) sel
                 ++ repeat 0x20 (300 - length sel).
Proof.
  do 2 eexists. split; [vm_compute; reflexivity |].
  split; vm_compute; reflexivity.
Qed.

(** * Further properties of the module *)

(** ** The codec: inverses and domains *)

Lemma from_variation_selector_back (cp b : Z) :
  from_variation_selector cp = Some b ->
  0 <= b < 256 /\ to_variation_selector b = Some cp.
Proof.
  intros H. pose proof (is_vs_some _ _ H) as Hvs. apply is_vs_iff in Hvs.
  destruct Hvs as [Hp | Hs].
  - rewrite from_variation_selector_primary in H by exact Hp.
    apply some_inj in H. subst b. split; [lia |].
    rewrite to_variation_selector_low by lia. f_equal. lia.
  - rewrite from_variation_selector_supplement in H by exact Hs.
    apply some_inj in H. subst b. split; [lia |].
    rewrite to_variation_selector_high by lia. f_equal. lia.
Qed.

(** X1. The codec functions are inverse to each other on their ranges.
    [from_variation_selector] returns only byte values, and
    [to_variation_selector] sends the byte back to the code point: with C2
    the two functions are inverse bijections between the bytes and the two
    selector ranges. [to_variation_selector] returns [None] exactly on the
    integers outside [0, 256), and two integers with the same selector are
    equal. *)
Theorem variation_selector_inverse (cp b b' : Z) :
  (from_variation_selector cp = Some b ->
   0 <= b < 256 /\ to_variation_selector b = Some cp)
  /\ (to_variation_selector b = None <-> ~ 0 <= b < 256)
  /\ (to_variation_selector b <> None ->
      to_variation_selector b = to_variation_selector b' -> b = b').
Proof.
  split; [apply from_variation_selector_back |]. split; [split |].
  - intros H Hb. destruct (to_variation_selector_byte b Hb) as [c [Hc _]].
    congruence.
  - apply to_variation_selector_none.
  - intros Hsome Heq.
    destruct (to_variation_selector b) as [c |] eqn:Hb; [| congruence].
    symmetry in Heq. apply to_variation_selector_inv in Hb, Heq. congruence.
Qed.

Lemma variation_selector_inverse_witness :
  from_variation_selector 0xE01EF = Some 255
  /\ to_variation_selector 255 = Some 0xE01EF
  /\ to_variation_selector 256 = None /\ to_variation_selector (-1) = None
  /\ (to_variation_selector 15 = to_variation_selector 15 -> 15 = 15).
Proof.
  assert (H : from_variation_selector 0xE01EF = Some 255) by reflexivity.
  split; [exact H |].
  split; [exact (proj2 (proj1 (variation_selector_inverse 0xE01EF 255 0) H)) |].
  split; [apply (proj1 (proj2 (variation_selector_inverse 0 256 0))); lia |].
  split; [apply (proj1 (proj2 (variation_selector_inverse 0 (-1) 0))); lia |].
  apply (proj2 (proj2 (variation_selector_inverse 0 15 15))). discriminate.
Defined.

Lemma is_byte_dec (b : Z) : is_byte b \/ ~ is_byte b.
Proof. unfold is_byte. lia. Qed.

Lemma collect_some_short (data : bytes) :
  ~ is_bytes data ->
  (length (collect_some (map to_variation_selector data)) < length data)%nat.
Proof.
  intros H. apply (Exists_Forall_neg _ _) in H; [| intros; apply is_byte_dec].
  induction H as [b data Hb | b data _ IH]; simpl.
  - rewrite (to_variation_selector_none b Hb). simpl.
    pose proof (collect_some_length (map to_variation_selector data)) as Hle.
    rewrite length_map in Hle. lia.
  - destruct (to_variation_selector b); simpl; lia.
Qed.

(** X2. [_bytes_to_variation_selectors] succeeds exactly on lists of byte
    values: it then returns one selector per byte, in order, each the
    selector of its byte; on a list with an item outside [0, 256) it raises
    [ValueError] rather than dropping the item. *)
Theorem bytes_to_variation_selectors_result (data : bytes) :
  (is_bytes data ->
   exists sel,
     _bytes_to_variation_selectors data = Ok sel
     /\ length sel = length data
     /\ Forall2 (fun c b => to_variation_selector b = Some c) sel data)
  /\ (~ is_bytes data -> _bytes_to_variation_selectors data = Raise ValueError).
Proof.
  split.
  - intros HB. destruct (selectors_of_bytes data HB) as [sel [Hsel HF]].
    exists sel. split; [exact Hsel |]. split; [exact (Forall2_length HF) |].
    clear Hsel. induction HF as [| c b sel data Hcb _ IH]; constructor.
    + apply Forall_inv in HB.
      exact (proj2 (from_variation_selector_back c b Hcb)).
    + apply IH. now apply Forall_inv_tail in HB.
  - intros HB. apply collect_some_short in HB.
    unfold _bytes_to_variation_selectors. cbv zeta.
    replace (length (collect_some (map to_variation_selector data))
             =? length data)%nat with false
      by (symmetry; apply Nat.eqb_neq; lia).
    reflexivity.
Qed.

Lemma bytes_to_variation_selectors_result_witness :
  (exists sel,
     _bytes_to_variation_selectors [0; 200] = Ok sel
     /\ length sel = 2%nat
     /\ Forall2 (fun c b => to_variation_selector b = Some c) sel [0; 200])
  /\ _bytes_to_variation_selectors [0; 256] = Raise ValueError.
Proof.
  split.
  - apply (proj1 (bytes_to_variation_selectors_result [0; 200])).
    repeat constructor; unfold is_byte; lia.
  - apply (proj2 (bytes_to_variation_selectors_result [0; 256])).
    intros H. apply Forall_inv_tail, Forall_inv in H. unfold is_byte in H. lia.
Defined.

Lemma collect_from_selectors_bytes (l : pystr) :
  is_bytes (collect_some (map from_variation_selector l)).
Proof.
  induction l as [| c l IH]; simpl; [constructor |].
  destruct (from_variation_selector c) as [b |] eqn:E; simpl; [| exact IH].
  constructor; [| exact IH].
  exact (proj1 (from_variation_selector_back c b E)).
Qed.

Lemma drop_while_not_vs_nil (text : pystr) :
  drop_while (fun c => negb (is_vs c)) text = [] <-> no_vs text.
Proof.
  induction text as [| c text IH]; simpl.
  - split; [constructor | reflexivity].
  - destruct (is_vs c) eqn:E; simpl.
    + split; [discriminate |]. intros H. apply Forall_inv in H. congruence.
    + rewrite IH. split; [now constructor | apply Forall_inv_tail].
Qed.

Lemma drop_while_not_vs_head (text : pystr) (c : Z) (rest : pystr) :
  drop_while (fun c => negb (is_vs c)) text = c :: rest -> is_vs c = true.
Proof.
  induction text as [| d text IH]; simpl; [discriminate |].
  destruct (is_vs d) eqn:E; simpl; [| exact IH].
  intros H. injection H as <- _. exact E.
Qed.

Lemma extract_bytes_bytes_nil (text : pystr) :
  is_bytes (extract_bytes text)
  /\ (extract_bytes text = [] <-> no_vs text).
Proof.
  rewrite extract_bytes_spec. unfold decode_bytes_spec.
  split; [apply collect_from_selectors_bytes |].
  rewrite <- drop_while_not_vs_nil.
  destruct (drop_while (fun c => negb (is_vs c)) text) as [| c rest] eqn:E.
  - split; reflexivity.
  - pose proof (drop_while_not_vs_head _ _ _ E) as Hc.
    simpl. rewrite Hc. simpl. unfold is_vs in Hc.
    destruct (from_variation_selector c); [| discriminate].
    split; discriminate.
Qed.

(** X3. [extract_bytes] returns only byte values, so that [bytes(decoded)]
    cannot raise, and it returns the empty byte string exactly when the
    text has no variation selector. *)
Theorem extract_bytes_valid (text : pystr) :
  is_bytes (extract_bytes text)
  /\ (extract_bytes text = [] <-> no_vs text).
Proof. apply extract_bytes_bytes_nil. Qed.

(** X4. Only the first run of selectors is read: what follows the first
    code point after the run that is not a selector, be it another run of
    selectors, has no effect on the result, which has one byte per selector
    of the run. *)
Theorem extract_bytes_first_run (prefix run suffix : pystr) (x : Z) :
  no_vs prefix ->
  run <> [] ->
  Forall (fun s => is_vs s = true) run ->
  is_vs x = false ->
  extract_bytes (prefix ++ run ++ x :: suffix) = extract_bytes run
  /\ length (extract_bytes run) = length run.
Proof.
  intros Hprefix Hne Hrun Hx.
  assert (HB : exists B,
             Forall2 (fun c b => from_variation_selector c = Some b) run B).
  { clear Hne. induction Hrun as [| s run Hs _ [B IH]];
      [exists []; constructor |].
    unfold is_vs in Hs.
    destruct (from_variation_selector s) as [b |] eqn:E; [| discriminate].
    exists (b :: B). now constructor. }
  destruct HB as [B HF].
  assert (Hread : forall rest,
             match rest with [] => True | c :: _ => is_vs c = false end ->
             extract_bytes (run ++ rest) = B).
  { intros rest Hrest. rewrite extract_bytes_spec. unfold decode_bytes_spec.
    rewrite (drop_while_selectors _ B) by assumption.
    now apply decode_selectors. }
  split.
  - rewrite <- (app_nil_r run) at 2. rewrite (Hread [] I).
    rewrite extract_bytes_spec. unfold decode_bytes_spec.
    rewrite (drop_while_no_vs _ _ Hprefix).
    rewrite (drop_while_selectors _ B) by assumption.
    now apply decode_selectors.
  - rewrite <- (app_nil_r run) at 1. rewrite (Hread [] I).
    symmetry. exact (Forall2_length HF).
Qed.

Lemma extract_bytes_first_run_witness :
  extract_bytes ([0x41] ++ [0xFE01; 0xFE02] ++ 0x42 :: [0xFE03; 0xFE04])
  = extract_bytes [0xFE01; 0xFE02]
  /\ length (extract_bytes [0xFE01; 0xFE02]) = 2%nat.
Proof.
  apply (extract_bytes_first_run [0x41] [0xFE01; 0xFE02] [0xFE03; 0xFE04] 0x42).
  - repeat constructor.
  - discriminate.
  - repeat constructor.
  - reflexivity.
Defined.

Lemma extract_bytes_valid_witness :
  extract_bytes (lit "plain text") = [] /\ ~ no_vs [0x41; 0xFE0F].
Proof.
  split.
  - apply (proj2 (proj2 (extract_bytes_valid (lit "plain text")))).
    repeat constructor.
  - intros H. apply (proj2 (proj2 (extract_bytes_valid [0x41; 0xFE0F]))) in H.
    discriminate H.
Defined.

(** ** [encode] and [decode] *)

Lemma encode_loop_appends (data : bytes) (emoji : pystr) :
  fold_left
    (fun encoded byte =>
       match to_variation_selector byte with
       | Some vs => encoded ++ [vs]
       | None => encoded
       end)
    data emoji
  = emoji ++ collect_some (map to_variation_selector data).
Proof.
  revert emoji. induction data as [| b data IH]; intros emoji; simpl.
  - now rewrite app_nil_r.
  - rewrite IH. destruct (to_variation_selector b); simpl;
      [now rewrite <- app_assoc | reflexivity].
Qed.

Lemma collected_selectors_are_vs (data : bytes) :
  Forall (fun s => is_vs s = true)
    (collect_some (map to_variation_selector data)).
Proof.
  induction data as [| b data IH]; simpl; [constructor |].
  destruct (to_variation_selector b) as [c |] eqn:E; simpl; [| exact IH].
  constructor; [| exact IH].
  exact (is_vs_some _ _ (to_variation_selector_inv _ _ E)).
Qed.

Lemma encode_ok (U : Utf8) (emoji text : pystr) (data : bytes) :
  utf8_encode U text = Ok data -> is_bytes data ->
  exists sel,
    encode U emoji text = Ok (emoji ++ sel)
    /\ _bytes_to_variation_selectors data = Ok sel
    /\ length (emoji ++ sel) = (length emoji + length data)%nat
    /\ strip_vs (emoji ++ sel) = strip_vs emoji.
Proof.
  intros Hdata HB.
    destruct (selectors_of_bytes data HB) as [sel [Hsel HF]].
    exists sel. unfold encode. rewrite Hdata. simpl.
    rewrite encode_loop_appends.
    assert (Hcollect : collect_some (map to_variation_selector data) = sel).
    { unfold _bytes_to_variation_selectors in Hsel. cbv zeta in Hsel.
      destruct (negb _) in Hsel; [discriminate |]. now apply ok_inj in Hsel. }
    rewrite Hcollect. split; [reflexivity |]. split; [exact Hsel |].
    split; [rewrite length_app, (Forall2_length HF); reflexivity |].
    apply vs_inserted_strip.
    rewrite <- (app_nil_r emoji) at 1.
    apply vs_inserted_app; [apply vs_inserted_refl |].
  apply vs_inserted_selectors. rewrite <- Hcollect.
  apply collected_selectors_are_vs.
Qed.

(** X5. The text of [encode] is the emoji followed by one selector for
    each byte of the UTF-8 form of the text, and nothing else: it has the
    length of the emoji plus that of the bytes, and without its selectors
    it is the emoji without its own. [encode] raises only when the UTF-8
    encoding does. *)
Theorem encode_appends_selectors (U : Utf8) (emoji text : pystr) :
  (forall data, utf8_encode U text = Ok data -> is_bytes data ->
     exists sel,
       encode U emoji text = Ok (emoji ++ sel)
       /\ _bytes_to_variation_selectors data = Ok sel
       /\ length (emoji ++ sel) = (length emoji + length data)%nat
       /\ strip_vs (emoji ++ sel) = strip_vs emoji)
  /\ (forall e, utf8_encode U text = Raise e -> encode U emoji text = Raise e).
Proof.
  split.
  - intros data. apply encode_ok.
  - intros e He. unfold encode. now rewrite He.
Qed.

Lemma encode_appends_selectors_witness :
  exists sel,
    encode RefUtf8Codec [0x1F600] [0x68; 0xE9; 0x20AC]
    = Ok ([0x1F600] ++ sel)
    /\ _bytes_to_variation_selectors [104; 195; 169; 226; 130; 172] = Ok sel
    /\ length ([0x1F600] ++ sel) = (1 + 6)%nat
    /\ strip_vs ([0x1F600] ++ sel) = strip_vs [0x1F600].
Proof.
  apply (proj1 (encode_appends_selectors RefUtf8Codec [0x1F600]
                  [0x68; 0xE9; 0x20AC])
           [104; 195; 169; 226; 130; 172]).
  - reflexivity.
  - repeat constructor; unfold is_byte; lia.
Defined.

Lemma decode_extract_bytes (U : Utf8) (text : pystr) :
  decode U text
  = match extract_bytes text with
    | [] => Ok []
    | _ => utf8_decode U (extract_bytes text)
    end.
Proof.
  unfold decode. cbv zeta. rewrite extract_bytes_loop.
  reflexivity.
Qed.

(** X6. [decode] returns the empty string on every text without a
    selector, without decoding anything; on any other text it is the UTF-8
    decoding of the bytes [extract_bytes] returns, so that it raises only
    when these are not UTF-8. *)
Theorem decode_reads_extracted_bytes (U : Utf8) (text : pystr) :
  (no_vs text -> decode U text = Ok [])
  /\ (~ no_vs text -> decode U text = utf8_decode U (extract_bytes text)).
Proof.
  rewrite decode_extract_bytes.
  pose proof (proj2 (extract_bytes_bytes_nil text)) as Hnil.
  destruct (extract_bytes text) as [| b bs]; split; intros H.
  - reflexivity.
  - destruct H. now apply Hnil.
  - apply Hnil in H. discriminate.
  - reflexivity.
Qed.

Lemma decode_reads_extracted_bytes_witness :
  decode RefUtf8Codec (lit "no selectors here") = Ok []
  /\ decode RefUtf8Codec [0x41; 0xE0170]
     = utf8_decode RefUtf8Codec (extract_bytes [0x41; 0xE0170]).
Proof.
  split.
  - apply (proj1 (decode_reads_extracted_bytes RefUtf8Codec _)).
    repeat constructor.
  - apply (proj2 (decode_reads_extracted_bytes RefUtf8Codec _)).
    intros H. apply Forall_inv_tail, Forall_inv in H. discriminate H.
Defined.

(** X7. [decode] undoes [encode]: for an emoji without selectors, the
    empty one included, and a text whose UTF-8 bytes decode back to it,
    [decode(encode(emoji, text))] is the text. *)
Theorem decode_encode (U : Utf8) (emoji text : pystr) (data : bytes) :
  no_vs emoji ->
  utf8_encode U text = Ok data ->
  is_bytes data ->
  utf8_decode U data = Ok text ->
  (data = [] -> text = []) ->
  exists encoded,
    encode U emoji text = Ok encoded /\ decode U encoded = Ok text.
Proof.
  intros Hemoji Hdata HB Hback Hempty.
  destruct (encode_ok U emoji text data Hdata HB) as [sel [Henc [Hsel _]]].
  exists (emoji ++ sel). split; [exact Henc |].
  rewrite decode_extract_bytes.
  destruct data as [| b0 bs].
  - rewrite (Hempty eq_refl).
    apply selectors_length in Hsel. destruct sel; [| discriminate].
    rewrite app_nil_r.
    now rewrite (proj2 (proj2 (extract_bytes_bytes_nil emoji)) Hemoji).
  - assert (Hx : extract_bytes (emoji ++ sel ++ []) = b0 :: bs).
    { apply (extract_bytes_spliced emoji [] sel (b0 :: bs));
        [exact Hsel | discriminate | exact Hemoji | constructor]. }
    rewrite app_nil_r in Hx. rewrite Hx. exact Hback.
Qed.

Lemma decode_encode_witness :
  exists encoded,
    encode RefUtf8Codec [0x1F600] [0x68; 0xE9; 0x20AC; 0x1F600] = Ok encoded
    /\ decode RefUtf8Codec encoded = Ok [0x68; 0xE9; 0x20AC; 0x1F600].
Proof.
  apply (decode_encode RefUtf8Codec [0x1F600] [0x68; 0xE9; 0x20AC; 0x1F600]
           [104; 195; 169; 226; 130; 172; 240; 159; 152; 128]).
  - repeat constructor.
  - reflexivity.
  - repeat constructor; unfold is_byte; lia.
  - reflexivity.
  - discriminate.
Defined.

(** ** [find_targets] *)

(** X8. The indices [find_targets] returns increase strictly, so none is
    repeated, and each is an index of the text: [text[i]] is defined for
    every target. *)
Theorem find_targets_valid_indices (L : PyLib) (text : pystr)
    (target : target_arg) (targets : list nat) :
  find_targets L text target = Ok targets ->
  increasing_from 0 targets
  /\ NoDup targets
  /\ Forall (fun i => exists c, nth_error text i = Some c) targets.
Proof.
  intros H. split; [exact (find_targets_increasing _ _ _ _ H) |].
  rewrite find_targets_member in H. apply bind_ok in H.
  destruct H as [t [_ H]]. apply ok_inj in H. subst targets.
  unfold finditer_starts. split.
  - apply NoDup_filter, seq_NoDup.
  - pose proof (filter_seq_bounded (pattern_matches_at L t text)
                  (length text) 0) as Hb.
    apply Forall_forall. intros i Hi.
    apply (proj1 (Forall_forall _ _) Hb) in Hi.
    destruct (nth_error text i) as [c |] eqn:E; [eauto |].
    apply nth_error_None in E. lia.
Qed.

Lemma find_targets_valid_indices_witness :
  find_targets RefLib (lit "a b  c") TargetNone = Ok [1; 3; 4]%nat
  /\ increasing_from 0 [1; 3; 4]%nat
  /\ NoDup [1; 3; 4]%nat
  /\ Forall (fun i => exists c, nth_error (lit "a b  c") i = Some c)
       [1; 3; 4]%nat.
Proof.
  assert (H : find_targets RefLib (lit "a b  c") TargetNone
              = Ok [1; 3; 4]%nat) by (vm_compute; reflexivity).
  split; [exact H |].
  exact (find_targets_valid_indices RefLib _ _ _ H).
Defined.

Lemma count_filter_seq (p : nat -> bool) (text : pystr) (q : Z -> bool)
    (lo : nat) :
  (forall i, (i < length text)%nat ->
     p (lo + i)%nat = match nth_error text i with
                      | Some c => q c
                      | None => false
                      end) ->
  length (filter p (seq lo (length text))) = length (filter q text).
Proof.
  revert lo. induction text as [| c text IH]; intros lo Hp; [reflexivity |].
  simpl. pose proof (Hp 0%nat ltac:(simpl; lia)) as H0.
  rewrite Nat.add_0_r in H0. simpl in H0. rewrite H0.
  assert (Hrest : length (filter p (seq (S lo) (length text)))
                  = length (filter q text)).
  { apply IH. intros i Hi. specialize (Hp (S i) ltac:(simpl; lia)).
    now rewrite Nat.add_succ_r in Hp. }
  destruct (q c); simpl; now rewrite Hrest.
Qed.

(** X9. With the target [all_characters] the targets are the characters
    other than the line feed, which the pattern [.] does not match: there
    are as many targets as such characters, and a text of line feeds has
    none. *)
Theorem all_characters_skips_line_feeds (L : PyLib) (text : pystr) :
  exists targets,
    find_targets L text (TargetEnum ALL_CHARACTERS) = Ok targets
    /\ length targets = length (filter (fun c => negb (c =? 10)) text)
    /\ (Forall (fun c => c = 10) text -> targets = []).
Proof.
  eexists. split; [reflexivity |].
  assert (Hlen : length (finditer_starts L ALL_CHARACTERS text)
                 = length (filter (fun c => negb (c =? 10)) text)).
  { unfold finditer_starts.
    apply (count_filter_seq _ text _ 0). intros i _. simpl.
    unfold pattern_matches_at, char_at.
    now destruct (nth_error text i). }
  split; [exact Hlen |].
  intros Hlf.
  assert (Hnone : filter (fun c => negb (c =? 10)) text = []).
  { clear Hlen. induction Hlf as [| c text Hc _ IH]; [reflexivity |].
    simpl. subst c. exact IH. }
  rewrite Hnone in Hlen.
  now destruct (finditer_starts L ALL_CHARACTERS text).
Qed.

Lemma all_characters_skips_line_feeds_witness :
  exists targets,
    find_targets RefLib [10; 10; 10] (TargetEnum ALL_CHARACTERS) = Ok targets
    /\ length targets
       = length (filter (fun c => negb (c =? 10)) [10; 10; 10])
    /\ targets = [].
Proof.
  destruct (all_characters_skips_line_feeds RefLib [10; 10; 10])
    as [targets [H [Hlen Hnil]]].
  exists targets. split; [exact H |]. split; [exact Hlen |].
  apply Hnil. repeat constructor.
Defined.

(** ** The exceptions of [embed_metadata] *)

Lemma try_except_raise {A} (r : result A) (classes : list exn_class)
    (e' e : exn) :
  try_except r classes (fun _ => Raise e') = Raise e ->
  e = e'
  \/ (r = Raise e /\ existsb (fun c => catches c e) classes = false).
Proof.
  destruct r as [x | e0]; simpl; [discriminate |].
  destruct (existsb (fun c => catches c e0) classes) eqn:E; intros H.
  - left. congruence.
  - right. assert (e0 = e) by congruence. subst e0. auto.
Qed.

Lemma bind_raise {A B} (r : result A) (k : A -> result B) (e : exn) :
  bind r k = Raise e ->
  r = Raise e \/ exists x, r = Ok x /\ k x = Raise e.
Proof.
  destruct r as [x | e0]; simpl; intros H; [right; eauto | left; congruence].
Qed.

Lemma distribute_loop_returns (text : pystr) (sel : list Z)
    (targets : list nat) :
  Forall (fun i => exists c, nth_error text i = Some c) targets ->
  forall parts last idx,
  exists st, distribute_loop text sel targets parts last idx = Ok st.
Proof.
  induction 1 as [| t rest [c Hc] _ IH]; intros parts last idx; simpl;
    [eauto |].
  destruct (idx <? length sel)%nat eqn:Hidx; [| eauto].
  apply Nat.ltb_lt in Hidx. rewrite Hc.
  destruct (nth_error sel idx) as [s |] eqn:Hs; [apply IH |].
  apply nth_error_None in Hs. lia.
Qed.

Lemma raise_if_raises (b : bool) (e' e : exn) :
  raise_if b e' = Raise e -> e = e'.
Proof. destruct b; simpl; [congruence | discriminate]. Qed.

Lemma embed_validate_raises (a : embed_args) (e : exn) :
  embed_validate a = Raise e -> e = TypeError \/ e = ValueError.
Proof.
  unfold embed_validate. intros H.
  apply bind_raise in H. destruct H as [H | [? [_ H]]].
  { destruct (arg_private_key a); [discriminate | left; congruence]. }
  apply bind_raise in H. destruct H as [H | [? [_ H]]].
  { right. exact (raise_if_raises _ _ _ H). }
  apply bind_raise in H. destruct H as [H | [? [_ H]]].
  { destruct (arg_timestamp a); [discriminate | right; congruence]. }
  apply bind_raise in H. destruct H as [H | [? [_ H]]].
  - destruct (arg_target a) as [| t | s |]; try discriminate;
      [| left; congruence].
    apply bind_raise in H. destruct H as [H | [? [_ H]]]; [| discriminate].
    apply try_except_raise in H. destruct H as [-> | [H _]]; [now right |].
    unfold MetadataTarget_of_value in H.
    repeat (destruct (pystr_eqb _ _) in H; [discriminate |]).
    right. congruence.
  - right. exact (raise_if_raises _ _ _ H).
Qed.

Lemma bytes_to_selectors_raises (data : bytes) (e : exn) :
  _bytes_to_variation_selectors data = Raise e -> e = ValueError.
Proof.
  unfold _bytes_to_variation_selectors. cbv zeta.
  destruct (negb _); [congruence | discriminate].
Qed.

Lemma catch_all (e : exn) :
  existsb (fun c => catches c e) [CException] = true.
Proof. reflexivity. Qed.

Lemma find_targets_in_range (L : PyLib) (text : pystr) (target : target_arg)
    (targets : list nat) :
  find_targets L text target = Ok targets ->
  Forall (fun i => exists c, nth_error text i = Some c) targets.
Proof.
  rewrite find_targets_member. intros H. apply bind_ok in H.
  destruct H as [t [_ H]]. apply ok_inj in H. subst targets.
  pose proof (filter_seq_bounded (pattern_matches_at L t text)
                (length text) 0) as Hb.
  apply Forall_forall. intros i Hi.
  apply (proj1 (Forall_forall _ _) Hb) in Hi.
  destruct (nth_error text i) as [c |] eqn:E; [eauto |].
  apply nth_error_None in E. lia.
Qed.

Lemma find_targets_raises (L : PyLib) (text : pystr) (target : target_arg)
    (e : exn) :
  find_targets L text target = Raise e -> e = ValueError \/ e = TypeError.
Proof.
  rewrite find_targets_member. intros H. apply bind_raise in H.
  destruct H as [H | [t [_ H]]]; [| discriminate].
  destruct target as [| t | s |]; simpl in H; try discriminate;
    [| right; congruence].
  apply try_except_raise in H. destruct H as [-> | [H Hun]]; [now left |].
  unfold MetadataTarget_of_value in H.
  repeat (destruct (pystr_eqb _ _) in H; [discriminate |]).
  left. congruence.
Qed.

Lemma embed_splice_raises (L : PyLib) (a : embed_args) (sel : list Z)
    (e : exn) :
  embed_splice L a sel = Raise e -> e = ValueError \/ e = TypeError.
Proof.
  unfold embed_splice. cbv zeta. intros H. apply bind_raise in H.
  destruct H as [H | [targets [Ht H]]].
  - apply try_except_raise in H. destruct H as [-> | [H _]]; [now left |].
    exact (find_targets_raises _ _ _ _ H).
  - apply try_except_raising_ok in Ht.
    destruct targets as [| t rest]; [left; congruence |].
    destruct (arg_distribute_across_targets a); [| discriminate].
    destruct (length (t :: rest) <? length sel)%nat; [left; congruence |].
    rewrite (sort_indices_increasing _ _ (find_targets_increasing _ _ _ _ Ht))
      in H.
    destruct (distribute_loop_returns (arg_text a) sel (t :: rest)
                (find_targets_in_range _ _ _ _ Ht) [] 0%nat 0%nat)
      as [[parts last] Hloop].
    rewrite Hloop in H. discriminate.
Qed.

Lemma embed_payload_raises (L : PyLib) (a : embed_args) (e : exn) :
  embed_payload L a = Raise e ->
  e = TypeError \/ e = ValueError
  \/ _format_timestamp L (arg_timestamp a) = Raise e.
Proof.
  unfold embed_payload. intros H. apply bind_raise in H.
  destruct H as [H | [u [_ H]]].
  - destruct (embed_validate_raises a e H); auto.
  - apply bind_raise in H. destruct H as [H | [iso [Hts H]]].
    + apply try_except_raise in H. destruct H as [-> | [H _]]; auto.
    + apply try_except_raising_ok in Hts.
      destruct (pystr_eqb (arg_metadata_format a) (lit "basic"));
        [discriminate |].
      destruct (pystr_eqb (arg_metadata_format a) (lit "manifest"));
        [| right; left; congruence].
      rewrite Hts in H. discriminate.
Qed.

Lemma embed_selectors_raises (L : PyLib) (a : embed_args) (e : exn) :
  embed_selectors L a = Raise e ->
  e = TypeError \/ e = ValueError \/ e = RuntimeError
  \/ _format_timestamp L (arg_timestamp a) = Raise e.
Proof.
  unfold embed_selectors. intros H. apply bind_raise in H.
  destruct H as [H | [outer [_ H]]].
  - unfold embed_outer_payload in H. apply bind_raise in H.
    destruct H as [H | [payload [_ H]]].
    + destruct (embed_payload_raises L a e H) as [-> | [-> | Hts]]; auto.
    + apply bind_raise in H. destruct H as [H | [sig [_ H]]]; [| discriminate].
      unfold embed_signature in H. apply try_except_raise in H.
      destruct H as [-> | [_ Hun]]; [auto |].
      rewrite catch_all in Hun. discriminate.
  - apply bind_raise in H. destruct H as [H | [outer_bytes [_ H]]].
    + apply try_except_raise in H. destruct H as [-> | [_ Hun]]; [auto |].
      rewrite catch_all in Hun. discriminate.
    + apply try_except_raise in H. destruct H as [-> | [H Hun]]; [auto |].
      apply bytes_to_selectors_raises in H. subst e. discriminate.
Qed.

(** For arguments that have the types of the signature: the exceptions
    of the function after the log message. *)
Lemma embed_metadata_raises (L : PyLib) (a : embed_args) (e : exn) :
  embed_metadata L a = Raise e ->
  e = TypeError \/ e = ValueError \/ e = RuntimeError
  \/ _format_timestamp L (arg_timestamp a) = Raise e.
Proof.
  unfold embed_metadata. intros H. apply bind_raise in H.
  destruct H as [H | [sel [_ H]]]; [exact (embed_selectors_raises L a e H) |].
  destruct sel as [| s sel']; [discriminate |].
  destruct (embed_splice_raises L a _ e H) as [-> | ->]; auto.
Qed.

Lemma embed_validate_raise_propagates (L : PyLib) (a : embed_args) (e : exn) :
  embed_validate a = Raise e -> embed_metadata L a = Raise e.
Proof.
  intros H. unfold embed_metadata, embed_selectors, embed_outer_payload,
    embed_payload. now rewrite H.
Qed.

(** *** The call, with arguments of any type *)

Lemma embed_call_validate_raises (c : embed_call) (e : exn) :
  embed_call_validate c = Raise e ->
  (e = AttributeError /\ call_serialization_format c = WithoutValue)
  \/ e = TypeError \/ e = ValueError.
Proof.
  unfold embed_call_validate. intros H.
  apply bind_raise in H. destruct H as [H | [? [_ H]]].
  { left. destruct (call_serialization_format c); try discriminate.
    split; [| reflexivity]. exact (raise_if_raises _ _ _ H). }
  apply bind_raise in H. destruct H as [H | [? [_ H]]].
  { right; left. exact (raise_if_raises _ _ _ H). }
  apply bind_raise in H. destruct H as [H | [? [_ H]]].
  { right; left. exact (raise_if_raises _ _ _ H). }
  apply bind_raise in H. destruct H as [H | [? [_ H]]].
  { right; right. exact (raise_if_raises _ _ _ H). }
  apply bind_raise in H. destruct H as [H | [? [_ H]]].
  { destruct (call_timestamp c); [discriminate | right; right; congruence]. }
  apply bind_raise in H. destruct H as [H | [? [_ H]]].
  { destruct (call_target c) as [| t | s |]; try discriminate;
      [| right; left; congruence].
    apply bind_raise in H. destruct H as [H | [? [_ H]]]; [| discriminate].
    apply try_except_raise in H.
    destruct H as [-> | [H _]]; [now right; right |].
    unfold MetadataTarget_of_value in H.
    repeat (destruct (pystr_eqb _ _) in H; [discriminate |]).
    right; right. congruence. }
  apply bind_raise in H. destruct H as [H | [? [_ H]]].
  { right; right. exact (raise_if_raises _ _ _ H). }
  apply bind_raise in H. destruct H as [H | [? [_ H]]].
  { right; right. exact (raise_if_raises _ _ _ H). }
  apply bind_raise in H. destruct H as [H | [? [_ H]]].
  { right; left. exact (raise_if_raises _ _ _ H). }
  right; left. exact (raise_if_raises _ _ _ H).
Qed.

(** A call that passes the log message and the tests has arguments of the
    declared types, on which the tests of [embed_validate] pass as well:
    [embed_metadata_call] runs the validation once. *)
Lemma embed_call_validate_typed (c : embed_call) :
  embed_call_validate c = Ok tt -> embed_validate (typed_args c) = Ok tt.
Proof.
  unfold embed_call_validate, embed_validate, typed_args.
  destruct c as [text key signer format serialization model ts gen target
                   custom generator actions info claims distribute].
  cbn [call_text call_private_key call_signer_id call_metadata_format
       call_serialization_format call_model_id call_timestamp call_target
       call_distribute_across_targets arg_private_key arg_signer_id
       arg_timestamp arg_target arg_metadata_format].
  destruct serialization, text, key, signer as [[| x signer] |], ts, format,
    target as [| member | name |];
    cbn [has_value is_str is_ed25519_private_key signer_id_missing
         metadata_format_unknown negb raise_if bind truthy];
    try discriminate.
  all: try (destruct (try_except (MetadataTarget_of_value (str_lower name))
                        [CValueError] (fun _ => Raise ValueError));
            cbn [bind]; try discriminate).
  all: match goal with
       | |- context [negb (?basic || ?manifest)] =>
           destruct (basic || manifest)
       end; cbn [negb raise_if bind]; [reflexivity | discriminate].
Qed.

(** A call that passes the arguments with their types is the function on
    those arguments: the tests on the types and the log message pass. *)
Lemma embed_metadata_call_typed (L : PyLib) (a : embed_args) :
  embed_metadata_call L (call_of a) = embed_metadata L a.
Proof.
  assert (Hargs : typed_args (call_of a) = a).
  { destruct a. unfold typed_args, call_of. cbn.
    now destruct arg_model_id0. }
  assert (Hvalidate : embed_call_validate (call_of a) = embed_validate a).
  { unfold embed_call_validate, embed_validate, call_of. cbn.
    destruct (arg_private_key a); cbn; [| reflexivity].
    destruct (arg_signer_id a); cbn; [reflexivity |].
    destruct (arg_timestamp a); cbn; [| reflexivity].
    destruct (arg_target a) as [| member | s |]; cbn; try reflexivity.
    3: destruct (try_except (MetadataTarget_of_value (str_lower s))
                   [CValueError] (fun _ => Raise ValueError)) as [member | e];
         cbn; [| reflexivity].
    all: match goal with
         | |- context [negb ?known] => destruct known
         end; cbn; [| reflexivity].
    all: now destruct (arg_model_id a). }
  unfold embed_metadata_call. rewrite Hvalidate, Hargs.
  destruct (embed_validate a) as [[] | e] eqn:Hv; [reflexivity |].
  cbn [bind]. symmetry. exact (embed_validate_raise_propagates L a e Hv).
Qed.

(** X10. The exceptions of [embed_metadata], for arguments of any type in
    the places where the function tests the type. The call raises
    [AttributeError] when [serialization_format] is an object without an
    attribute [value], which the log message at the head of the function
    reads; otherwise nothing but [TypeError], [ValueError] and
    [RuntimeError], the classes of the docstring, apart from an exception
    of another class that the timestamp conversion raised. Its own
    indexing of the text and of the selectors never fails; that
    [REGEX_PATTERNS] has an entry for the target rests on the five
    members of [MetadataTarget]. *)
Theorem embed_metadata_exceptions (L : PyLib) (c : embed_call) (e : exn) :
  embed_metadata_call L c = Raise e ->
  (e = AttributeError /\ call_serialization_format c = WithoutValue)
  \/ e = TypeError \/ e = ValueError \/ e = RuntimeError
  \/ _format_timestamp L (call_timestamp c) = Raise e.
Proof.
  unfold embed_metadata_call. intros H. apply bind_raise in H.
  destruct H as [H | [u [_ H]]].
  - destruct (embed_call_validate_raises c e H) as [Ha | [-> | ->]]; auto.
  - destruct (embed_metadata_raises L (typed_args c) e H)
      as [-> | [-> | [-> | Hts]]]; auto 6.
Qed.

Lemma embed_metadata_exceptions_witness :
  embed_metadata_call RefLib (with_serialization (call_of hello_args)
                                WithoutValue)
  = Raise AttributeError
  /\ embed_metadata_call RefLib (call_of few_spaces_args) = Raise ValueError
  /\ ((ValueError = AttributeError
       /\ call_serialization_format (call_of few_spaces_args) = WithoutValue)
      \/ ValueError = TypeError \/ ValueError = ValueError
      \/ ValueError = RuntimeError
      \/ _format_timestamp RefLib (call_timestamp (call_of few_spaces_args))
         = Raise ValueError).
Proof.
  split; [reflexivity |].
  assert (H : embed_metadata_call RefLib (call_of few_spaces_args)
              = Raise ValueError) by (vm_compute; reflexivity).
  split; [exact H |].
  exact (embed_metadata_exceptions RefLib (call_of few_spaces_args)
           ValueError H).
Defined.

Lemma target_test (target : target_arg) :
  match target with
  | TargetNone => Ok tt
  | TargetEnum _ => Ok tt
  | TargetStr s =>
      _ <- try_except (MetadataTarget_of_value (str_lower s))
             [CValueError] (fun _ => Raise ValueError) ;;
      Ok tt
  | TargetOther => Raise TypeError
  end
  = (_ <- target_member target ;; Ok tt).
Proof. now destruct target. Qed.

(** X11. The order of the tests at the head of [embed_metadata]. A
    [serialization_format] without an attribute [value] gives
    [AttributeError] whatever the other arguments are, in the log message
    that precedes the tests: the test of its type, which would raise
    [ValueError], is reached only by objects that have the attribute.
    Then, each test being reached when those before it pass: a [text]
    that is not a string gives [TypeError]; a private key that is not an
    Ed25519 key, [TypeError]; a signer id that is empty or not a string,
    [ValueError]; a missing timestamp, [ValueError]; a target that is not
    valid, the exception of its conversion; an unknown metadata format,
    [ValueError]; a [serialization_format] that is not a member,
    [ValueError]; a model id that is neither a string nor [None],
    [TypeError]; a [distribute_across_targets] that is not a [bool],
    [TypeError]. *)
Theorem embed_validation_order (L : PyLib) (c : embed_call) :
  (has_value (call_serialization_format c) = false ->
   embed_metadata_call L c = Raise AttributeError)
  /\ (has_value (call_serialization_format c) = true ->
   (is_str (call_text c) = false ->
    embed_metadata_call L c = Raise TypeError)
   /\ (is_str (call_text c) = true ->
    (is_ed25519_private_key (call_private_key c) = false ->
     embed_metadata_call L c = Raise TypeError)
    /\ (is_ed25519_private_key (call_private_key c) = true ->
     (signer_id_missing (call_signer_id c) = true ->
      embed_metadata_call L c = Raise ValueError)
     /\ (signer_id_missing (call_signer_id c) = false ->
      (call_timestamp c = None ->
       embed_metadata_call L c = Raise ValueError)
      /\ (call_timestamp c <> None ->
       (forall e, target_member (call_target c) = Raise e ->
        embed_metadata_call L c = Raise e)
       /\ (forall t, target_member (call_target c) = Ok t ->
        (metadata_format_unknown (call_metadata_format c) = true ->
         embed_metadata_call L c = Raise ValueError)
        /\ (metadata_format_unknown (call_metadata_format c) = false ->
         (is_member (call_serialization_format c) = false ->
          embed_metadata_call L c = Raise ValueError)
         /\ (is_member (call_serialization_format c) = true ->
          (model_id_mistyped (call_model_id c) = true ->
           embed_metadata_call L c = Raise TypeError)
          /\ (model_id_mistyped (call_model_id c) = false ->
           is_bool (call_distribute_across_targets c) = false ->
           embed_metadata_call L c = Raise TypeError))))))))).
Proof.
  unfold embed_metadata_call, embed_call_validate. rewrite target_test.
  split; [intros H; now rewrite H |]. intros Hvalue. rewrite Hvalue.
  cbn [negb raise_if bind].
  split; [intros H; now rewrite H |]. intros Htext. rewrite Htext.
  cbn [negb raise_if bind].
  split; [intros H; now rewrite H |]. intros Hkey. rewrite Hkey.
  cbn [negb raise_if bind].
  split; [intros H; now rewrite H |]. intros Hsigner. rewrite Hsigner.
  cbn [negb raise_if bind].
  split; [intros H; now rewrite H |]. intros Hts.
  destruct (call_timestamp c) as [ts |]; [| contradiction].
  cbn [bind].
  split; [intros e H; now rewrite H |]. intros t Htarget. rewrite Htarget.
  cbn [bind].
  split; [intros H; now rewrite H |]. intros Hformat. rewrite Hformat.
  cbn [negb raise_if bind].
  split; [intros H; now rewrite H |]. intros Hmember. rewrite Hmember.
  cbn [negb raise_if bind].
  split; [intros H; now rewrite H |]. intros Hmodel Hbool.
  now rewrite Hmodel, Hbool.
Qed.

Lemma embed_validation_order_witness :
  embed_metadata_call RefLib
    (with_serialization
       (call_of (with_key (with_timestamp hello_args None) OtherPrivateKey))
       WithoutValue)
  = Raise AttributeError
  /\ embed_metadata_call RefLib
       (call_of (with_key (with_timestamp hello_args None) OtherPrivateKey))
     = Raise TypeError
  /\ embed_metadata_call RefLib (call_of (with_timestamp hello_args None))
     = Raise ValueError
  /\ embed_metadata_call RefLib
       (with_serialization (call_of hello_args) WithValue)
     = Raise ValueError.
Proof.
  split.
  { destruct (embed_validation_order RefLib
                (with_serialization
                   (call_of (with_key (with_timestamp hello_args None)
                               OtherPrivateKey))
                   WithoutValue)) as [H _].
    exact (H eq_refl). }
  split.
  { destruct (embed_validation_order RefLib
                (call_of (with_key (with_timestamp hello_args None)
                            OtherPrivateKey))) as [_ H].
    destruct (H eq_refl) as [_ Htext].
    destruct (Htext eq_refl) as [Hkey _]. exact (Hkey eq_refl). }
  split.
  { destruct (embed_validation_order RefLib
                (call_of (with_timestamp hello_args None))) as [_ H].
    destruct (H eq_refl) as [_ Htext].
    destruct (Htext eq_refl) as [_ Hkey].
    destruct (Hkey eq_refl) as [_ Hsigner].
    destruct (Hsigner eq_refl) as [Hts _]. exact (Hts eq_refl). }
  destruct (embed_validation_order RefLib
              (with_serialization (call_of hello_args) WithValue)) as [_ H].
  destruct (H eq_refl) as [_ Htext].
  destruct (Htext eq_refl) as [_ Hkey].
  destruct (Hkey eq_refl) as [_ Hsigner].
  destruct (Hsigner eq_refl) as [_ Hts].
  assert (Hgiven : call_timestamp
                     (with_serialization (call_of hello_args) WithValue)
                   <> None) by discriminate.
  destruct (Hts Hgiven) as [_ Htarget].
  destruct (Htarget WHITESPACE eq_refl) as [_ Hformat].
  destruct (Hformat eq_refl) as [Hmember _]. exact (Hmember eq_refl).
Defined.

(** X12. Once the arguments are valid, an error of the timestamp
    conversion of class [ValueError] or [TypeError] comes out of
    [embed_metadata] as [ValueError], also for a timestamp of an unsupported
    type; an error of any other class comes out as it is. *)
Theorem embed_timestamp_errors (L : PyLib) (a : embed_args) (e : exn) :
  embed_validate a = Ok tt ->
  _format_timestamp L (arg_timestamp a) = Raise e ->
  embed_metadata L a
  = Raise (if catches CValueError e || catches CTypeError e
           then ValueError else e).
Proof.
  intros Hv Hts. unfold embed_metadata, embed_selectors, embed_outer_payload,
    embed_payload. rewrite Hv, Hts. now destruct e.
Qed.

Lemma embed_timestamp_errors_witness :
  embed_metadata RefLib (with_timestamp hello_args (Some TsOther))
  = Raise ValueError
  /\ embed_metadata RefLib
       (with_timestamp hello_args (Some (TsStr (lit "yesterday"))))
     = Raise ValueError.
Proof.
  split.
  - apply (embed_timestamp_errors RefLib
             (with_timestamp hello_args (Some TsOther)) TypeError);
      reflexivity.
  - apply (embed_timestamp_errors RefLib
             (with_timestamp hello_args (Some (TsStr (lit "yesterday"))))
             ValueError); vm_compute; reflexivity.
Defined.

(** X13. A failure of the serializer is wrapped: when the payload is built
    and its serialization for signing raises, or the serialization of the
    envelope in the transport format raises, whatever the exception,
    [embed_metadata] raises [RuntimeError]. *)
Theorem embed_wraps_serializer_errors (L : PyLib) (a : embed_args)
    (payload : pydict) (e : exn) :
  embed_payload L a = Ok payload ->
  (serialize_payload L payload JSON = Raise e ->
   embed_metadata L a = Raise RuntimeError)
  /\ (forall signature_b64,
        embed_signature L a payload = Ok signature_b64 ->
        serialize_payload L (outer_payload_of a payload signature_b64)
          (arg_serialization_format a) = Raise e ->
        embed_metadata L a = Raise RuntimeError).
Proof.
  intros Hp. split.
  - intros Hs.
    assert (Hsig : embed_signature L a payload = Raise RuntimeError)
      by (unfold embed_signature; now rewrite Hs).
    unfold embed_metadata, embed_selectors, embed_outer_payload.
    rewrite Hp. cbn [bind]. now rewrite Hsig.
  - intros sig Hsig Hs. unfold embed_metadata, embed_selectors,
      embed_outer_payload. rewrite Hp. cbn [bind]. rewrite Hsig. cbn [bind].
    now rewrite Hs.
Qed.

Lemma embed_wraps_serializer_errors_witness :
  embed_metadata BrokenJsonLib hello_args = Raise RuntimeError
  /\ embed_metadata RefLib (with_format (with_signer hello_args [0xE9]) 
                              (lit "basic") CBOR)
     = Raise RuntimeError.
Proof.
  split.
  - assert (Hp : exists payload,
               embed_payload BrokenJsonLib hello_args = Ok payload)
      by (eexists; vm_compute; reflexivity).
    destruct Hp as [payload Hp].
    apply (proj1 (embed_wraps_serializer_errors BrokenJsonLib hello_args
                    payload TypeError Hp)).
    reflexivity.
  - assert (Hp : exists payload signature_b64,
               embed_payload RefLib
                 (with_format (with_signer hello_args [0xE9]) (lit "basic")
                    CBOR) = Ok payload
               /\ embed_signature RefLib
                    (with_format (with_signer hello_args [0xE9])
                       (lit "basic") CBOR) payload = Ok signature_b64
               /\ serialize_payload RefLib
                    (outer_payload_of
                       (with_format (with_signer hello_args [0xE9])
                          (lit "basic") CBOR) payload signature_b64) CBOR
                  = Raise ValueError).
    { do 2 eexists. split; [vm_compute; reflexivity |].
      split; vm_compute; reflexivity. }
    destruct Hp as [payload [sig [Hp [Hsig Hs]]]].
    exact (proj2 (embed_wraps_serializer_errors RefLib _ payload ValueError
                    Hp) sig Hsig Hs).
Defined.

(** ** The payloads *)

Lemma dict_set_new (d : pydict) (k : pystr) (v : pyval) :
  dict_get d k = None -> dict_set d k v = d ++ [(k, v)].
Proof.
  induction d as [| [k' v'] r IH]; simpl; [reflexivity |].
  destruct (pystr_eqb k' k); [discriminate |].
  intros H. now rewrite IH.
Qed.

Lemma dict_set_keys_new (d : pydict) (k : pystr) (v : pyval) :
  dict_get d k = None -> map fst (dict_set d k v) = map fst d ++ [k].
Proof. intros H. now rewrite (dict_set_new d k v H), map_app. Qed.

Lemma dict_set_keys_old (d : pydict) (k : pystr) (v : pyval) :
  dict_get d k <> None -> map fst (dict_set d k v) = map fst d.
Proof.
  induction d as [| [k' v'] r IH]; simpl; [congruence |].
  destruct (pystr_eqb k' k) eqn:E; simpl; [reflexivity |].
  intros H. now rewrite IH.
Qed.

Lemma set_if_truthy_keys (d : pydict) (k : pystr) (o : option pystr) :
  dict_get d k = None ->
  map fst (set_if_truthy d k o)
  = map fst d ++ (if truthy o then [k] else []).
Proof.
  intros H. unfold set_if_truthy. destruct o as [s |]; simpl.
  - destruct s; simpl; [now rewrite app_nil_r |].
    now rewrite dict_set_keys_new.
  - now rewrite app_nil_r.
Qed.

Lemma set_if_truthy_get (d : pydict) (k : pystr) (o : option pystr) :
  dict_get d k = None ->
  dict_get (set_if_truthy d k o) k
  = if truthy o then option_map PStr o else None.
Proof.
  intros H. unfold set_if_truthy. destruct o as [s |]; simpl; [| exact H].
  destruct s; simpl; [exact H | apply dict_get_set_same].
Qed.

Lemma dict_get_filter_keys (p : pystr -> bool) (d : pydict) (k : pystr) :
  dict_get (filter (fun kv => p (fst kv)) d) k
  = if p k then dict_get d k else None.
Proof.
  induction d as [| [k' v'] r IH]; [now destruct (p k) |].
  cbn [filter fst dict_get].
  destruct (pystr_eqb k' k) eqn:E.
  - apply pystr_eqb_eq in E. subst k'.
    destruct (p k) eqn:Hp.
    + cbn [dict_get]. now rewrite pystr_eqb_refl.
    + exact IH.
  - destruct (p k') eqn:Hp'; [| exact IH].
    cbn [dict_get]. rewrite E. exact IH.
Qed.

Lemma filter_nothing_to_drop (custom : pydict) :
  existsb (fun kv => is_standard_key (fst kv)) custom = false ->
  filter (fun kv => negb (is_standard_key (fst kv))) custom = custom.
Proof.
  induction custom as [| kv r IH]; simpl; [reflexivity |].
  destruct (is_standard_key (fst kv)); simpl; [discriminate |].
  intros H. now rewrite IH.
Qed.

Lemma is_standard_key_in (k : pystr) :
  is_standard_key k = true <-> In k standard_keys.
Proof.
  unfold is_standard_key. rewrite existsb_exists. split.
  - intros [x [Hx Hk]]. apply pystr_eqb_eq in Hk. now subst x.
  - intros H. exists k. split; [exact H | apply pystr_eqb_refl].
Qed.

(** The basic payload before the custom metadata. *)
Lemma basic_payload_value (a : embed_args) (iso : option pystr) :
  basic_payload a iso
  = let head :=
      set_if_truthy
        (set_if_truthy (payload_head a iso) (lit "model_id") (arg_model_id a))
        (lit "generationID") (arg_generationID a) in
    match arg_custom_metadata a with
    | Some custom =>
        if truthy (arg_custom_metadata a) then
          dict_set head (lit "custom_metadata")
            (PDict (filter (fun kv => negb (is_standard_key (fst kv)))
                      custom))
        else head
    | None => head
    end.
Proof.
  unfold basic_payload. cbv zeta.
  destruct (arg_custom_metadata a) as [custom |]; [| reflexivity].
  destruct (truthy (Some custom)); [| reflexivity].
  destruct (existsb _ custom) eqn:E; [reflexivity |].
  now rewrite (filter_nothing_to_drop custom E).
Qed.

Lemma basic_head_keys (a : embed_args) (iso : option pystr) :
  map fst
    (set_if_truthy
       (set_if_truthy (payload_head a iso) (lit "model_id") (arg_model_id a))
       (lit "generationID") (arg_generationID a))
  = [lit "signer_id"; lit "timestamp"; lit "format"]
      ++ (if truthy (arg_model_id a) then [lit "model_id"] else [])
      ++ (if truthy (arg_generationID a) then [lit "generationID"] else []).
Proof.
  rewrite set_if_truthy_keys.
  - rewrite set_if_truthy_keys by reflexivity.
    now rewrite <- app_assoc.
  - rewrite set_if_truthy_other by lit_neq. reflexivity.
Qed.

(** X14. The basic payload has the entries [signer_id], [timestamp] and
    [format], then [model_id], [generationID] and [custom_metadata], each
    only when its argument is given and not empty, in this order, and
    nothing else: the manifest arguments are dropped. The model id and the
    generation id are the arguments. *)
Theorem basic_payload_entries (L : PyLib) (a : embed_args) (payload : pydict) :
  embed_payload L a = Ok payload ->
  arg_metadata_format a = lit "basic" ->
  map fst payload
  = [lit "signer_id"; lit "timestamp"; lit "format"]
      ++ (if truthy (arg_model_id a) then [lit "model_id"] else [])
      ++ (if truthy (arg_generationID a) then [lit "generationID"] else [])
      ++ (if truthy (arg_custom_metadata a) then [lit "custom_metadata"]
          else [])
  /\ dict_get payload (lit "model_id")
     = (if truthy (arg_model_id a) then option_map PStr (arg_model_id a)
        else None)
  /\ dict_get payload (lit "generationID")
     = (if truthy (arg_generationID a)
        then option_map PStr (arg_generationID a) else None).
Proof.
  intros Hp Hfmt.
  destruct (embed_payload_built L a payload Hp)
    as [iso [_ [[_ ->] | [Hm _]]]];
    [| rewrite Hfmt in Hm; vm_compute in Hm; discriminate].
  rewrite basic_payload_value. cbv zeta.
  set (head := set_if_truthy _ (lit "generationID") (arg_generationID a)).
  assert (Hkeys : map fst head
                  = [lit "signer_id"; lit "timestamp"; lit "format"]
                      ++ (if truthy (arg_model_id a) then [lit "model_id"]
                          else [])
                      ++ (if truthy (arg_generationID a)
                          then [lit "generationID"] else []))
    by apply basic_head_keys.
  assert (Hmodel : dict_get head (lit "model_id")
                   = if truthy (arg_model_id a)
                     then option_map PStr (arg_model_id a) else None).
  { unfold head. rewrite set_if_truthy_other by lit_neq.
    now apply set_if_truthy_get. }
  assert (Hgen : dict_get head (lit "generationID")
                 = if truthy (arg_generationID a)
                   then option_map PStr (arg_generationID a) else None).
  { unfold head. apply set_if_truthy_get.
    rewrite set_if_truthy_other by lit_neq. reflexivity. }
  assert (Hcustom : dict_get head (lit "custom_metadata") = None).
  { unfold head. rewrite !set_if_truthy_other by lit_neq. reflexivity. }
  clearbody head.
  destruct (arg_custom_metadata a) as [custom |].
  - destruct (truthy (Some custom)).
    + rewrite (dict_set_keys_new _ _ _ Hcustom), Hkeys.
      rewrite !dict_get_set_other by lit_neq.
      split; [now rewrite <- !app_assoc | auto].
    + rewrite Hkeys, !app_nil_r. auto.
  - rewrite Hkeys, !app_nil_r. auto.
Qed.

Lemma basic_payload_entries_witness :
  exists payload,
    embed_payload RefLib hello_args = Ok payload
    /\ map fst payload
       = [lit "signer_id"; lit "timestamp"; lit "format"; lit "model_id"]
    /\ dict_get payload (lit "model_id") = Some (PStr (lit "m1"))
    /\ dict_get payload (lit "generationID") = None.
Proof.
  assert (Hp : exists payload, embed_payload RefLib hello_args = Ok payload)
    by (eexists; vm_compute; reflexivity).
  destruct Hp as [payload Hp]. exists payload. split; [exact Hp |].
  exact (basic_payload_entries RefLib hello_args payload Hp eq_refl).
Defined.

(** X15. The custom metadata of the basic payload are the entries of the
    argument whose key is not one of the five standard keys, in their
    order: an entry under a standard key is dropped, cannot replace the
    standard entry of the payload, and if all are dropped the payload
    carries an empty [custom_metadata]. *)
Theorem custom_metadata_is_filtered (L : PyLib) (a : embed_args)
    (payload custom : pydict) :
  embed_payload L a = Ok payload ->
  arg_metadata_format a = lit "basic" ->
  arg_custom_metadata a = Some custom ->
  custom <> [] ->
  exists kept,
    dict_get payload (lit "custom_metadata") = Some (PDict kept)
    /\ kept = filter (fun kv => negb (is_standard_key (fst kv))) custom
    /\ (forall k, In k standard_keys -> dict_get kept k = None)
    /\ (forall k, ~ In k standard_keys -> dict_get kept k = dict_get custom k).
Proof.
  intros Hp Hfmt Hcustom Hne.
  destruct (embed_payload_built L a payload Hp)
    as [iso [_ [[_ ->] | [Hm _]]]];
    [| rewrite Hfmt in Hm; vm_compute in Hm; discriminate].
  rewrite basic_payload_value. cbv zeta. rewrite Hcustom.
  destruct custom as [| kv custom']; [contradiction |]. cbn [truthy].
  eexists. split; [apply dict_get_set_same |]. split; [reflexivity |].
  split; intros k Hk;
    rewrite (dict_get_filter_keys (fun k => negb (is_standard_key k)));
    destruct (is_standard_key k) eqn:E; try reflexivity.
  - apply is_standard_key_in in Hk. congruence.
  - apply is_standard_key_in in E. contradiction.
Qed.

Lemma custom_metadata_is_filtered_witness :
  exists payload kept,
    embed_payload RefLib
      (with_fields hello_args (Some (lit "m1")) None
         (Some [(lit "model_id", PStr (lit "other")); (lit "topic", PInt 7)])
         None) = Ok payload
    /\ dict_get payload (lit "custom_metadata") = Some (PDict kept)
    /\ kept = [(lit "topic", PInt 7)]
    /\ dict_get payload (lit "model_id") = Some (PStr (lit "m1")).
Proof.
  assert (Hp : exists payload,
             embed_payload RefLib
               (with_fields hello_args (Some (lit "m1")) None
                  (Some [(lit "model_id", PStr (lit "other"));
                         (lit "topic", PInt 7)]) None) = Ok payload
             /\ dict_get payload (lit "model_id") = Some (PStr (lit "m1")))
    by (eexists; split; vm_compute; reflexivity).
  destruct Hp as [payload [Hp Hmodel]].
  destruct (custom_metadata_is_filtered RefLib _ payload _ Hp eq_refl eq_refl
              ltac:(discriminate)) as [kept [Hget [Hkept _]]].
  exists payload, kept. split; [exact Hp |]. split; [exact Hget |].
  split; [exact Hkept | exact Hmodel].
Defined.

(** The manifest dictionary before the model id is merged: its [ai_info]
    is the argument, when that is given and not empty. *)
Lemma manifest_before_model_id (a : embed_args) :
  let inner :=
    set_if_truthy [] (lit "claim_generator") (arg_claim_generator a) in
  let inner :=
    match arg_actions a with
    | Some acts => if truthy (arg_actions a)
                   then dict_set inner (lit "actions") (PList acts)
                   else inner
    | None => inner
    end in
  let inner :=
    match arg_ai_info a with
    | Some ai => if truthy (arg_ai_info a)
                 then dict_set inner (lit "ai_info") (PDict ai)
                 else inner
    | None => inner
    end in
  let inner :=
    match arg_custom_claims a with
    | Some cc => if truthy (arg_custom_claims a)
                 then dict_set inner (lit "custom_claims") (PDict cc)
                 else inner
    | None => inner
    end in
  dict_get inner (lit "ai_info")
  = if truthy (arg_ai_info a) then option_map PDict (arg_ai_info a) else None.
Proof.
  cbv zeta.
  assert (H0 : forall o, dict_get (set_if_truthy [] (lit "claim_generator") o)
                           (lit "ai_info") = None)
    by (intros o; now rewrite set_if_truthy_other by lit_neq).
  destruct (arg_custom_claims a) as [[| c cc] |];
    destruct (arg_ai_info a) as [[| i ai] |];
    destruct (arg_actions a) as [[| x acts] |];
    cbn [truthy option_map];
    rewrite ?(dict_get_set_other _ (lit "custom_claims")) by lit_neq;
    rewrite ?dict_get_set_same;
    rewrite ?(dict_get_set_other _ (lit "actions")) by lit_neq;
    rewrite ?H0; reflexivity.
Qed.

(** X16. In the manifest format a model id that is given and not empty is
    stored as [manifest.ai_info.model_id], replacing a [model_id] of the
    [ai_info] argument and leaving its other entries as they are; the
    payload has the four entries [signer_id], [timestamp], [format] and
    [manifest] and no model id of its own. *)
Theorem manifest_model_id_merged (L : PyLib) (a : embed_args)
    (payload : pydict) (m : pystr) :
  embed_payload L a = Ok payload ->
  arg_metadata_format a = lit "manifest" ->
  arg_model_id a = Some m ->
  m <> [] ->
  map fst payload
  = [lit "signer_id"; lit "timestamp"; lit "format"; lit "manifest"]
  /\ exists manifest ai,
       dict_get payload (lit "manifest") = Some (PDict manifest)
       /\ dict_get manifest (lit "ai_info") = Some (PDict ai)
       /\ dict_get ai (lit "model_id") = Some (PStr m)
       /\ forall k, lit "model_id" <> k ->
            dict_get ai k
            = dict_get (match arg_ai_info a with
                        | Some given => given
                        | None => []
                        end) k.
Proof.
  intros Hp Hfmt Hmodel Hne.
  destruct (embed_payload_built L a payload Hp)
    as [iso [_ [[Hb _] | [_ ->]]]];
    [rewrite Hfmt in Hb; vm_compute in Hb; discriminate |].
  pose proof (manifest_before_model_id a) as Hai. cbv zeta in Hai.
  unfold manifest_payload. cbv zeta. rewrite Hmodel.
  destruct m as [| c m']; [contradiction |]. cbn [truthy].
  set (inner := match arg_custom_claims a with
                | Some cc => _
                | None => _
                end) in *.
  clearbody inner.
  split; [reflexivity |].
  unfold set_ai_info_model_id, dict_contains. cbv zeta. rewrite Hai.
  destruct (arg_ai_info a) as [[| i given] |];
    cbn [truthy option_map] in Hai |- *;
    rewrite ?Hai, ?dict_get_set_same; cbv iota;
    do 2 eexists;
    (split; [reflexivity |]);
    (split; [apply dict_get_set_same |]);
    (split; [apply dict_get_set_same |]);
    intros k Hk; now rewrite dict_get_set_other.
Qed.

Lemma manifest_model_id_merged_witness :
  exists payload manifest ai,
    embed_payload RefLib
      (with_fields (with_format hello_args (lit "manifest") JSON)
         (Some (lit "m1")) None None
         (Some [(lit "model_id", PStr (lit "old")); (lit "vendor", PInt 3)]))
    = Ok payload
    /\ map fst payload
       = [lit "signer_id"; lit "timestamp"; lit "format"; lit "manifest"]
    /\ dict_get payload (lit "manifest") = Some (PDict manifest)
    /\ dict_get manifest (lit "ai_info") = Some (PDict ai)
    /\ dict_get ai (lit "model_id") = Some (PStr (lit "m1"))
    /\ dict_get ai (lit "vendor") = Some (PInt 3).
Proof.
  assert (Hp : exists payload,
             embed_payload RefLib
               (with_fields (with_format hello_args (lit "manifest") JSON)
                  (Some (lit "m1")) None None
                  (Some [(lit "model_id", PStr (lit "old"));
                         (lit "vendor", PInt 3)])) = Ok payload)
    by (eexists; vm_compute; reflexivity).
  destruct Hp as [payload Hp].
  destruct (manifest_model_id_merged RefLib _ payload (lit "m1") Hp eq_refl
              eq_refl ltac:(discriminate))
    as [Hkeys [manifest [ai [Hm [Hai [Hmodel Hother]]]]]].
  exists payload, manifest, ai.
  split; [exact Hp |]. split; [exact Hkeys |]. split; [exact Hm |].
  split; [exact Hai |]. split; [exact Hmodel |].
  rewrite (Hother (lit "vendor") ltac:(lit_neq)). reflexivity.
Defined.

(** ** The manifest and the caller's dictionaries *)

(** *** Stores and dictionaries *)

Lemma store_get_old (s t : store) (l : address) :
  (l < length s)%nat -> store_get (s ++ t) l = store_get s l.
Proof. intros H. unfold store_get. now apply app_nth1. Qed.

Lemma store_get_new (s t : store) (o : object) :
  store_get (s ++ o :: t) (length s) = o.
Proof.
  unfold store_get. rewrite app_nth2 by lia. now rewrite Nat.sub_diag.
Qed.

Lemma store_update_new (s t : store) (o : object) (f : object -> object) :
  store_update (s ++ o :: t) (length s) f = s ++ f o :: t.
Proof.
  induction s as [| x s IH]; [reflexivity |]. cbn. now rewrite IH.
Qed.

Lemma store_update_old (s t : store) (l : address) (f : object -> object) :
  (l < length s)%nat ->
  store_update (s ++ t) l f = store_update s l f ++ t.
Proof.
  revert l. induction s as [| x s IH]; intros [| l] H; cbn in *;
    try lia; [reflexivity |].
  now rewrite IH by lia.
Qed.

Lemma store_update_length (s : store) (l : address) (f : object -> object) :
  length (store_update s l f) = length s.
Proof.
  revert l. induction s as [| x s IH]; intros [| l]; cbn; auto.
Qed.

Lemma store_get_update_same (s : store) (l : address)
    (f : object -> object) :
  (l < length s)%nat -> store_get (store_update s l f) l = f (store_get s l).
Proof.
  unfold store_get. revert l.
  induction s as [| x s IH]; intros [| l] H; cbn in *; try lia;
    [reflexivity |].
  apply IH. lia.
Qed.

Lemma store_get_update_other (s : store) (l l' : address)
    (f : object -> object) :
  l <> l' -> store_get (store_update s l f) l' = store_get s l'.
Proof.
  unfold store_get. revert l l'.
  induction s as [| x s IH]; intros [| l] [| l'] H; cbn; try reflexivity;
    [congruence |].
  apply IH. congruence.
Qed.

Lemma set_item_new (s t : store) (o : object) (k : pystr) (v : stored) :
  set_item (s ++ o :: t) (length s) k v = s ++ object_set o k v :: t.
Proof. apply store_update_new. Qed.

Lemma object_get_set_same (o : object) (k : pystr) (v : stored) :
  object_get (object_set o k v) k = Some v.
Proof.
  induction o as [| [k' v'] o IH]; cbn.
  - now rewrite pystr_eqb_refl.
  - destruct (pystr_eqb k' k) eqn:E; cbn; now rewrite E.
Qed.

Lemma object_get_set_other (o : object) (k k' : pystr) (v : stored) :
  k <> k' -> object_get (object_set o k v) k' = object_get o k'.
Proof.
  intros Hk. induction o as [| [k0 v0] o IH]; cbn.
  - now rewrite (pystr_eqb_neq k k' Hk).
  - destruct (pystr_eqb k0 k) eqn:E; cbn; [| now rewrite IH].
    apply pystr_eqb_eq in E. subst k0.
    now rewrite (pystr_eqb_neq k k' Hk).
Qed.

(** *** The two stages of the block *)

Ltac settle_entries :=
  repeat first
    [ rewrite set_item_new
    | rewrite store_get_old by auto
    | progress cbn [app object_set object_get truthy option_map] ].

(** The entries: the store after them is the store of the caller with
    [inner_manifest] added, and [inner_manifest] holds the address of each
    dictionary of the caller that is not empty. *)
Lemma manifest_entries_result (s : store) (claim_generator : option pystr)
    (actions : option (list pyval)) (ai_info custom_claims : option address) :
  (forall l, ai_info = Some l -> (l < length s)%nat) ->
  (forall l, custom_claims = Some l -> (l < length s)%nat) ->
  exists o,
    manifest_entries s claim_generator actions ai_info custom_claims
    = (s ++ [o], length s)
    /\ object_get o (lit "ai_info")
       = (if truthy_at s ai_info then option_map Ref ai_info else None)
    /\ object_get o (lit "custom_claims")
       = (if truthy_at s custom_claims then option_map Ref custom_claims
          else None).
Proof.
  intros Hai Hcc. unfold manifest_entries, alloc, truthy_at. cbv zeta.
  assert (Hai' : forall l, ai_info = Some l -> (l < length s)%nat)
    by exact Hai.
  assert (Hcc' : forall l, custom_claims = Some l -> (l < length s)%nat)
    by exact Hcc.
  destruct claim_generator as [[| g gs] |];
    destruct actions as [[| act acts] |];
    destruct ai_info as [la |]; destruct custom_claims as [lc |].
  all: try (assert (Hla : (la < length s)%nat) by (apply Hai'; reflexivity)).
  all: try (assert (Hlc : (lc < length s)%nat) by (apply Hcc'; reflexivity)).
  all: settle_entries.
  all: try (destruct (nonempty (store_get s la)) eqn:Ena); settle_entries.
  all: try (destruct (nonempty (store_get s lc)) eqn:Enc); settle_entries.
  all: eexists; split; [reflexivity |]; split; vm_compute; reflexivity.
Qed.

Lemma manifest_model_id_absent (s : store) (inner_manifest : address)
    (model_id : option pystr) :
  truthy model_id = false ->
  manifest_model_id s inner_manifest model_id = Ok s.
Proof. now destruct model_id as [[| c m] |]. Qed.

(** With [ai_info] in the manifest, the model id is written into the
    dictionary it refers to. *)
Lemma manifest_model_id_shared (s : store) (o : object) (l : address)
    (c : Z) (m : pystr) :
  (l < length s)%nat ->
  object_get o (lit "ai_info") = Some (Ref l) ->
  manifest_model_id (s ++ [o]) (length s) (Some (c :: m))
  = Ok (set_item s l (lit "model_id") (Val (PStr (c :: m))) ++ [o]).
Proof.
  intros Hl Hget. unfold manifest_model_id. cbn [truthy]. cbv zeta.
  rewrite store_get_new, Hget. rewrite store_get_new, Hget.
  unfold set_item. now rewrite store_update_old by exact Hl.
Qed.

(** Without it, into a new dictionary. *)
Lemma manifest_model_id_fresh (s : store) (o : object) (c : Z) (m : pystr) :
  object_get o (lit "ai_info") = None ->
  manifest_model_id (s ++ [o]) (length s) (Some (c :: m))
  = Ok (s ++ [object_set o (lit "ai_info") (Ref (S (length s)));
              [(lit "model_id", Val (PStr (c :: m)))]]).
Proof.
  intros Hget. unfold manifest_model_id, alloc. cbn [truthy]. cbv zeta.
  rewrite store_get_new, Hget. rewrite <- app_assoc. cbn [app].
  rewrite set_item_new, store_get_new, object_get_set_same.
  rewrite length_app, Nat.add_1_r. cbn [length].
  change (s ++ [object_set o (lit "ai_info") (Ref (S (length s))); []])
    with (s ++ [object_set o (lit "ai_info") (Ref (S (length s)))] ++ [[]]).
  rewrite app_assoc.
  replace (S (length s))
    with (length (s ++ [object_set o (lit "ai_info") (Ref (S (length s)))]))
    at 2 by (rewrite length_app, Nat.add_1_r; reflexivity).
  rewrite set_item_new. now rewrite <- app_assoc.
Qed.

(** X17. The manifest format writes into the dictionary of the caller.
    For any dictionaries of the caller, with [ai_info] and
    [custom_claims] each [None] or one of them, the same one or not: the
    manifest holds the dictionaries themselves, not copies; when [ai_info]
    is not empty and a model id is given, [model_id] is set in the
    dictionary given as [ai_info]; every other dictionary of the caller is
    left as it was. So the dictionary given as [custom_claims] is
    modified exactly when it is the one given as [ai_info]. *)
Theorem manifest_writes_into_ai_info (s : store)
    (claim_generator : option pystr) (actions : option (list pyval))
    (ai_info custom_claims : option address) (model_id : option pystr) :
  (forall l, ai_info = Some l -> (l < length s)%nat) ->
  (forall l, custom_claims = Some l -> (l < length s)%nat) ->
  exists s',
    manifest_block s claim_generator actions ai_info custom_claims model_id
    = Ok (s', length s)
    /\ (forall l m,
          ai_info = Some l -> nonempty (store_get s l) = true ->
          model_id = Some m -> m <> [] ->
          store_get s' l
          = object_set (store_get s l) (lit "model_id") (Val (PStr m)))
    /\ (forall l, (l < length s)%nat ->
          store_get s' l = store_get s l
          \/ (ai_info = Some l /\ nonempty (store_get s l) = true
              /\ truthy model_id = true))
    /\ (forall l,
          ai_info = Some l -> nonempty (store_get s l) = true ->
          object_get (store_get s' (length s)) (lit "ai_info")
          = Some (Ref l))
    /\ (forall l,
          custom_claims = Some l -> nonempty (store_get s l) = true ->
          object_get (store_get s' (length s)) (lit "custom_claims")
          = Some (Ref l)).
Proof.
  intros Hai Hcc.
  destruct (manifest_entries_result s claim_generator actions ai_info
              custom_claims Hai Hcc) as [o [Hentries [Hgai Hgcc]]].
  unfold manifest_block. rewrite Hentries.
  assert (Hrefs :
    (forall l, ai_info = Some l -> nonempty (store_get s l) = true ->
       object_get o (lit "ai_info") = Some (Ref l))
    /\ (forall l, custom_claims = Some l -> nonempty (store_get s l) = true ->
          object_get o (lit "custom_claims") = Some (Ref l))).
  { split; intros l -> Hne; cbn [truthy_at option_map] in *;
      [rewrite Hne in Hgai | rewrite Hne in Hgcc]; assumption. }
  destruct Hrefs as [Hrai Hrcc].
  destruct (truthy model_id) eqn:Hmodel.
  - destruct model_id as [[| c m] |]; try discriminate.
    destruct (truthy_at s ai_info) eqn:Htruthy.
    + (* the dictionary of the caller is written *)
      destruct ai_info as [la |]; [| discriminate].
      cbn [truthy_at] in Htruthy. cbn [option_map] in Hgai.
      assert (Hla : (la < length s)%nat) by (apply Hai; reflexivity).
      rewrite (manifest_model_id_shared s o la c m Hla Hgai). cbn [bind].
      eexists. split; [reflexivity |].
      assert (Hlen : length (set_item s la (lit "model_id")
                               (Val (PStr (c :: m)))) = length s)
        by apply store_update_length.
      split; [| split; [| split]].
      * intros l m' Hl _ Hm' _. apply some_inj in Hl, Hm'. subst l m'.
        rewrite store_get_old by (rewrite Hlen; exact Hla).
        now apply store_get_update_same.
      * intros l Hl. destruct (Nat.eq_dec la l) as [<- | Hother].
        -- right. auto.
        -- left. rewrite store_get_old by (rewrite Hlen; exact Hl).
           now apply store_get_update_other.
      * intros l Hl Hne. rewrite <- Hlen at 1. rewrite store_get_new.
        exact (Hrai l Hl Hne).
      * intros l Hl Hne. rewrite <- Hlen at 1. rewrite store_get_new.
        exact (Hrcc l Hl Hne).
    + (* a new dictionary is written *)
      rewrite (manifest_model_id_fresh s o c m Hgai). cbn [bind].
      eexists. split; [reflexivity |]. split; [| split; [| split]].
      * intros l m' Hl Hne _ _. subst ai_info. cbn [truthy_at] in Htruthy.
        congruence.
      * intros l Hl. left. now apply store_get_old.
      * intros l Hl Hne. subst ai_info. cbn [truthy_at] in Htruthy.
        congruence.
      * intros l Hl Hne. rewrite store_get_new.
        rewrite object_get_set_other by lit_neq. exact (Hrcc l Hl Hne).
  - rewrite (manifest_model_id_absent _ _ _ Hmodel). cbn [bind].
    eexists. split; [reflexivity |]. split; [| split; [| split]].
    + intros l m Hl Hne Hm Hm'. subst model_id.
      destruct m; [contradiction | discriminate].
    + intros l Hl. left. now apply store_get_old.
    + intros l Hl Hne. rewrite store_get_new. exact (Hrai l Hl Hne).
    + intros l Hl Hne. rewrite store_get_new. exact (Hrcc l Hl Hne).
Qed.

Lemma manifest_writes_into_ai_info_witness :
  exists s',
    manifest_block [[(lit "vendor", Val (PInt 3))]] None None (Some 0%nat)
      (Some 0%nat) (Some (lit "m1")) = Ok (s', 1%nat)
    /\ store_get s' 0%nat
       = [(lit "vendor", Val (PInt 3));
          (lit "model_id", Val (PStr (lit "m1")))]
    /\ object_get (store_get s' 1%nat) (lit "ai_info") = Some (Ref 0%nat)
    /\ object_get (store_get s' 1%nat) (lit "custom_claims")
       = Some (Ref 0%nat).
Proof.
  assert (Hrange : forall l, Some 0%nat = Some l ->
                     (l < length [[(lit "vendor", Val (PInt 3))]])%nat).
  { intros l H. apply some_inj in H. subst l. cbn. lia. }
  destruct (manifest_writes_into_ai_info [[(lit "vendor", Val (PInt 3))]]
              None None (Some 0%nat) (Some 0%nat) (Some (lit "m1"))
              Hrange Hrange)
    as [s' [Hblock [Hwritten [_ [Hai Hcc]]]]].
  exists s'. split; [exact Hblock |]. split; [| split].
  - rewrite (Hwritten 0%nat (lit "m1") eq_refl eq_refl eq_refl
               ltac:(discriminate)).
    vm_compute. reflexivity.
  - exact (Hai 0%nat eq_refl eq_refl).
  - exact (Hcc 0%nat eq_refl eq_refl).
Defined.

(** *** Two separate dictionaries, and the payload *)

(** A dictionary of the caller read from the store, before and after an
    assignment to one of its keys. *)
Lemma read_object_of (d : pydict) :
  map (fun kv : pystr * stored => (fst kv, value_of (snd kv))) (object_of d)
  = d.
Proof.
  unfold object_of. rewrite map_map. cbn [fst snd value_of].
  induction d as [| [k v] d IH]; [reflexivity |]. cbn [map fst snd].
  now rewrite IH.
Qed.

Lemma object_set_of (d : pydict) (k : pystr) (v : pyval) :
  object_set (object_of d) k (Val v) = object_of (dict_set d k v).
Proof.
  induction d as [| [k' v'] d IH]; [reflexivity |].
  cbn [object_of map object_set dict_set fst snd].
  destruct (pystr_eqb k' k); [reflexivity |].
  unfold object_of in IH. now rewrite IH.
Qed.

Lemma read_object_set (d : pydict) (k : pystr) (v : pyval) :
  map (fun kv : pystr * stored => (fst kv, value_of (snd kv)))
    (object_set (object_of d) k (Val v))
  = dict_set d k v.
Proof. rewrite object_set_of. apply read_object_of. Qed.

Lemma dictionary_cases (d : pydict) :
  d = [] \/ (truthy (Some d) = true /\ nonempty (object_of d) = true).
Proof. destruct d; [left | right; split]; reflexivity. Qed.

Ltac use_nonempty :=
  try change (nonempty (object_of [])) with false;
  repeat match goal with
         | H : truthy _ = true |- _ => rewrite H
         | H : nonempty _ = true |- _ => rewrite H
         end.

Ltac run_block :=
  cbn -[nonempty object_of]; use_nonempty;
  cbn -[nonempty object_of]; use_nonempty;
  cbn -[nonempty object_of].

Ltac read_back :=
  repeat first
    [ reflexivity
    | exact (eq_sym (read_object_of _))
    | exact (eq_sym (read_object_set _ _ _))
    | apply f_equal
    | apply f_equal2 ].

(** When [ai_info] and [custom_claims] are two separate dictionaries,
    the manifest read from the store after the block is the manifest of
    [manifest_payload], which takes the two arguments by their values. *)
Lemma manifest_block_separate_dictionaries (a : embed_args)
    (iso : option pystr) :
  exists s' inner_manifest,
    manifest_block (separate_store a) (arg_claim_generator a)
      (arg_actions a) (separate_ai_info a) (separate_custom_claims a)
      (arg_model_id a)
    = Ok (s', inner_manifest)
    /\ dict_get (manifest_payload a iso) (lit "manifest")
       = Some (PDict (read 2%nat s' inner_manifest)).
Proof.
  destruct a as [text key signer format transport model ts generation tg
                   custom cg acts ai cc distribute].
  cbn [arg_claim_generator arg_actions arg_model_id arg_ai_info
         arg_custom_claims].
  destruct cg as [[| g gs] |]; destruct acts as [[| act acts] |];
    destruct model as [[| c m] |].
  all: destruct ai as [ai |];
    [destruct (dictionary_cases ai) as [-> | [Hta Hna]] |].
  all: destruct cc as [cc |];
    [destruct (dictionary_cases cc) as [-> | [Htc Hnc]] |].
  all: unfold manifest_block, manifest_entries, manifest_model_id,
         manifest_payload, separate_store, separate_ai_info,
         separate_custom_claims, set_ai_info_model_id;
       cbn [arg_claim_generator arg_actions arg_model_id arg_ai_info
              arg_custom_claims option_map];
       use_nonempty.
  all: do 2 eexists; split; [run_block; reflexivity |].
  all: run_block; read_back.
Qed.

(** ** Where the selectors go *)

Lemma insert_after_no_selectors (text : pystr) (pos : nat)
    (targets : list nat) :
  insert_after text pos targets [] = text.
Proof. destruct text as [| c r]; [reflexivity |]. now destruct targets. Qed.

Lemma insert_after_no_targets (text : pystr) (pos : nat) (sel : list Z) :
  insert_after text pos [] sel = text.
Proof. now destruct text. Qed.

Lemma skipn_cons_nth (text : pystr) (i : nat) (c : Z) :
  nth_error text i = Some c -> skipn i text = c :: skipn (S i) text.
Proof.
  revert text. induction i as [| i IH]; intros [| x text] H;
    try discriminate; simpl in *.
  - now apply some_inj in H; subst.
  - now apply IH.
Qed.

Lemma slice_cons (text : pystr) (a b : nat) (x : Z) :
  (a < b)%nat -> nth_error text a = Some x ->
  slice text a b = x :: slice text (S a) b.
Proof.
  intros Hab Hx.
  rewrite (slice_split text a (S a) b) by lia.
  rewrite <- Nat.add_1_r, (slice_one text a x Hx). reflexivity.
Qed.

(** The walk up to the next target. *)
Lemma insert_after_next_target (text : pystr) (t : nat) (c s : Z)
    (rest : list nat) (ss : list Z) :
  nth_error text t = Some c ->
  forall d last, t = (last + d)%nat ->
    insert_after (skipn last text) last (t :: rest) (s :: ss)
    = slice text last t ++ [c; s]
        ++ insert_after (skipn (S t) text) (S t) rest ss.
Proof.
  intros Hc. induction d as [| d IH]; intros last Ht.
  - rewrite Nat.add_0_r in Ht. subst last.
    rewrite (skipn_cons_nth text t c Hc). cbn [insert_after].
    rewrite Nat.eqb_refl. unfold slice. now rewrite Nat.sub_diag.
  - assert (Hlast : exists x, nth_error text last = Some x).
    { destruct (nth_error text last) as [x |] eqn:E; [eauto |].
      apply nth_error_None in E.
      assert (t < length text)%nat by (apply nth_error_Some; congruence).
      lia. }
    destruct Hlast as [x Hx].
    rewrite (skipn_cons_nth text last x Hx). cbn [insert_after].
    replace (last =? t)%nat with false by (symmetry; apply Nat.eqb_neq; lia).
    rewrite (IH (S last)) by lia.
    rewrite (slice_cons text last t x) by (lia || assumption).
    reflexivity.
Qed.

Lemma distribute_loop_walk (text : pystr) (sel : list Z) :
  forall (targets : list nat) (parts : list pystr) (last idx : nat)
         (parts' : list pystr) (last' : nat),
    increasing_from last targets ->
    distribute_loop text sel targets parts last idx = Ok (parts', last') ->
    concat parts' ++ skipn last' text
    = concat parts
        ++ insert_after (skipn last text) last targets (skipn idx sel).
Proof.
  induction targets as [| t rest IH];
    intros parts last idx parts' last' Hinc H; simpl in H.
  - apply ok_inj in H. injection H as <- <-.
    now rewrite insert_after_no_targets.
  - destruct (idx <? length sel)%nat eqn:Hidx.
    + destruct (nth_error text t) as [c |] eqn:Hc; [| discriminate].
      destruct (nth_error sel idx) as [s |] eqn:Hs; [| discriminate].
      destruct Hinc as [Hlt Hinc]. rewrite !Nat.add_1_r in H.
      rewrite (IH _ _ _ _ _ Hinc H).
      rewrite (skipn_cons_nth sel idx s Hs).
      rewrite (insert_after_next_target text t c s rest _ Hc (t - last) last)
        by lia.
      rewrite concat_app. simpl. now rewrite <- !app_assoc.
    + apply Nat.ltb_ge in Hidx. apply ok_inj in H. injection H as <- <-.
      rewrite (skipn_all2 sel) by exact Hidx.
      now rewrite insert_after_no_selectors.
Qed.

Lemma embed_splice_targets (L : PyLib) (a : embed_args) (sel : list Z)
    (targets : list nat) :
  find_targets L (arg_text a) (arg_target a) = Ok targets ->
  embed_splice L a sel
  = match targets with
    | [] => Raise ValueError
    | first_target :: _ =>
        if arg_distribute_across_targets a then
          if (length targets <? length sel)%nat then Raise ValueError
          else
            st <- distribute_loop (arg_text a) sel (sort_indices targets)
                    [] 0 0 ;;
            let '(result_parts, last_text_idx) := st in
            Ok (concat (result_parts
                          ++ [slice_from (arg_text a) last_text_idx]))
        else
          Ok (slice_to (arg_text a) (first_target + 1) ++ sel
                ++ slice_from (arg_text a) (first_target + 1))
    end.
Proof.
  intros Ht. unfold embed_splice. cbv zeta.
  rewrite find_targets_default, Ht. reflexivity.
Qed.

Lemma embed_metadata_splices (L : PyLib) (a : embed_args) (sel : list Z) :
  embed_selectors L a = Ok sel -> sel <> [] ->
  embed_metadata L a = embed_splice L a sel.
Proof.
  intros Hsel Hne. unfold embed_metadata. rewrite Hsel. cbn [bind].
  destruct sel; [contradiction | reflexivity].
Qed.

Lemma distributed_result (L : PyLib) (a : embed_args) (sel : list Z)
    (targets : list nat) (text' : pystr) :
  find_targets L (arg_text a) (arg_target a) = Ok targets ->
  arg_distribute_across_targets a = true ->
  embed_splice L a sel = Ok text' ->
  text' = insert_after (arg_text a) 0 targets sel
  /\ (length sel <= length targets)%nat /\ targets <> [].
Proof.
  intros Ht Hd H. rewrite (embed_splice_targets L a sel targets Ht), Hd in H.
  pose proof (find_targets_increasing _ _ _ _ Ht) as Hinc.
  destruct targets as [| t rest]; [discriminate |].
  destruct (length (t :: rest) <? length sel)%nat eqn:Hcap; [discriminate |].
  apply Nat.ltb_ge in Hcap.
  rewrite (sort_indices_increasing _ _ Hinc) in H.
  apply bind_ok in H. destruct H as [[parts' last'] [Hloop H]].
  apply ok_inj in H. subst text'.
  pose proof (distribute_loop_walk _ _ _ _ _ _ _ _ Hinc Hloop) as Hwalk.
  simpl in Hwalk. rewrite concat_app. simpl. rewrite app_nil_r.
  unfold slice_from. split; [exact Hwalk |]. split; [exact Hcap | discriminate].
Qed.

(** X18. Where the selectors go. In the single-point mode the returned
    text is the host text with all the selectors right after the first
    target character. In the distributed mode it is the host text in which
    the k-th target character is followed by the k-th selector, for every
    selector, the later targets being left alone. *)
Theorem embed_placement (L : PyLib) (a : embed_args) (sel : list Z)
    (targets : list nat) (text' : pystr) :
  embed_selectors L a = Ok sel -> sel <> [] ->
  find_targets L (arg_text a) (arg_target a) = Ok targets ->
  embed_metadata L a = Ok text' ->
  (arg_distribute_across_targets a = false ->
   exists t rest,
     targets = t :: rest
     /\ text' = firstn (t + 1) (arg_text a) ++ sel
                  ++ skipn (t + 1) (arg_text a))
  /\ (arg_distribute_across_targets a = true ->
      text' = insert_after (arg_text a) 0 targets sel
      /\ (length sel <= length targets)%nat).
Proof.
  intros Hsel Hne Ht H. rewrite (embed_metadata_splices L a sel Hsel Hne) in H.
  split; intros Hd.
  - rewrite (embed_splice_targets L a sel targets Ht), Hd in H.
    destruct targets as [| t rest]; [discriminate |].
    apply ok_inj in H. exists t, rest. split; [reflexivity |].
    now rewrite <- H.
  - destruct (distributed_result L a sel targets text' Ht Hd H)
      as [Htext [Hcap _]]. auto.
Qed.

Lemma embed_placement_witness :
  exists sel text',
    embed_selectors RefLib spaces_args = Ok sel /\ sel <> []
    /\ find_targets RefLib (arg_text spaces_args) (arg_target spaces_args)
       = Ok (seq 0 300)
    /\ embed_metadata RefLib spaces_args = Ok text'
    /\ text' = insert_after (arg_text spaces_args) 0 (seq 0 300) sel
    /\ (length sel <= length (seq 0 300))%nat.
Proof.
  assert (Hs : exists sel, embed_selectors RefLib spaces_args = Ok sel
                           /\ sel <> [])
    by (eexists; split; [vm_compute; reflexivity | discriminate]).
  destruct Hs as [sel [Hs Hne]].
  assert (Ht : find_targets RefLib (arg_text spaces_args)
                 (arg_target spaces_args) = Ok (seq 0 300))
    by (vm_compute; reflexivity).
  assert (He : exists text', embed_metadata RefLib spaces_args = Ok text')
    by (eexists; vm_compute; reflexivity).
  destruct He as [text' He].
  exists sel, text'. split; [exact Hs |]. split; [exact Hne |].
  split; [exact Ht |]. split; [exact He |].
  exact (proj2 (embed_placement RefLib spaces_args sel (seq 0 300) text'
                  Hs Hne Ht He) eq_refl).
Defined.

(** ** Reading a distributed embedding *)

Lemma insert_after_head (text : pystr) (pos : nat) (targets : list nat)
    (sel : list Z) :
  firstn 1 (insert_after text pos targets sel) = firstn 1 text.
Proof.
  destruct text as [| c rest]; [reflexivity |].
  destruct targets as [| t targets]; [reflexivity |].
  destruct sel as [| s sel]; [reflexivity |].
  cbn [insert_after]. now destruct (pos =? t)%nat.
Qed.

Lemma no_vs_firstn_skipn (n : nat) (text : pystr) :
  no_vs text -> no_vs (firstn n text) /\ no_vs (skipn n text).
Proof.
  intros H. unfold no_vs in *. rewrite <- (firstn_skipn n text) in H.
  now apply Forall_app in H.
Qed.

Lemma one_selector (s b : Z) :
  from_variation_selector s = Some b ->
  _bytes_to_variation_selectors [b] = Ok [s].
Proof.
  intros H. destruct (from_variation_selector_back s b H) as [_ Hb].
  unfold _bytes_to_variation_selectors. cbn [map]. rewrite Hb. reflexivity.
Qed.

(** X19. The distributed mode cannot be read back. On a host text without
    variation selectors of its own, a distributed embedding of two or more
    selectors leaves one character of the host between the first selector
    and the second, where [extract_bytes] stops: it returns the first byte
    of the envelope and nothing else. *)
Theorem distributed_embedding_reads_one_byte (L : PyLib) (a : embed_args)
    (sel : list Z) (text' : pystr) :
  embed_selectors L a = Ok sel ->
  (2 <= length sel)%nat ->
  arg_distribute_across_targets a = true ->
  no_vs (arg_text a) ->
  embed_metadata L a = Ok text' ->
  exists b0,
    from_variation_selector (hd 0 sel) = Some b0
    /\ extract_bytes text' = [b0].
Proof.
  intros Hsel Hlen Hd Hclear H.
  destruct sel as [| s0 [| s1 ss]]; try (simpl in Hlen; lia).
  assert (Hne : s0 :: s1 :: ss <> []) by discriminate.
  rewrite (embed_metadata_splices L a _ Hsel Hne) in H.
  assert (Ht : exists targets,
             find_targets L (arg_text a) (arg_target a) = Ok targets).
  { pose proof H as H'. unfold embed_splice in H'. cbv zeta in H'.
    apply bind_ok in H'. destruct H' as [targets [Ht _]].
    apply try_except_raising_ok in Ht. rewrite find_targets_default in Ht.
    eauto. }
  destruct Ht as [targets Ht].
  destruct (distributed_result L a _ targets text' Ht Hd H)
    as [Htext [Hcap _]].
  destruct targets as [| t rest]; [simpl in Hcap; lia |].
  pose proof (find_targets_in_range L _ _ _ Ht) as Hrange.
  assert (Hc : exists c, nth_error (arg_text a) t = Some c).
  { now inversion Hrange. }
  destruct Hc as [c Hc].
  pose proof (insert_after_next_target (arg_text a) t c s0 rest (s1 :: ss)
                Hc t 0 eq_refl) as Hwalk.
  simpl skipn in Hwalk at 1. rewrite Hwalk in Htext. clear Hwalk.
  destruct (embed_selectors_stages L a _ Hsel) as [st Hst].
  pose proof (st_selectors_eq L a st) as Hbytes. rewrite Hst in Hbytes.
  pose proof (selectors_decode _ _ Hbytes) as HF.
  inversion HF as [| s b sel' data' Hb0 _ E1 E2]. subst.
  exists b. split; [exact Hb0 |].
  change (slice (arg_text a) 0 t ++ [c; s0]
            ++ insert_after (skipn (S t) (arg_text a)) (S t) rest (s1 :: ss))
    with (slice (arg_text a) 0 t ++ [c] ++ [s0]
            ++ insert_after (skipn (S t) (arg_text a)) (S t) rest (s1 :: ss)).
  rewrite app_assoc.
  apply (extract_bytes_spliced _ _ [s0] [b]).
  - exact (one_selector _ _ Hb0).
  - discriminate.
  - apply Forall_app. split.
    + unfold slice. apply no_vs_firstn_skipn. now apply no_vs_firstn_skipn.
    + constructor; [| constructor].
      unfold no_vs in Hclear. rewrite Forall_forall in Hclear.
      apply Hclear. exact (nth_error_In _ _ Hc).
  - rewrite insert_after_head. apply no_vs_firstn_skipn.
    now apply no_vs_firstn_skipn.
Qed.

Lemma distributed_embedding_reads_one_byte_witness :
  exists sel text' b0,
    embed_selectors RefLib spaces_args = Ok sel
    /\ (2 <= length sel)%nat
    /\ embed_metadata RefLib spaces_args = Ok text'
    /\ from_variation_selector (hd 0 sel) = Some b0
    /\ extract_bytes text' = [b0].
Proof.
  assert (Hs : exists sel, embed_selectors RefLib spaces_args = Ok sel
                           /\ (2 <=? length sel)%nat = true)
    by (eexists; split; vm_compute; reflexivity).
  destruct Hs as [sel [Hs Hlen]]. apply Nat.leb_le in Hlen.
  assert (He : exists text', embed_metadata RefLib spaces_args = Ok text')
    by (eexists; vm_compute; reflexivity).
  destruct He as [text' He].
  assert (Hclear : no_vs (arg_text spaces_args)).
  { apply Forall_forall. intros c Hin. apply repeat_spec in Hin.
    now subst c. }
  destruct (distributed_embedding_reads_one_byte RefLib spaces_args sel text'
              Hs Hlen eq_refl Hclear He) as [b0 [Hb0 Hx]].
  exists sel, text', b0. auto.
Defined.

(** ** Verification and extraction on any text *)

(** What [verify_and_extract_metadata] does, on every text: without an
    envelope it returns at once; with one it calls the resolver once, with
    the signer id of the envelope. *)
Lemma verify_outcome (L : PyLib) (text : pystr) (provider : provider_arg)
    (flag : bool) :
  (_extract_outer_payload L text = None
   /\ verify_and_extract_metadata L text provider flag
      = {| provider_calls := []; returned := Ok (PNone, false, PNone) |})
  \/ (exists outer inner_payload signature_b64 signer_id,
        _extract_outer_payload L text = Some outer
        /\ dict_get outer (lit "payload") = Some inner_payload
        /\ dict_get outer (lit "signature") = Some signature_b64
        /\ dict_get outer (lit "signer_id") = Some signer_id
        /\ verify_and_extract_metadata L text provider flag
           = {| provider_calls := [signer_id];
                returned :=
                  match call_provider provider signer_id with
                  | Ok (Some public_key) =>
                      if negb (is_asymmetric_public_key public_key)
                      then failure flag inner_payload signer_id
                      else verify_with_key L public_key inner_payload
                             signature_b64 signer_id flag
                  | _ => failure flag inner_payload signer_id
                  end |}).
Proof.
  destruct (_extract_outer_payload L text) as [outer |] eqn:Hx.
  - right. destruct (extracted_keys L text outer Hx) as [p [s [i [Hp [Hs Hi]]]]].
    exists outer, p, s, i. repeat (split; [assumption || reflexivity |]).
    exact (verify_after_extraction L text outer provider flag p s i
             Hx Hp Hs Hi).
  - left. split; [reflexivity |].
    unfold verify_and_extract_metadata. now rewrite Hx.
Qed.

(** The steps with the key in hand return the payload with the verdict
    true, or the failure triple, or raise [ValueError]. *)
Lemma verify_with_key_outcome (L : PyLib) (key : public_key_obj)
    (inner_payload signature_b64 signer_id : pyval) (flag : bool) :
  (verify_with_key L key inner_payload signature_b64 signer_id flag
   = Raise ValueError
   /\ reserializes L inner_payload = true
   /\ non_ascii_str signature_b64 = true)
  \/ verify_with_key L key inner_payload signature_b64 signer_id flag
     = failure flag inner_payload signer_id
  \/ (verify_with_key L key inner_payload signature_b64 signer_id flag
      = Ok (inner_payload, true, signer_id)
      /\ exists d message signature,
           py_dict L inner_payload = Ok d
           /\ serialize_payload L d JSON = Ok message
           /\ decode_signature L signature_b64 = Ok signature
           /\ verify_signature L key message signature = Ok true).
Proof.
  rewrite verify_with_key_cases. unfold reserializes.
  destruct (py_dict L inner_payload) as [d | e] eqn:Hd; cbn [bind];
    [| right; left; reflexivity].
  destruct (serialize_payload L d JSON) as [message | e] eqn:Hm;
    [| right; left; reflexivity].
  cbn [andb].
  destruct (non_ascii_str signature_b64) eqn:Hsig; [left; auto |].
  destruct (decode_signature L signature_b64) as [signature | e] eqn:Hdec;
    [| right; left; reflexivity].
  destruct (verify_signature L key message signature) as [[|] | e] eqn:Hv;
    try (right; left; reflexivity).
  right; right. split; [reflexivity |]. exists d, message, signature. auto.
Qed.

(** X20. A text without variation selectors carries nothing: the
    verification returns [(None, False, None)] without calling the
    resolver, whatever the resolver is, and [extract_metadata] returns
    [None]. *)
Theorem verify_plain_text (L : PyLib) (text : pystr)
    (provider : provider_arg) (flag : bool) :
  no_vs text ->
  verify_and_extract_metadata L text provider flag
  = {| provider_calls := []; returned := Ok (PNone, false, PNone) |}
  /\ extract_metadata L text = PNone.
Proof.
  intros Hclear.
  assert (Hx : _extract_outer_payload L text = None).
  { unfold _extract_outer_payload. cbv zeta.
    now rewrite (proj2 (proj2 (extract_bytes_bytes_nil text)) Hclear). }
  unfold verify_and_extract_metadata, extract_metadata. now rewrite Hx.
Qed.

Lemma verify_plain_text_witness :
  no_vs (lit "Hello World")
  /\ verify_and_extract_metadata RefLib (lit "Hello World") raising_resolver
       true
     = {| provider_calls := []; returned := Ok (PNone, false, PNone) |}
  /\ extract_metadata RefLib (lit "Hello World") = PNone.
Proof.
  assert (H : no_vs (lit "Hello World")) by (repeat constructor).
  split; [exact H |].
  exact (verify_plain_text RefLib (lit "Hello World") raising_resolver true H).
Defined.

(** X21. [verify_metadata] and [verify_and_extract_metadata] agree on
    every text when the resolver is callable. They differ on an object
    that cannot be called: [verify_metadata] raises [TypeError] on every
    text but the empty one, before looking at the text, while
    [verify_and_extract_metadata] never raises for it: the failed call is
    caught, and a text with an envelope gives the failure triple. *)
Theorem verify_metadata_forwards (L : PyLib) (text : pystr) (flag : bool) :
  (forall f,
     verify_metadata L text (Callable f) flag
     = verify_and_extract_metadata L text (Callable f) flag)
  /\ (text <> [] ->
      verify_metadata L text NotCallable flag
      = {| provider_calls := []; returned := Raise TypeError |})
  /\ (forall outer inner_payload signer_id,
        _extract_outer_payload L text = Some outer ->
        dict_get outer (lit "payload") = Some inner_payload ->
        dict_get outer (lit "signer_id") = Some signer_id ->
        verify_and_extract_metadata L text NotCallable flag
        = {| provider_calls := [signer_id];
             returned := failure flag inner_payload signer_id |}).
Proof.
  split; [| split].
  - intros f. destruct text as [| c text]; reflexivity.
  - intros Hne. destruct text as [| c text]; [congruence | reflexivity].
  - intros outer inner_payload signer_id Hx Hp Hi.
    destruct (extracted_keys L text outer Hx) as [p [s [i [_ [Hs _]]]]].
    now rewrite (verify_after_extraction L text outer NotCallable flag
                   inner_payload s signer_id Hx Hp Hs Hi).
Qed.

Lemma verify_metadata_forwards_witness :
  tampered_text <> []
  /\ verify_metadata RefLib tampered_text NotCallable false
     = {| provider_calls := []; returned := Raise TypeError |}
  /\ verify_and_extract_metadata RefLib tampered_text NotCallable false
     = {| provider_calls := [PStr (lit "demo")];
          returned := Ok (PNone, false, PStr (lit "demo")) |}.
Proof.
  assert (Hne : tampered_text <> []) by discriminate.
  assert (Hx : _extract_outer_payload RefLib tampered_text
               = Some tampered_outer) by (vm_compute; reflexivity).
  destruct (verify_metadata_forwards RefLib tampered_text false)
    as [_ [Hraise Hcaught]].
  split; [exact Hne |]. split; [exact (Hraise Hne) |].
  exact (Hcaught tampered_outer
           (PDict [(lit "signer_id", PStr (lit "demo"))])
           (PStr (lit "demo")) Hx eq_refl eq_refl).
Defined.

(** X22. The one exception of the verification. When
    [verify_and_extract_metadata] raises, it raises [ValueError], and the
    text carries an envelope whose signature is a string with a character
    outside ASCII, for whose signer the resolver returned a key of an
    accepted class, and whose payload serializes again. The [TypeError],
    [KeyError] and [InvalidSignature] of the docstring are never raised:
    an error of the resolver, a key of another type and a signature that
    does not verify all end in the failure triple. *)
Theorem verify_raises_only_value_error (L : PyLib) (text : pystr)
    (provider : provider_arg) (flag : bool) (e : exn) :
  returned (verify_and_extract_metadata L text provider flag) = Raise e ->
  e = ValueError
  /\ exists outer inner_payload signature_b64 signer_id key,
       _extract_outer_payload L text = Some outer
       /\ dict_get outer (lit "payload") = Some inner_payload
       /\ dict_get outer (lit "signature") = Some signature_b64
       /\ dict_get outer (lit "signer_id") = Some signer_id
       /\ call_provider provider signer_id = Ok (Some key)
       /\ is_asymmetric_public_key key = true
       /\ reserializes L inner_payload = true
       /\ non_ascii_str signature_b64 = true.
Proof.
  destruct (verify_outcome L text provider flag)
    as [[_ ->] | [outer [p [s [i [Hx [Hp [Hs [Hi ->]]]]]]]]];
    [discriminate |].
  cbn [returned]. unfold failure.
  destruct (call_provider provider i) as [[key |] | e'] eqn:Hcall;
    try discriminate.
  destruct (is_asymmetric_public_key key) eqn:Hkey; cbn [negb];
    [| discriminate].
  destruct (verify_with_key_outcome L key p s i flag)
    as [[-> [Hser Hsig]] | [-> | [-> _]]]; try discriminate.
  intros H. split; [congruence |].
  exists outer, p, s, i, key. auto 10.
Qed.

Lemma verify_raises_only_value_error_witness :
  returned (verify_and_extract_metadata RefLib tampered_text demo_resolver
              false) = Raise ValueError
  /\ exists signature_b64,
       dict_get tampered_outer (lit "signature") = Some signature_b64
       /\ non_ascii_str signature_b64 = true.
Proof.
  assert (H : returned (verify_and_extract_metadata RefLib tampered_text
                          demo_resolver false) = Raise ValueError)
    by (vm_compute; reflexivity).
  split; [exact H |].
  destruct (verify_raises_only_value_error RefLib tampered_text
              demo_resolver false ValueError H)
    as [_ [outer [p [s [i [key [Hx [_ [Hs [_ [_ [_ [_ Hsig]]]]]]]]]]]]].
  assert (Hx' : _extract_outer_payload RefLib tampered_text
                = Some tampered_outer) by (vm_compute; reflexivity).
  rewrite Hx' in Hx. apply some_inj in Hx. subst outer.
  exists s. auto.
Defined.

(** X23. A verdict of true is earned. When the verification returns the
    verdict true, the text carries an envelope; the payload and the signer
    id returned are those of the envelope; the resolver returned a key for
    that signer id; and [verify_signature] returned true for that key, the
    canonical serialization of the returned payload and the decoded
    signature of the envelope. *)
Theorem verify_true_is_sound (L : PyLib) (text : pystr)
    (provider : provider_arg) (flag : bool) (payload signer_id : pyval) :
  returned (verify_and_extract_metadata L text provider flag)
  = Ok (payload, true, signer_id) ->
  exists outer signature_b64 key d message signature,
    _extract_outer_payload L text = Some outer
    /\ dict_get outer (lit "payload") = Some payload
    /\ dict_get outer (lit "signature") = Some signature_b64
    /\ dict_get outer (lit "signer_id") = Some signer_id
    /\ provider_calls (verify_and_extract_metadata L text provider flag)
       = [signer_id]
    /\ call_provider provider signer_id = Ok (Some key)
    /\ py_dict L payload = Ok d
    /\ serialize_payload L d JSON = Ok message
    /\ decode_signature L signature_b64 = Ok signature
    /\ verify_signature L key message signature = Ok true.
Proof.
  destruct (verify_outcome L text provider flag)
    as [[_ ->] | [outer [p [s [i [Hx [Hp [Hs [Hi ->]]]]]]]]];
    [discriminate |].
  cbn [returned provider_calls]. unfold failure.
  destruct (call_provider provider i) as [[key |] | e'] eqn:Hcall;
    try discriminate.
  destruct (is_asymmetric_public_key key) eqn:Hkey; cbn [negb];
    [| discriminate].
  destruct (verify_with_key_outcome L key p s i flag)
    as [[-> _] | [-> | [-> [d [message [signature [Hd [Hm [Hdec Hv]]]]]]]]];
    try discriminate.
  intros H. apply ok_inj in H. injection H as <- <-.
  exists outer, s, key, d, message, signature. auto 12.
Qed.

Lemma verify_true_is_sound_witness :
  exists text' payload key message signature,
    embed_metadata RefLib hello_args = Ok text'
    /\ returned (verify_and_extract_metadata RefLib text' demo_resolver false)
       = Ok (PDict payload, true, PStr (lit "demo"))
    /\ call_provider demo_resolver (PStr (lit "demo")) = Ok (Some key)
    /\ serialize_payload RefLib payload JSON = Ok message
    /\ verify_signature RefLib key message signature = Ok true.
Proof.
  assert (He : exists text', embed_metadata RefLib hello_args = Ok text')
    by (eexists; vm_compute; reflexivity).
  destruct He as [text' He].
  assert (Hv : exists payload,
             returned (verify_and_extract_metadata RefLib text'
                         demo_resolver false)
             = Ok (PDict payload, true, PStr (lit "demo"))).
  { vm_compute in He. apply ok_inj in He. subst text'.
    eexists. vm_compute. reflexivity. }
  destruct Hv as [payload Hv].
  destruct (verify_true_is_sound RefLib text' demo_resolver false
              (PDict payload) (PStr (lit "demo")) Hv)
    as [outer [s [key [d [message [signature
         [_ [_ [_ [_ [_ [Hcall [Hd [Hm [_ Hverify]]]]]]]]]]]]]]].
  cbn [py_dict] in Hd. apply ok_inj in Hd. subst d.
  exists text', payload, key, message, signature. auto 6.
Defined.

(** X24. The flag [return_payload_on_failure] changes nothing but the
    payload of a failed verdict. The two calls make the same resolver
    calls, raise alike, and return the same verdict and signer id; with
    the verdict true they return the same payload; and with the flag off
    a verdict of false always comes with the payload [None], so that no
    payload is returned that did not verify. *)
Theorem verify_flag_only_payload (L : PyLib) (text : pystr)
    (provider : provider_arg) :
  provider_calls (verify_and_extract_metadata L text provider false)
  = provider_calls (verify_and_extract_metadata L text provider true)
  /\ (forall e,
        returned (verify_and_extract_metadata L text provider false) = Raise e
        <-> returned (verify_and_extract_metadata L text provider true)
            = Raise e)
  /\ (forall payload valid signer_id,
        returned (verify_and_extract_metadata L text provider false)
        = Ok (payload, valid, signer_id) ->
        (valid = false -> payload = PNone)
        /\ exists payload',
             returned (verify_and_extract_metadata L text provider true)
             = Ok (payload', valid, signer_id)
             /\ (valid = true -> payload' = payload)).
Proof.
  destruct (verify_outcome L text provider false)
    as [[Hx Hf] | [outer [p [s [i [Hx [Hp [Hs [Hi Hf]]]]]]]]];
    destruct (verify_outcome L text provider true)
      as [[Hx' Ht] | [outer' [p' [s' [i' [Hx' [Hp' [Hs' [Hi' Ht]]]]]]]]];
    rewrite Hf, Ht; clear Hf Ht; try congruence.
  - cbn [provider_calls returned]. split; [reflexivity |].
    split; [reflexivity |].
    intros payload valid signer_id H. apply ok_inj in H.
    injection H as <- <- <-. split; [reflexivity |]. eauto.
  - rewrite Hx in Hx'. apply some_inj in Hx'. subst outer'.
    rewrite Hp in Hp'. apply some_inj in Hp'. subst p'.
    rewrite Hs in Hs'. apply some_inj in Hs'. subst s'.
    rewrite Hi in Hi'. apply some_inj in Hi'. subst i'.
    cbn [provider_calls returned]. split; [reflexivity |].
    assert (Hfail : forall payload valid signer_id,
              failure false p i = Ok (payload, valid, signer_id) ->
              (valid = false -> payload = PNone)
              /\ exists payload',
                   failure true p i = Ok (payload', valid, signer_id)
                   /\ (valid = true -> payload' = payload)).
    { unfold failure. intros payload valid signer_id H. apply ok_inj in H.
      injection H as <- <- <-. split; [reflexivity |].
      eexists. split; [reflexivity | discriminate]. }
    destruct (call_provider provider i) as [[key |] | e'];
      try (split; [unfold failure; split; discriminate | exact Hfail]).
    destruct (negb (is_asymmetric_public_key key));
      try (split; [unfold failure; split; discriminate | exact Hfail]).
    rewrite !verify_with_key_cases.
    destruct (reserializes L p && non_ascii_str s).
    { split; [reflexivity | discriminate]. }
    destruct (d <- py_dict L p ;; serialize_payload L d JSON)
      as [message | e'];
      try (split; [unfold failure; split; discriminate | exact Hfail]).
    destruct (decode_signature L s) as [signature | e'];
      try (split; [unfold failure; split; discriminate | exact Hfail]).
    destruct (verify_signature L key message signature) as [[|] | e'];
      try (split; [unfold failure; split; discriminate | exact Hfail]).
    split; [split; discriminate |].
    intros payload valid signer_id H. apply ok_inj in H.
    injection H as <- <- <-. split; [discriminate |]. eauto.
Qed.

Lemma verify_flag_only_payload_witness :
  exists text' payload',
    embed_metadata RefLib hello_args = Ok text'
    /\ returned (verify_and_extract_metadata RefLib text' wrong_key_resolver
                   false)
       = Ok (PNone, false, PStr (lit "demo"))
    /\ returned (verify_and_extract_metadata RefLib text' wrong_key_resolver
                   true)
       = Ok (payload', false, PStr (lit "demo")).
Proof.
  assert (He : exists text', embed_metadata RefLib hello_args = Ok text')
    by (eexists; vm_compute; reflexivity).
  destruct He as [text' He].
  assert (Hv : returned (verify_and_extract_metadata RefLib text'
                           wrong_key_resolver false)
               = Ok (PNone, false, PStr (lit "demo"))).
  { vm_compute in He. apply ok_inj in He. subst text'.
    vm_compute. reflexivity. }
  destruct (proj2 (proj2 (verify_flag_only_payload RefLib text'
                            wrong_key_resolver))
              PNone false (PStr (lit "demo")) Hv)
    as [_ [payload' [Hv' _]]].
  exists text', payload'. auto.
Defined.

(** X25. [extract_metadata] returns what the verification returns as the
    payload when it is asked for the payload on failure, if that is a
    dictionary, and [None] otherwise: the unverified payload of the
    envelope. *)
Theorem extract_metadata_is_unverified_payload (L : PyLib) (text : pystr)
    (provider : provider_arg) (payload signer_id : pyval) (valid : bool) :
  returned (verify_and_extract_metadata L text provider true)
  = Ok (payload, valid, signer_id) ->
  extract_metadata L text
  = match payload with
    | PDict d => PDict d
    | _ => PNone
    end.
Proof.
  unfold extract_metadata.
  destruct (verify_outcome L text provider true)
    as [[Hx ->] | [outer [p [s [i [Hx [Hp [Hs [Hi ->]]]]]]]]];
    rewrite Hx; cbn [returned].
  - intros H. apply ok_inj in H. now injection H as <- _ _.
  - rewrite Hp. intros H.
    assert (Hpayload : payload = p).
    { unfold failure in H.
      destruct (call_provider provider i) as [[key |] | e'];
        try (apply ok_inj in H; now injection H as <- _ _).
      destruct (negb (is_asymmetric_public_key key));
        try (apply ok_inj in H; now injection H as <- _ _).
      destruct (verify_with_key_outcome L key p s i true)
        as [[E _] | [E | [E _]]]; rewrite E in H; try discriminate;
        unfold failure in H; apply ok_inj in H; now injection H as <- _ _. }
    subst payload. destruct outer as [| kv outer']; [discriminate |].
    now destruct p.
Qed.

Lemma extract_metadata_is_unverified_payload_witness :
  exists text' payload,
    embed_metadata RefLib hello_args = Ok text'
    /\ returned (verify_and_extract_metadata RefLib text' wrong_key_resolver
                   true)
       = Ok (PDict payload, false, PStr (lit "demo"))
    /\ extract_metadata RefLib text' = PDict payload.
Proof.
  assert (He : exists text', embed_metadata RefLib hello_args = Ok text')
    by (eexists; vm_compute; reflexivity).
  destruct He as [text' He].
  assert (Hv : exists payload,
             returned (verify_and_extract_metadata RefLib text'
                         wrong_key_resolver true)
             = Ok (PDict payload, false, PStr (lit "demo"))).
  { vm_compute in He. apply ok_inj in He. subst text'.
    eexists. vm_compute. reflexivity. }
  destruct Hv as [payload Hv].
  exists text', payload. split; [exact He |]. split; [exact Hv |].
  exact (extract_metadata_is_unverified_payload RefLib text'
           wrong_key_resolver (PDict payload) (PStr (lit "demo")) false Hv).
Defined.

(** ** Embedding, then extracting *)

(** The envelope of a single-point embedding is read back from the
    returned text, when the host text has no variation selector up to the
    character after the anchor and the transport format gives the envelope
    back. *)
Lemma embedded_envelope_extracted (L : PyLib) (a : embed_args)
    (text' : pystr) (outer : pydict) (t : nat) (others : list nat) :
  embed_metadata L a = Ok text' ->
  arg_distribute_across_targets a = false ->
  find_targets L (arg_text a) (arg_target a) = Ok (t :: others) ->
  no_vs (firstn (t + 2) (arg_text a)) ->
  embed_outer_payload L a = Ok outer ->
  transport_lossless L (arg_serialization_format a) outer ->
  text' <> []
  /\ _extract_outer_payload L text' = Some outer
  /\ exists payload signature_b64,
       embed_payload L a = Ok payload
       /\ outer = outer_payload_of a payload signature_b64
       /\ forallb (fun c => c <? 128) signature_b64 = true.
Proof.
  intros Hembed Hmode Htargets Hclear Houter Htransport.
  destruct (embed_metadata_ok L a text' Hembed) as [sel [Hsel Hcases]].
  destruct (embed_selectors_stages L a sel Hsel) as [st Hst].
  pose proof (st_outer_eq L a st) as Houter'.
  rewrite Houter in Houter'. apply ok_inj in Houter'.
  pose proof (st_outer_bytes_eq L a st) as Hbytes. rewrite <- Houter' in Hbytes.
  pose proof (st_selectors_eq L a st) as Hselectors. rewrite Hst in Hselectors.
  destruct (decode_ascii_ok _ _ (st_signature_eq L a st)) as [Hs Hascii].
  rewrite <- Hs in Hascii.
  destruct (serialized_outer_deserializes L _ _ _ Htransport Hbytes)
    as [Hne Hdeser].
  assert (Hselne : sel <> []).
  { intros ->. apply selectors_length in Hselectors.
    destruct (st_outer_bytes L a st); [congruence | discriminate]. }
  rewrite (embed_metadata_splices L a sel Hsel Hselne) in Hembed.
  rewrite (embed_splice_targets L a sel _ Htargets), Hmode in Hembed.
  apply ok_inj in Hembed. unfold slice_to, slice_from in Hembed.
  assert (Hsplit : firstn (t + 2) (arg_text a)
                   = firstn (t + 1) (arg_text a)
                       ++ firstn 1 (skipn (t + 1) (arg_text a))).
  { replace (t + 2)%nat with ((t + 1) + 1)%nat by lia. apply firstn_add. }
  rewrite Hsplit in Hclear. apply Forall_app in Hclear.
  destruct Hclear as [Hbefore Hafter].
  assert (Hextract : extract_bytes text' = st_outer_bytes L a st).
  { rewrite <- Hembed.
    now apply (extract_bytes_spliced _ _ sel (st_outer_bytes L a st)). }
  split; [| split].
  - rewrite <- Hembed. destruct sel; [congruence |].
    intros H. apply app_eq_nil in H. destruct H as [_ H]. discriminate.
  - unfold _extract_outer_payload. cbv zeta. rewrite Hextract.
    destruct (st_outer_bytes L a st) as [| b0 bs]; [congruence |].
    rewrite Hdeser, Houter'. reflexivity.
  - exists (st_payload L a st), (st_signature_b64 L a st).
    split; [exact (st_payload_eq L a st) |]. split; assumption.
Qed.

(** X26. Extraction after embedding needs no key. Under the conditions of
    C1 on the host text and the transport format, and whatever the signing
    key and the serializer of the signature are, [extract_metadata] on the
    text that [embed_metadata] returned gives the payload that was
    embedded. *)
Theorem extract_metadata_after_embed (L : PyLib) (a : embed_args)
    (text' : pystr) (payload outer : pydict) (t : nat) (others : list nat) :
  embed_metadata L a = Ok text' ->
  arg_distribute_across_targets a = false ->
  find_targets L (arg_text a) (arg_target a) = Ok (t :: others) ->
  no_vs (firstn (t + 2) (arg_text a)) ->
  embed_payload L a = Ok payload ->
  embed_outer_payload L a = Ok outer ->
  transport_lossless L (arg_serialization_format a) outer ->
  extract_metadata L text' = PDict payload.
Proof.
  intros Hembed Hmode Htargets Hclear Hpayload Houter Htransport.
  destruct (embedded_envelope_extracted L a text' outer t others Hembed Hmode
              Htargets Hclear Houter Htransport)
    as [_ [Hx [payload' [s [Hpayload' [-> _]]]]]].
  rewrite Hpayload in Hpayload'. apply ok_inj in Hpayload'. subst payload'.
  unfold extract_metadata. rewrite Hx. reflexivity.
Qed.

Lemma extract_metadata_after_embed_witness :
  exists text' payload,
    embed_metadata RefLib manifest_cbor_args = Ok text'
    /\ embed_payload RefLib manifest_cbor_args = Ok payload
    /\ extract_metadata RefLib text' = PDict payload.
Proof.
  assert (He : exists text',
             embed_metadata RefLib manifest_cbor_args = Ok text')
    by (eexists; vm_compute; reflexivity).
  destruct He as [text' He].
  assert (Hp : exists payload,
             embed_payload RefLib manifest_cbor_args = Ok payload)
    by (eexists; vm_compute; reflexivity).
  destruct Hp as [payload Hp].
  assert (Ho : exists outer,
             embed_outer_payload RefLib manifest_cbor_args = Ok outer
             /\ transport_lossless RefLib CBOR outer).
  { eexists. split; [vm_compute; reflexivity |].
    intros b Hb. vm_compute in Hb. apply ok_inj in Hb. subst b.
    split; [discriminate |]. split; [vm_compute; reflexivity |].
    split; [eexists; vm_compute; reflexivity |].
    split; vm_compute; reflexivity. }
  destruct Ho as [outer [Ho Htransport]].
  exists text', payload. split; [exact He |]. split; [exact Hp |].
  apply (extract_metadata_after_embed RefLib manifest_cbor_args text' payload
           outer 2 [] He eq_refl); try assumption.
  - vm_compute. reflexivity.
  - repeat constructor.
Defined.

(** X27. Verifying an embedded text never raises. Under the conditions of
    C1 on the host text and the transport format, and for every callable
    resolver, [verify_metadata] on the text that [embed_metadata] returned
    calls the resolver once, with the signer id of the call, and returns
    the signer id with either the embedded payload and the verdict true,
    or the verdict false and the embedded payload or [None] as the flag
    asks; when the resolver raises, knows no key or returns an object that
    is not a public key, the verdict is false. *)
Theorem verify_after_embed_outcomes (L : PyLib) (a : embed_args)
    (text' : pystr) (payload outer : pydict) (t : nat) (others : list nat)
    (f : pyval -> result (option public_key_obj)) (flag : bool) :
  embed_metadata L a = Ok text' ->
  arg_distribute_across_targets a = false ->
  find_targets L (arg_text a) (arg_target a) = Ok (t :: others) ->
  no_vs (firstn (t + 2) (arg_text a)) ->
  embed_payload L a = Ok payload ->
  embed_outer_payload L a = Ok outer ->
  transport_lossless L (arg_serialization_format a) outer ->
  exists valid,
    verify_metadata L text' (Callable f) flag
    = {| provider_calls := [PStr (arg_signer_id a)];
         returned :=
           Ok (if valid || flag then PDict payload else PNone, valid,
               PStr (arg_signer_id a)) |}
    /\ (valid = true ->
        exists key,
          f (PStr (arg_signer_id a)) = Ok (Some key)
          /\ is_asymmetric_public_key key = true).
Proof.
  intros Hembed Hmode Htargets Hclear Hpayload Houter Htransport.
  destruct (embedded_envelope_extracted L a text' outer t others Hembed Hmode
              Htargets Hclear Houter Htransport)
    as [Hne [Hx [payload' [s [Hpayload' [-> Hascii]]]]]].
  rewrite Hpayload in Hpayload'. apply ok_inj in Hpayload'. subst payload'.
  unfold verify_metadata. destruct text' as [| c0 cs]; [congruence |].
  rewrite (verify_after_extraction L (c0 :: cs) _ (Callable f) flag
             (PDict payload) (PStr s) (PStr (arg_signer_id a)) Hx
             eq_refl eq_refl eq_refl).
  cbn [call_provider]. unfold failure.
  destruct (f (PStr (arg_signer_id a))) as [[key |] | e];
    try (exists false; split; [reflexivity | discriminate]).
  destruct (is_asymmetric_public_key key) eqn:Hkey; cbn [negb];
    [| exists false; split; [reflexivity | discriminate]].
  destruct (verify_with_key_outcome L key (PDict payload) (PStr s)
              (PStr (arg_signer_id a)) flag)
    as [[_ [_ Hsig]] | [-> | [-> _]]].
  - cbn [non_ascii_str] in Hsig. rewrite Hascii in Hsig. discriminate.
  - exists false. split; [reflexivity | discriminate].
  - exists true. split; [reflexivity |]. eauto.
Qed.

Lemma verify_after_embed_outcomes_witness :
  exists text' payload valid,
    embed_metadata RefLib hello_args = Ok text'
    /\ embed_payload RefLib hello_args = Ok payload
    /\ verify_metadata RefLib text' raising_resolver true
       = {| provider_calls := [PStr (lit "demo")];
            returned :=
              Ok (if valid || true then PDict payload else PNone, valid,
                  PStr (lit "demo")) |}.
Proof.
  assert (He : exists text', embed_metadata RefLib hello_args = Ok text')
    by (eexists; vm_compute; reflexivity).
  destruct He as [text' He].
  assert (Hp : exists payload, embed_payload RefLib hello_args = Ok payload)
    by (eexists; vm_compute; reflexivity).
  destruct Hp as [payload Hp].
  assert (Ho : exists outer,
             embed_outer_payload RefLib hello_args = Ok outer
             /\ transport_lossless RefLib JSON outer).
  { eexists. split; [vm_compute; reflexivity |].
    intros b Hb. vm_compute in Hb. apply ok_inj in Hb. subst b.
    split; [discriminate |]. split; vm_compute; reflexivity. }
  destruct Ho as [outer [Ho Htransport]].
  assert (Ht : find_targets RefLib (arg_text hello_args)
                 (arg_target hello_args) = Ok [5%nat])
    by (vm_compute; reflexivity).
  assert (Hclear : no_vs (firstn (5 + 2) (arg_text hello_args)))
    by (repeat constructor).
  destruct (verify_after_embed_outcomes RefLib hello_args text' payload outer
              5 [] (fun _ => Raise KeyError) true He eq_refl Ht Hclear Hp Ho
              Htransport) as [valid [Hv _]].
  exists text', payload, valid. auto.
Defined.

(** ** The PDF front end *)

(** A positional argument and a keyword for the same parameter cannot
    both be bound. *)
Lemma bind_keywords_bound {V : Type} (params : list pystr)
    (bound : list (pystr * V)) (k : pystr) (v : V)
    (keywords : list (pystr * V)) :
  is_bound bound k = true ->
  bind_keywords params bound ((k, v) :: keywords) = Raise TypeError.
Proof.
  intros H. cbn [bind_keywords]. rewrite H.
  now destruct (negb (existsb (pystr_eqb k) params)).
Qed.

(** X28. [EncypherPDF.from_text] cannot succeed. It passes [timestamp] as
    the fourth positional argument of [embed_metadata], which is the
    parameter [metadata_format], and passes [metadata_format] by keyword
    as well: the call raises [TypeError] for every input, before the body
    of [embed_metadata] runs and before any file is written. *)
Theorem from_text_raises_type_error {V Document : Type}
    (embed_metadata_body : list (pystr * V) -> result pystr)
    (generate_pdf : pystr -> V -> result Document)
    (text output_path private_key signer_id timestamp : V)
    (metadata_format target : V) (metadata_kwargs : list (pystr * V)) :
  from_text embed_metadata_body generate_pdf text output_path private_key
    signer_id timestamp metadata_format target metadata_kwargs
  = Raise TypeError
  /\ bind_positional embed_metadata_parameters
       [text; private_key; signer_id; timestamp]
     = Ok [(lit "text", text); (lit "private_key", private_key);
           (lit "signer_id", signer_id); (lit "metadata_format", timestamp)].
Proof.
  split; [| reflexivity].
  unfold from_text, bind_arguments.
  change (bind_positional embed_metadata_parameters
            [text; private_key; signer_id; timestamp])
    with (Ok [(lit "text", text); (lit "private_key", private_key);
              (lit "signer_id", signer_id);
              (lit "metadata_format", timestamp)]).
  cbn [bind]. rewrite bind_keywords_bound; reflexivity.
Qed.

(** With the timestamp passed by keyword the arguments of the test of the
    repository bind. *)
Example embed_metadata_binding :
  bind_arguments embed_metadata_parameters embed_metadata_required
    [PStr (lit "Testing PDF metadata"); PStr (lit "key");
     PStr (lit "test-signer")]
    [(lit "timestamp", PStr (lit "2024-01-01T00:00:00Z"));
     (lit "metadata_format", PStr (lit "basic"));
     (lit "target", PStr (lit "whitespace"));
     (lit "model_id", PStr (lit "unit-test-model"))]
  = Ok [(lit "text", PStr (lit "Testing PDF metadata"));
        (lit "private_key", PStr (lit "key"));
        (lit "signer_id", PStr (lit "test-signer"));
        (lit "timestamp", PStr (lit "2024-01-01T00:00:00Z"));
        (lit "metadata_format", PStr (lit "basic"));
        (lit "target", PStr (lit "whitespace"));
        (lit "model_id", PStr (lit "unit-test-model"))].
Proof. vm_compute. reflexivity. Qed.

(** ** [_format_timestamp]: failures and form *)

(** X29. Which timestamps fail, and how. A date and a naive datetime
    never fail. An object of another type gives [TypeError]. An aware
    datetime fails only with what [astimezone] raises. Epoch seconds and
    strings give [ValueError] when the library raises an [OSError] or a
    [ValueError] (a [ValueError] only, for strings); any other exception
    of the parser comes out unchanged, as does what [astimezone] raises
    on the parsed value. *)
Theorem format_timestamp_failures (L : PyLib) (ts : timestamp_input)
    (e : exn) :
  _format_timestamp L (Some ts) = Raise e ->
  match ts with
  | TsDate _ => False
  | TsOther => e = TypeError
  | TsDatetime dt =>
      dt_tzinfo dt <> None /\ datetime_astimezone_utc L dt = Raise e
  | TsEpoch seconds =>
      (e = ValueError
       /\ exists e', datetime_fromtimestamp_utc L seconds = Raise e'
                     /\ (catches COSError e' || catches CValueError e') = true)
      \/ (datetime_fromtimestamp_utc L seconds = Raise e
          /\ (catches COSError e || catches CValueError e) = false)
      \/ (exists dt, datetime_fromtimestamp_utc L seconds = Ok dt
                     /\ dt_tzinfo dt <> None
                     /\ datetime_astimezone_utc L dt = Raise e)
  | TsStr s =>
      (e = ValueError
       /\ exists e', datetime_fromisoformat L (replace_Z s) = Raise e'
                     /\ catches CValueError e' = true)
      \/ (datetime_fromisoformat L (replace_Z s) = Raise e
          /\ catches CValueError e = false)
      \/ (exists dt, datetime_fromisoformat L (replace_Z s) = Ok dt
                     /\ dt_tzinfo dt <> None
                     /\ datetime_astimezone_utc L dt = Raise e)
  end.
Proof.
  assert (Hzone : forall dt,
            (dt <- match dt_tzinfo dt with
                   | None => Ok (replace_tzinfo_utc dt)
                   | Some _ => datetime_astimezone_utc L dt
                   end ;;
             Ok (Some (strftime_iso L dt))) = Raise e ->
            dt_tzinfo dt <> None /\ datetime_astimezone_utc L dt = Raise e).
  { intros dt H. apply bind_raise in H.
    destruct H as [H | [dt' [_ H]]]; [| discriminate].
    destruct (dt_tzinfo dt); [split; [discriminate | exact H] | discriminate]. }
  unfold _format_timestamp. intros H.
  destruct ts as [dt | d | seconds | s |]; cbn [bind] in H.
  - exact (Hzone dt H).
  - discriminate.
  - unfold try_except in H.
    destruct (datetime_fromtimestamp_utc L seconds) as [dt | e'] eqn:Hlib.
    + right; right. exists dt. split; [reflexivity |]. exact (Hzone dt H).
    + cbn [existsb] in H. rewrite orb_false_r in H.
      destruct (catches COSError e' || catches CValueError e') eqn:Hc;
        cbn [bind] in H.
      * left. split; [congruence |]. eauto.
      * right; left. assert (e' = e) by congruence. subst e'. auto.
  - unfold try_except in H.
    destruct (datetime_fromisoformat L (replace_Z s)) as [dt | e'] eqn:Hlib.
    + right; right. exists dt. split; [reflexivity |]. exact (Hzone dt H).
    + cbn [existsb] in H. rewrite orb_false_r in H.
      destruct (catches CValueError e') eqn:Hc; cbn [bind] in H.
      * left. split; [congruence |]. eauto.
      * right; left. assert (e' = e) by congruence. subst e'. auto.
  - congruence.
Qed.

Lemma format_timestamp_failures_witness :
  _format_timestamp RefLib (Some (TsStr (lit "yesterday"))) = Raise ValueError
  /\ ((ValueError = ValueError
       /\ exists e', datetime_fromisoformat RefLib
                       (replace_Z (lit "yesterday")) = Raise e'
                     /\ catches CValueError e' = true)
      \/ (datetime_fromisoformat RefLib (replace_Z (lit "yesterday"))
          = Raise ValueError
          /\ catches CValueError ValueError = false)
      \/ (exists dt, datetime_fromisoformat RefLib
                       (replace_Z (lit "yesterday")) = Ok dt
                     /\ dt_tzinfo dt <> None
                     /\ datetime_astimezone_utc RefLib dt = Raise ValueError)).
Proof.
  assert (H : _format_timestamp RefLib (Some (TsStr (lit "yesterday")))
              = Raise ValueError) by (vm_compute; reflexivity).
  split; [exact H |].
  exact (format_timestamp_failures RefLib (TsStr (lit "yesterday"))
           ValueError H).
Defined.

(** X30. The form of the result. [_format_timestamp] returns [None] for
    [None] only. For any other input that it accepts it returns the year
    as [%Y] renders it, followed by sixteen characters: [-MM-DDTHH:MM:SS]
    with two digits in each field, and a final [Z]; microseconds and the
    offset of the input are not written. For a date the time written is
    midnight. *)
Theorem format_timestamp_form (L : PyLib) (ts : option timestamp_input)
    (o : option pystr) :
  _format_timestamp L ts = Ok o ->
  match ts with
  | None => o = None
  | Some t =>
      exists year mo d h mi s,
        o = Some (strftime_Y L year ++ [45] ++ mo ++ [45] ++ d ++ [84] ++ h
                    ++ [58] ++ mi ++ [58] ++ s ++ [90])
        /\ Forall (fun f => length f = 2%nat
                            /\ Forall (fun c => 48 <= c <= 57) f)
             [mo; d; h; mi; s]
        /\ match t with
           | TsDate day =>
               year = d_year day /\ mo = two_digits (d_month day)
               /\ d = two_digits (d_day day)
               /\ h = lit "00" /\ mi = lit "00" /\ s = lit "00"
           | TsDatetime dt =>
               dt_tzinfo dt = None ->
               year = dt_year dt /\ mo = two_digits (dt_month dt)
               /\ d = two_digits (dt_day dt) /\ h = two_digits (dt_hour dt)
               /\ mi = two_digits (dt_minute dt)
               /\ s = two_digits (dt_second dt)
           | _ => True
           end
  end.
Proof.
  destruct ts as [t |]; [| intros H; apply ok_inj in H; now subst o].
  unfold _format_timestamp. intros H.
  apply bind_ok in H. destruct H as [dt [Hdt H]].
  apply bind_ok in H. destruct H as [dt' [Hdt' H]].
  apply ok_inj in H. subst o.
  exists (dt_year dt'), (two_digits (dt_month dt')),
    (two_digits (dt_day dt')), (two_digits (dt_hour dt')),
    (two_digits (dt_minute dt')), (two_digits (dt_second dt')).
  split; [reflexivity |]. split.
  - repeat (apply Forall_cons;
            [split; [reflexivity | apply two_digits_are_digits] |]).
    apply Forall_nil.
  - destruct t as [dt0 | day | seconds | str |]; try exact I.
    + intros Hnaive. apply ok_inj in Hdt. subst dt0.
      rewrite Hnaive in Hdt'. apply ok_inj in Hdt'. subst dt'.
      repeat split.
    + apply ok_inj in Hdt. subst dt. cbn [dt_tzinfo datetime_combine_min] in Hdt'.
      apply ok_inj in Hdt'. subst dt'. repeat split.
Qed.

Lemma format_timestamp_form_witness :
  exists o year mo d h mi s,
    _format_timestamp RefLib
      (Some (TsDate {| d_year := 2024; d_month := 2; d_day := 29 |}))
    = Ok o
    /\ o = Some (strftime_Y RefLib year ++ [45] ++ mo ++ [45] ++ d ++ [84]
                  ++ h ++ [58] ++ mi ++ [58] ++ s ++ [90])
    /\ year = 2024 /\ mo = lit "02" /\ d = lit "29"
    /\ h = lit "00" /\ mi = lit "00" /\ s = lit "00".
Proof.
  assert (H : exists o,
            _format_timestamp RefLib
              (Some (TsDate {| d_year := 2024; d_month := 2; d_day := 29 |}))
            = Ok o) by (eexists; vm_compute; reflexivity).
  destruct H as [o H].
  destruct (format_timestamp_form RefLib _ o H)
    as [year [mo [d [h [mi [s [Ho [_ [Hy [Hmo [Hd [Hh [Hmi Hs]]]]]]]]]]]]].
  exists o, year, mo, d, h, mi, s.
  split; [exact H |]. split; [exact Ho |]. split; [exact Hy |].
  split; [rewrite Hmo; reflexivity |]. split; [rewrite Hd; reflexivity |].
  auto.
Defined.
